(** * Expense-tracker bot (bot.py, db_utils.py): a shallow embedding

    Strings are Stdlib [string]s (ASCII); Python's Unicode classes
    ([\d], [\w], [\s], [str.isspace]) are modelled on their ASCII part.
    Python floats are modelled as exact rationals [Q]; the [REAL] column
    stores single-precision values, with their rounding and range
    ([Float4]), and [SUM] over it adds in single precision.  The
    [transactions] table is a list of rows in physical (insertion) order.
    [json.loads], [json.dumps], [float]'s text form and the like are
    parameters of the definitions that call them. *)

From Stdlib Require Import ZArith QArith List String Ascii Bool Lia.
From Stdlib Require Import Sorting.Permutation Sorting.Sorted.
From Stdlib Require Import Numbers.DecimalString Numbers.DecimalZ Numbers.DecimalPos.
Import ListNotations.

(* ------------------------------------------------------------------ *)
(** ** Python string primitives *)

Module Py.
Local Open Scope Z_scope.

Definition code (c : ascii) : nat := nat_of_ascii c.

(** [str.isspace] / regex [\s] on ASCII: [\t\n\v\f\r], [\x1c]-[\x1f], space. *)
Definition is_space (c : ascii) : bool :=
  let n := code c in ((9 <=? n) && (n <=? 13))%nat || ((28 <=? n) && (n <=? 32))%nat.

(** regex [\d] *)
Definition is_digit (c : ascii) : bool :=
  let n := code c in ((48 <=? n) && (n <=? 57))%nat.

(** regex [\w]: letters, digits, underscore *)
Definition is_word (c : ascii) : bool :=
  let n := code c in
  is_digit c || ((65 <=? n) && (n <=? 90))%nat || ((97 <=? n) && (n <=? 122))%nat
  || (n =? 95)%nat.

Definition is_alpha (c : ascii) : bool :=
  let n := code c in ((65 <=? n) && (n <=? 90))%nat || ((97 <=? n) && (n <=? 122))%nat.

Fixpoint lstrip (s : string) : string :=
  match s with
  | EmptyString => EmptyString
  | String c s' => if is_space c then lstrip s' else s
  end.

Definition rstrip (s : string) : string :=
  string_of_list_ascii (rev (list_ascii_of_string (lstrip
    (string_of_list_ascii (rev (list_ascii_of_string s)))))).

(** [s.strip()] *)
Definition strip (s : string) : string := rstrip (lstrip s).

(** [s.replace(old, new, n)] for a non-empty [old]: the first [n]
    non-overlapping occurrences, scanning left to right.  [fuel] bounds
    the scan and is the length of [s] at the top. *)
Fixpoint replace_go (old new : string) (fuel n : nat) (s : string) : string :=
  match fuel with
  | O => s
  | S fuel' =>
    match n with
    | O => s
    | S n' =>
      match s with
      | EmptyString => EmptyString
      | String c s' =>
        if String.prefix old s
        then (new ++ replace_go old new fuel' n'
                 (substring (String.length old) (String.length s - String.length old) s))%string
        else String c (replace_go old new fuel' n s')
      end
    end
  end.

(** The empty pattern: [new] is inserted before every character and at
    the end, [n] times at most. *)
Fixpoint replace_empty (new : string) (n : nat) (s : string) : string :=
  match n with
  | O => s
  | S n' =>
    match s with
    | EmptyString => new
    | String c s' => (new ++ String c (replace_empty new n' s'))%string
    end
  end.

Definition replace_n (old new : string) (n : nat) (s : string) : string :=
  match old with
  | EmptyString => replace_empty new n s
  | _ => replace_go old new (S (String.length s)) n s
  end.

(** [s.replace(old, new)]: every occurrence. *)
Definition replace (old new s : string) : string :=
  replace_n old new (S (S (String.length s))) s.

(** [str(n)] for an [int] *)
Definition str_int (n : Z) : string := NilEmpty.string_of_int (Z.to_int n).

(** ["%0<w>d"] for a non-negative [n]: zeros in front up to width [w];
    [fuel] bounds the zeros added. *)
Fixpoint pad_zero_go (fuel w : nat) (s : string) : string :=
  match fuel with
  | O => s
  | S fuel' => if (w <=? String.length s)%nat then s else pad_zero_go fuel' w ("0" ++ s)%string
  end.

Definition pad_zero (w : nat) (s : string) : string := pad_zero_go w w s.

Definition digit_val (c : ascii) : Z := Z.of_nat (code c) - 48.

(** value of a string of decimal digits *)
Fixpoint digits_value_acc (acc : Z) (s : string) : Z :=
  match s with
  | EmptyString => acc
  | String c s' => digits_value_acc (10 * acc + digit_val c) s'
  end.

Definition digits_value (s : string) : Z := digits_value_acc 0 s.

(** [s.split(c)] for the character of code [n] *)
Fixpoint split_sep_acc (n : nat) (acc : list ascii) (s : string) : list string :=
  match s with
  | EmptyString => [string_of_list_ascii (rev acc)]
  | String c s' =>
      if (code c =? n)%nat then string_of_list_ascii (rev acc) :: split_sep_acc n [] s'
      else split_sep_acc n (c :: acc) s'
  end.

Definition split_sep (n : nat) (s : string) : list string := split_sep_acc n [] s.

End Py.

(* ------------------------------------------------------------------ *)
(** ** [datetime.date], [isoformat] and [datetime.strptime(s, "%Y-%m-%d")] *)

Module Date.
Import Py.
Local Open Scope Z_scope.

Record date := mkDate { year : Z; month : Z; day : Z }.

Definition is_leap (y : Z) : bool :=
  (Z.modulo y 4 =? 0) && (negb (Z.modulo y 100 =? 0) || (Z.modulo y 400 =? 0)).

Definition days_in_month (y m : Z) : Z :=
  if (m =? 2) then (if is_leap y then 29 else 28)
  else if (m =? 4) || (m =? 6) || (m =? 9) || (m =? 11) then 30
  else 31.

(** the range check of [datetime.date(year, month, day)] *)
Definition valid_date (d : date) : bool :=
  (1 <=? year d) && (year d <=? 9999) && (1 <=? month d) && (month d <=? 12)
  && (1 <=? day d) && (day d <=? days_in_month (year d) (month d)).

(** [d.isoformat()] = ["%04d-%02d-%02d"] *)
Definition isoformat (d : date) : string :=
  (pad_zero 4 (str_int (year d)) ++ "-" ++ pad_zero 2 (str_int (month d)) ++ "-"
   ++ pad_zero 2 (str_int (day d)))%string.

(** chronological order, as the [DATE] column compares *)
Definition date_leb (a b : date) : bool :=
  (year a <? year b)
  || ((year a =? year b) && ((month a <? month b)
       || ((month a =? month b) && (day a <=? day b)))).

Definition date_eqb (a b : date) : bool :=
  (year a =? year b) && (month a =? month b) && (day a =? day b).

(** [d - timedelta(days=1)] *)
Definition prev_day (d : date) : date :=
  if 1 <? day d then mkDate (year d) (month d) (day d - 1)
  else if 1 <? month d then mkDate (year d) (month d - 1) (days_in_month (year d) (month d - 1))
  else mkDate (year d - 1) 12 31.

(** The alternatives of [_strptime]'s regular expressions, in their
    order; each yields the value and the remaining input.
    [%m] is [(1[0-2]|0[1-9]|[1-9])],
    [%d] is [(3[01]|[12]\d|0[1-9]|[1-9]| [1-9])], [%Y] is [(\d\d\d\d)]. *)
Definition in_range (c : ascii) (lo hi : nat) : bool :=
  ((lo <=? code c) && (code c <=? hi))%nat.

Definition alts_month (s : string) : list (Z * string) :=
  (match s with
   | String a (String b r) =>
       if (code a =? 49)%nat && in_range b 48 50 then [(10 + digit_val b, r)] else []
   | _ => [] end)
  ++ (match s with
      | String a (String b r) =>
          if (code a =? 48)%nat && in_range b 49 57 then [(digit_val b, r)] else []
      | _ => [] end)
  ++ (match s with
      | String a r => if in_range a 49 57 then [(digit_val a, r)] else []
      | _ => [] end).

Definition alts_day (s : string) : list (Z * string) :=
  (match s with
   | String a (String b r) =>
       if (code a =? 51)%nat && in_range b 48 49 then [(30 + digit_val b, r)] else []
   | _ => [] end)
  ++ (match s with
      | String a (String b r) =>
          if in_range a 49 50 && is_digit b then [(10 * digit_val a + digit_val b, r)] else []
      | _ => [] end)
  ++ (match s with
      | String a (String b r) =>
          if (code a =? 48)%nat && in_range b 49 57 then [(digit_val b, r)] else []
      | _ => [] end)
  ++ (match s with
      | String a r => if in_range a 49 57 then [(digit_val a, r)] else []
      | _ => [] end)
  ++ (match s with
      | String a (String b r) =>
          if (code a =? 32)%nat && in_range b 49 57 then [(digit_val b, r)] else []
      | _ => [] end).

Definition is_dash (c : ascii) : bool := (code c =? 45)%nat.

(** The first match of [(\d\d\d\d)-(m)-(d)] at the start of [s]
    (backtracking over the month alternatives, the first day alternative
    that matches), with the input left over. *)
Definition strptime_match (s : string) : option (Z * Z * Z * string) :=
  match s with
  | String y1 (String y2 (String y3 (String y4 (String dash1 r)))) =>
    if is_digit y1 && is_digit y2 && is_digit y3 && is_digit y4 && is_dash dash1 then
      let y := digits_value (String y1 (String y2 (String y3 (String y4 EmptyString)))) in
      let fix try_months (ms : list (Z * string)) :=
        match ms with
        | [] => None
        | (m, String dash2 r') :: ms' =>
            if is_dash dash2 then
              match alts_day r' with
              | (d, r'') :: _ => Some (y, m, d, r'')
              | [] => try_months ms'
              end
            else try_months ms'
        | (_, EmptyString) :: ms' => try_months ms'
        end in
      try_months (alts_month r)
    else None
  | _ => None
  end.

(** [datetime.strptime(s, "%Y-%m-%d").date()]: [None] when it raises
    [ValueError] (no match, unconverted data remains, or a day or year
    out of range). *)
Definition strptime_ymd (s : string) : option date :=
  match strptime_match s with
  | Some (y, m, d, EmptyString) =>
      let dt := mkDate y m d in if valid_date dt then Some dt else None
  | _ => None
  end.

End Date.

(* ------------------------------------------------------------------ *)
(** ** Python values of [json.loads] *)

Module Json.
Local Open Scope string_scope.

(** Python values [json.loads] returns; [JNull] is [None].  [JNonFinite s]
    is a float [nan], [inf] or [-inf] (read from [NaN], [Infinity],
    [-Infinity], or from a number beyond the double range), with [s] the
    text [json.dumps] writes for it. *)
#[warning="-register-all"]
Inductive json :=
| JNull | JBool (b : bool) | JNum (q : Q) | JStr (s : string)
| JArr (l : list json) | JObj (l : list (string * json)) | JNonFinite (s : string).

(** Python's truth value of such a value *)
Definition json_truthy (j : json) : bool :=
  match j with
  | JNull => false
  | JBool b => b
  | JNum q => negb (Qeq_bool q 0)
  | JStr s => negb (String.eqb s EmptyString)
  | JArr l => match l with [] => false | _ => true end
  | JObj l => match l with [] => false | _ => true end
  | JNonFinite _ => true
  end.

End Json.

(* ------------------------------------------------------------------ *)
(** ** PostgreSQL's [REAL]: single-precision values *)

Module Float4.
Local Open Scope Z_scope.

(** [floor(log2(n/d))] for [n, d > 0] *)
Definition floor_log2_q (n d : Z) : Z :=
  let k := Z.log2 n - Z.log2 d in
  if 0 <=? k then (if n <? d * 2 ^ k then k - 1 else k)
  else (if n * 2 ^ (- k) <? d then k - 1 else k).

Fixpoint log10_fuel (fuel : nat) (n : Z) : Z :=
  match fuel with
  | O => 0
  | S f => if n <? 10 then 0 else 1 + log10_fuel f (n / 10)
  end.

(** [floor(log10(n))] for [n > 0] *)
Definition log10_z (n : Z) : Z := log10_fuel (S (Z.to_nat (Z.log2 n))) n.

(** [floor(log10(n/d))] for [n, d > 0] *)
Definition floor_log10_q (n d : Z) : Z :=
  let k := log10_z n - log10_z d in
  if 0 <=? k then (if n <? d * 10 ^ k then k - 1 else k)
  else (if n * 10 ^ (- k) <? d then k - 1 else k).

(** [a / b] rounded to the nearest integer, ties to even ([a >= 0], [b > 0]) *)
Definition div_round_even (a b : Z) : Z :=
  let q := a / b in
  let r := a mod b in
  if 2 * r <? b then q else if b <? 2 * r then q + 1 else if Z.even q then q else q + 1.

(** [m * 2^e] *)
Definition pow2_q (m e : Z) : Q :=
  if 0 <=? e then inject_Z (m * 2 ^ e) else Qred (Qmake m (Z.to_pos (2 ^ (- e)))).

(** IEEE binary32 rounding to nearest, ties to even (what [strtof] and
    the C [float] addition do): 24 significant bits, subnormals down to
    [2^-149].  [None] when the result overflows to an infinity or when a
    nonzero value rounds to zero. *)
Definition f4_round (x : Q) : option Q :=
  let n := Qnum x in
  let d := Zpos (Qden x) in
  if n =? 0 then Some 0%Q
  else
    let a := Z.abs n in
    let e := Z.max (floor_log2_q a d - 23) (-149) in
    let m := if 0 <=? e then div_round_even a (d * 2 ^ e) else div_round_even (a * 2 ^ (- e)) d in
    if m =? 0 then None
    else if (0 <=? e) && (2 ^ 128 <=? m * 2 ^ e) then None
    else Some (pow2_q (Z.sgn n * m) e).

(** [c * 10^e] *)
Definition dec_q (c e : Z) : Q :=
  if 0 <=? e then inject_Z (c * 10 ^ e) else Qred (Qmake c (Z.to_pos (10 ^ (- e)))).

(** The [p]-digit decimals next to a positive single [v], the closer one
    first (ties: the even one first); the first of them that reads back
    as [v]. *)
Definition shortest_at (v : Q) (p : Z) : option Q :=
  let n := Qnum v in
  let d := Zpos (Qden v) in
  let e := floor_log10_q n d - p + 1 in
  let nn := if 0 <=? e then n else n * 10 ^ (- e) in
  let dd := if 0 <=? e then d * 10 ^ e else d in
  let lo := nn / dd in
  let r := nn mod dd in
  let cands :=
    if r =? 0 then [lo]
    else if 2 * r <? dd then [lo; lo + 1]
    else if dd <? 2 * r then [lo + 1; lo]
    else if Z.even lo then [lo; lo + 1] else [lo + 1; lo] in
  option_map (fun c => dec_q c e)
    (find (fun c => match f4_round (dec_q c e) with Some w => Qeq_bool w v | None => false end) cands).

Fixpoint first_shortest (v : Q) (ps : list Z) : Q :=
  match ps with
  | [] => v
  | p :: ps' => match shortest_at v p with Some c => c | None => first_shortest v ps' end
  end.

(** [float4out] of a single (PostgreSQL 12 and later, default
    [extra_float_digits]): the shortest decimal that reads back as the
    same single, the closest such one; nine digits always suffice.
    psycopg2's [float()] of that text is the decimal itself in this model
    of Python floats. *)
Definition f4_shortest (v : Q) : Q :=
  if Qnum v =? 0 then 0%Q
  else if 0 <? Qnum v then first_shortest v [1; 2; 3; 4; 5; 6; 7; 8; 9]
  else Qopp (first_shortest (Qopp v) [1; 2; 3; 4; 5; 6; 7; 8; 9]).

(** An amount written to a [REAL] column: psycopg2 sends [repr(amount)],
    a numeric literal that PostgreSQL converts with [float4in]; the value
    read back is its [float4out] text.  [None] when the conversion raises
    (out of range for type real). *)
Definition real_in (a : Q) : option Q := option_map f4_shortest (f4_round a).

(** The single a stored amount stands for (the text read back rounds to
    the same single). *)
Definition real_value (x : Q) : Q := match f4_round x with Some v => v | None => x end.

End Float4.

(* ------------------------------------------------------------------ *)
(** ** The storage layer (db_utils.py) *)

Module Db.
Import Py Date Json Float4.
Local Open Scope Z_scope.

(** The columns of [transactions] that the operations read or write. *)
Record tx := mkTx {
  id : Z;
  user_id : Z;
  category : string;
  amount : Q;
  currency : string;
  tx_date : date;
  description : option string }.

(** rows in physical order; [INSERT] appends *)
Definition table := list tx.

(** A query either returns rows or raises a database error. *)
Inductive sql_result (A : Type) :=
| Rows (rows : list A)
| SqlError (msg : string).
Arguments Rows {A} rows.
Arguments SqlError {A} msg.

(** A call either returns a value or raises (with the error's message). *)
Inductive result (A : Type) :=
| Ok (v : A)
| Err (msg : string).
Arguments Ok {A} v.
Arguments Err {A} msg.

(** [MAX(id)]: [NULL] on an empty table *)
Definition sql_max (xs : list Z) : option Z :=
  match xs with
  | [] => None
  | x :: xs' => Some (fold_left Z.max xs' x)
  end.

(** [SELECT COALESCE(MAX(id), 0) + 1 as next_id FROM transactions], as a
    mathematical integer; [int4_ok] tells whether [INTEGER] arithmetic
    produces it without raising. *)
Definition next_id (tbl : table) : Z :=
  match sql_max (map id tbl) with Some m => m | None => 0 end + 1.

(** the [INTEGER] and [BIGINT] ranges *)
Definition int4_ok (z : Z) : bool := (- 2 ^ 31 <=? z) && (z <? 2 ^ 31).
Definition int8_ok (z : Z) : bool := (- 2 ^ 63 <=? z) && (z <? 2 ^ 63).

(** psycopg2 refuses a string parameter holding a NUL character. *)
Definition has_nul (s : string) : bool :=
  existsb (fun c => (code c =? 0)%nat) (list_ascii_of_string s).

Definition opt_has_nul (s : option string) : bool :=
  match s with Some t => has_nul t | None => false end.

Definition nul_msg : string := "A string literal cannot contain NUL (0x00) characters.".

Section Insert.
(** [json.loads] ([None] when it raises), [json.dumps], and PostgreSQL's
    [jsonb] input of a text: [Some msg] when the [::jsonb] cast raises
    (it refuses [NaN], [Infinity] and the escape of U+0000, for
    instance), [None] when it accepts the text. *)
Context (json_loads : string -> option json) (json_dumps : json -> string)
        (jsonb_in : string -> option string).

(** [tags_json] of [insert_tx] *)
Definition insert_tags (tags : option string) : option json :=
  match tags with
  | None | Some EmptyString => None
  | Some t =>
      match json_loads t with
      | Some j => Some j
      | None =>
          if String.eqb (strip t) EmptyString then None
          else Some (JArr (map JStr (filter (fun x => negb (String.eqb x EmptyString))
                                           (map strip (split_sep 44 t)))))
      end
  end.

(** the parameter [json.dumps(tags_json) if tags_json else None] *)
Definition tags_param (tags : option string) : option string :=
  match insert_tags tags with
  | Some j => if json_truthy j then Some (json_dumps j) else None
  | None => None
  end.

(** [insert_tx(user_id, category, amount, date_str, description, tags, currency)]
    with the clock's [today] and the table threaded through; returns
    [next_id] and the table after the [INSERT], or the error raised.  The
    errors, in the order they arise: the [SELECT] overflows [INTEGER];
    psycopg2 refuses a NUL character while composing the [INSERT]; the
    parser's [::jsonb] cast of the tags text; then the planner's
    conversions of the values in column order, [user_id] to [INTEGER]
    and [amount] to [REAL].  Any error leaves the table as it was. *)
Definition insert_tx (today : date) (tbl : table) (user_id : Z) (category : string)
    (amount : Q) (date_str : string) (description : option string) (tags : option string)
    (currency : string) : result (Z * table) :=
  let date_obj := match strptime_ymd date_str with Some d => d | None => today end in
  let tparam := tags_param tags in
  let nid := next_id tbl in
  if negb (int4_ok nid) then Err "integer out of range"
  else if has_nul category || has_nul currency || opt_has_nul description || opt_has_nul tparam
  then Err nul_msg
  else
    match match tparam with Some t => jsonb_in t | None => None end with
    | Some msg => Err msg
    | None =>
        if negb (int4_ok user_id) then Err "integer out of range"
        else
          match real_in amount with
          | None => Err "is out of range for type real"
          | Some v => Ok (nid, tbl ++ [mkTx nid user_id category v currency date_obj description])
          end
    end.

End Insert.

(** Stable insertion sort on a boolean order: the model of [ORDER BY]. *)
Section Sort.
Context {A : Type} (le : A -> A -> bool).

Fixpoint insert_by (x : A) (l : list A) : list A :=
  match l with
  | [] => [x]
  | y :: l' => if le x y then x :: y :: l' else y :: insert_by x l'
  end.

Fixpoint sort_by (l : list A) : list A :=
  match l with
  | [] => []
  | x :: l' => insert_by x (sort_by l')
  end.

End Sort.

Definition user_rows (tbl : table) (u : Z) : list tx :=
  filter (fun r => user_id r =? u) tbl.

(** [ORDER BY date DESC, id DESC] *)
Definition recent_le (a b : tx) : bool :=
  negb (date_leb (tx_date a) (tx_date b))
  || (date_eqb (tx_date a) (tx_date b) && (id b <=? id a)).

(** [(id, category, amount, str(date), description)] *)
Definition recent_row := (Z * string * Q * string * option string)%type.

Definition project_recent (r : tx) : recent_row :=
  (id r, category r, amount r, isoformat (tx_date r), description r).

(** [get_transactions(user_id, limit)]: the [LIMIT] parameter is
    converted to [BIGINT], and PostgreSQL refuses a negative one. *)
Definition get_transactions (tbl : table) (user_id : Z) (limit : Z)
    : sql_result recent_row :=
  if negb (int8_ok limit) then SqlError "bigint out of range"
  else if limit <? 0 then SqlError "LIMIT must not be negative"
  else Rows (map project_recent
              (firstn (Z.to_nat limit) (sort_by recent_le (user_rows tbl user_id)))).

Fixpoint dedup (l : list string) : list string :=
  match l with
  | [] => []
  | c :: l' => c :: filter (fun c' => negb (String.eqb c c')) (dedup l')
  end.

(** [float4pl] over the values: single-precision additions, each
    rounded, raising on overflow ([None]).  A nonzero sum of two singles
    is never below [2^-149], so [f4_round] fails here only on overflow. *)
Fixpoint float4_sum_from (acc : Q) (xs : list Q) : option Q :=
  match xs with
  | [] => Some acc
  | x :: xs' =>
      match f4_round (acc + real_value x)%Q with
      | Some s => float4_sum_from s xs'
      | None => None
      end
  end.

(** [SUM(amount)] of a group's stored amounts, read back as psycopg2
    returns it: the [REAL] sum (state type [REAL], rows added in the
    order given) in its [float4out] text.  A group is never empty. *)
Definition sum_real (xs : list Q) : option Q :=
  match xs with
  | [] => Some 0%Q
  | x :: xs' => option_map f4_shortest (float4_sum_from (real_value x) xs')
  end.

(** [get_summary(user_id, start_date)]: [SELECT category, SUM(amount) ...
    GROUP BY category], one group per category in order of first
    appearance (SQL leaves the order open), rows added in table order.
    [start_date] is the date the caller formats with [isoformat()], or
    [None]. *)
Definition summary_rows (tbl : table) (user_id : Z) (start_date : option date) : list tx :=
  filter (fun r => (Db.user_id r =? user_id) &&
                   match start_date with
                   | Some s => date_leb s (tx_date r)
                   | None => true
                   end) tbl.

Definition group_rows (rows : list tx) (c : string) : list tx :=
  filter (fun r => String.eqb (category r) c) rows.

(** all values, or [None] when one is missing *)
Fixpoint all_some {A : Type} (l : list (option A)) : option (list A) :=
  match l with
  | [] => Some []
  | Some x :: l' => option_map (cons x) (all_some l')
  | None :: _ => None
  end.

Definition get_summary (tbl : table) (user_id : Z) (start_date : option date)
    : sql_result (string * Q) :=
  let rows := summary_rows tbl user_id start_date in
  match all_some (map (fun c => option_map (pair c) (sum_real (map amount (group_rows rows c))))
                      (dedup (map category rows))) with
  | Some l => Rows l
  | None => SqlError "value out of range: overflow"
  end.

(** [ORDER BY date] *)
Definition export_le (a b : tx) : bool := date_leb (tx_date a) (tx_date b).

Definition export_row := (Z * string * string * Q * string * option string)%type.

Definition project_export (r : tx) : export_row :=
  (id r, isoformat (tx_date r), category r, amount r, currency r, description r).

(** [get_export_data(user_id)] *)
Definition get_export_data (tbl : table) (user_id : Z) : list export_row :=
  map project_export (sort_by export_le (user_rows tbl user_id)).

End Db.

(* ------------------------------------------------------------------ *)
(** ** The bot handlers (bot.py) *)

Module Bot.
Import Py Date Json Float4 Db.
Local Open Scope Z_scope.
Local Open Scope string_scope.

Definition is_char (n : nat) (c : ascii) : bool := (code c =? n)%nat.

(** [re.sub(r'[^\d\.\-]', '', text)]: every character other than a
    digit, ['.'] and ['-'] is deleted. *)
Fixpoint sanitize_amount (s : string) : string :=
  match s with
  | EmptyString => EmptyString
  | String c s' =>
      if is_digit c || is_char 46 c || is_char 45 c
      then String c (sanitize_amount s') else sanitize_amount s'
  end.

Fixpoint span (p : ascii -> bool) (s : string) : string * string :=
  match s with
  | EmptyString => (EmptyString, EmptyString)
  | String c s' =>
      if p c then let '(a, r) := span p s' in (String c a, r) else (EmptyString, s)
  end.

(** Python's [float(s)] on a string over the characters [0-9], ['.'] and
    ['-'], the only characters that reach it from both call sites: it
    accepts an optional ['-'], digits with at most one ['.'] and at least
    one digit, and yields its exact decimal value. *)
Definition float_of_numeric (s : string) : option Q :=
  let '(neg, s1) :=
    match s with
    | String c r => if is_char 45 c then (true, r) else (false, s)
    | EmptyString => (false, s)
    end in
  let '(ip, s2) := span is_digit s1 in
  let '(fp, s3) :=
    match s2 with
    | String c r => if is_char 46 c then span is_digit r else (EmptyString, s2)
    | EmptyString => (EmptyString, s2)
    end in
  match s3 with
  | String _ _ => None
  | EmptyString =>
      if (String.length ip + String.length fp =? 0)%nat then None
      else
        let v := digits_value (ip ++ fp)%string in
        Some ((if neg then - v else v) # Z.to_pos (10 ^ Z.of_nat (String.length fp)))
  end.

(** [QUICK_RE]: a category of [\w] or ['-'] characters, whitespace, an
    amount of digits and commas with an optional fraction [\.\d+],
    optional whitespace and the rest up to a newline, with [QUICK_RE.match]: every quantifier takes its longest run, since
    no shorter run lets the next item match.  Returns the three groups. *)
Definition quick_re (s : string) : option (string * string * string) :=
  let '(cat, r1) := span (fun c => is_word c || is_char 45 c) s in
  let '(ws, r2) := span is_space r1 in
  let '(ip, r3) := span (fun c => is_digit c || is_char 44 c) r2 in
  let '(frac, r4) :=
    match r3 with
    | String c r =>
        if is_char 46 c then
          let '(fd, r') := span is_digit r in
          match fd with
          | EmptyString => (EmptyString, r3)
          | _ => (String c fd, r')
          end
        else (EmptyString, r3)
    | EmptyString => (EmptyString, r3)
    end in
  let '(_, r5) := span is_space r4 in
  let '(rest, _) := span (fun c => negb (is_char 10 c)) r5 in
  match cat, ws, ip with
  | String _ _, String _ _, String _ _ => Some (cat, (ip ++ frac)%string, rest)
  | _, _, _ => None
  end.

(** [re.search] of the pattern: [--desc], whitespace, a double quote, one
    or more characters other than a double quote (group 1), a double
    quote; the match at the leftmost
    position that has one, as [(group(0), group(1))]. *)
Definition desc_at (s : string) : option (string * string) :=
  if String.prefix "--desc" s then
    let r := substring 6 (String.length s - 6) s in
    let '(ws, r1) := span is_space r in
    match ws, r1 with
    | String _ _, String q r2 =>
        if is_char 34 q then
          let '(g, r3) := span (fun c => negb (is_char 34 c)) r2 in
          match g, r3 with
          | String _ _, String q' _ =>
              if is_char 34 q'
              then Some (("--desc" ++ ws ++ String q (g ++ String q' EmptyString))%string, g)
              else None
          | _, _ => None
          end
        else None
    | _, _ => None
    end
  else None.

Fixpoint desc_search (s : string) : option (string * string) :=
  match desc_at s with
  | Some m => Some m
  | None =>
      match s with
      | EmptyString => None
      | String _ s' => desc_search s'
      end
  end.

(** What [quick_cmd] does with a message. *)
Inductive quick_outcome :=
| QUsage                      (** the usage reply, nothing saved *)
| QRaise                      (** [float(...)] raises [ValueError], unhandled *)
| QDbError (msg : string)     (** [insert_tx] raises, unhandled; nothing saved *)
| QSaved (category : string) (amount : Q) (d : date) (desc : option string).

(** [insert_tx] of bot.py (lines 29-31) passes its arguments on to
    db_utils.insert_tx.  Every handler calls it without [tags], and with
    [tags=None] db_utils.insert_tx applies none of [json.loads],
    [json.dumps] and the [jsonb] input ([Facts.insert_tx_tags_none]): the
    functions given for them here are never called. *)
Definition bot_insert_tx (today : date) (tbl : table) (user_id : Z) (category : string)
    (amount : Q) (date_str : string) (description : option string) (currency : string)
    : result (Z * table) :=
  insert_tx (fun _ => None) (fun _ => EmptyString) (fun _ => None)
    today tbl user_id category amount date_str description None currency.

(** [quick_cmd]; [fp s] is [dateutil.parser.parse(s, fuzzy=True).date()],
    [None] when it raises; [today] is [date.today()]. *)
Definition quick_cmd (fp : string -> option date) (today : date) (uid : Z)
    (text : string) (tbl : table) : quick_outcome * table :=
  let payload := strip (replace_n "/quick" EmptyString 1 text) in
  match quick_re payload with
  | None => (QUsage, tbl)
  | Some (category, amt, rest0) =>
    match float_of_numeric (replace "," EmptyString amt) with
    | None => (QRaise, tbl)
    | Some amount =>
      let rest1 := strip rest0 in
      let '(desc, rest) :=
        match desc_search rest1 with
        | Some (whole, g) => (Some g, replace whole EmptyString rest1)
        | None => (None, rest1)
        end in
      let parsed_date := match fp rest with Some d => d | None => today end in
      match bot_insert_tx today tbl uid category amount (isoformat parsed_date) desc "INR" with
      | Ok (_, tbl') => (QSaved category amount parsed_date desc, tbl')
      | Err msg => (QDbError msg, tbl)
      end
    end
  end.

(** *** [dateutil.parser.parse(s, fuzzy=True)] on a fragment of its inputs

    The library is not part of this repository.  This models the one
    family of inputs the development needs: text made only of letters and
    whitespace whose words are none of the names in dateutil's
    [parserinfo] tables (weekdays, months, am/pm, jumps, hms, UTC zones)
    nor a word Python's [float] accepts ([nan], [inf], [infinity]).  In
    fuzzy mode such words are skipped, no field of the result is set, and
    [parse] raises [ParserError] (String does not contain a date).  Outside
    the fragment the result is [None] (not modelled). *)
Definition lower (c : ascii) : ascii :=
  if ((65 <=? code c) && (code c <=? 90))%nat then ascii_of_nat (code c + 32) else c.

Fixpoint lower_str (s : string) : string :=
  match s with
  | EmptyString => EmptyString
  | String c s' => String (lower c) (lower_str s')
  end.

Definition dateutil_names : list string :=
  [ "mon"; "monday"; "tue"; "tuesday"; "wed"; "wednesday"; "thu"; "thursday";
    "fri"; "friday"; "sat"; "saturday"; "sun"; "sunday";
    "jan"; "january"; "feb"; "february"; "mar"; "march"; "apr"; "april";
    "may"; "jun"; "june"; "jul"; "july"; "aug"; "august"; "sep"; "sept";
    "september"; "oct"; "october"; "nov"; "november"; "dec"; "december";
    "am"; "a"; "pm"; "p"; "at"; "on"; "and"; "ad"; "m"; "t"; "of"; "st";
    "nd"; "rd"; "th"; "h"; "hour"; "hours"; "minute"; "minutes"; "s";
    "second"; "seconds"; "utc"; "gmt"; "z"; "nan"; "inf"; "infinity" ]%string.

Fixpoint split_words_acc (acc : list ascii) (s : string) : list string :=
  match s with
  | EmptyString =>
      match acc with [] => [] | _ => [string_of_list_ascii (rev acc)] end
  | String c s' =>
      if is_space c then
        match acc with
        | [] => split_words_acc [] s'
        | _ => string_of_list_ascii (rev acc) :: split_words_acc [] s'
        end
      else split_words_acc (c :: acc) s'
  end.

Definition dateutil_fragment (s : string) : option (option date) :=
  if forallb (fun c => is_alpha c || is_space c) (list_ascii_of_string s)
     && forallb (fun w => negb (existsb (String.eqb (lower_str w)) dateutil_names))
                (split_words_acc [] s)
  then Some None
  else None.

Definition dateutil_fp (s : string) : option date :=
  match dateutil_fragment s with Some r => r | None => None end.

(** *** The [/add] conversation ([ConversationHandler]) *)

Inductive state := CAT | AMT | DTE | DESC | END.

(** [context.user_data]: the keys the handlers write; it is never cleared *)
Record user_data := mkUD {
  ud_category : option string;
  ud_amount : option Q;
  ud_date : option string }.

(** the updates the conversation sees: a text message that is not a
    command, [/cancel], [/add] *)
Inductive event := EText (s : string) | ECancel | EAdd.

Record conv := mkConv { st : state; ud : user_data; conv_tbl : table }.

Definition cat_handler (text : string) (u : user_data) : state * user_data * string :=
  (AMT, mkUD (Some (strip text)) (ud_amount u) (ud_date u), "Enter amount (numbers):").

Definition amt_handler (text : string) (u : user_data) : state * user_data * string :=
  let t := strip text in
  match float_of_numeric (sanitize_amount t) with
  | None => (AMT, u, "Couldn't parse amount. Enter numeric amount:")
  | Some a =>
      (DTE, mkUD (ud_category u) (Some a) (ud_date u),
       "Enter date (YYYY-MM-DD) or text like 'today' or '2025-11-13':")
  end.

Section Conversation.
Context (fp : string -> option date) (today : date) (uid : Z).

Definition date_handler (text : string) (u : user_data) : state * user_data * string :=
  match fp (strip text) with
  | None => (DTE, u, "Couldn't parse date. Please try again:")
  | Some d => (DESC, mkUD (ud_category u) (ud_amount u) (Some (isoformat d)),
               "Enter description (optional):")
  end.

(** A missing key raises [KeyError], and [insert_tx] may raise: the
    exception leaves the state as it was. *)
Definition desc_handler (text : string) (u : user_data) (tbl : table)
    : state * table * string :=
  match ud_category u, ud_amount u, ud_date u with
  | Some c, Some a, Some d =>
      match bot_insert_tx today tbl uid c a d (Some (strip text)) "INR" with
      | Ok (_, tbl') => (END, tbl', "Saved")
      | Err _ => (DESC, tbl, EmptyString)
      end
  | _, _, _ => (DESC, tbl, EmptyString)
  end.

(** One update.  Outside a conversation only the entry point [/add] is
    handled; inside, the state's text handler or the fallback [/cancel];
    [/add] inside is handled by no handler. *)
Definition step (c : conv) (e : event) : conv * string :=
  match st c, e with
  | END, EAdd => (mkConv CAT (ud c) (conv_tbl c),
                  "Enter category (e.g. food, petrol, creditcard, emi):")
  | END, _ => (c, EmptyString)
  | _, ECancel => (mkConv END (ud c) (conv_tbl c), "Cancelled.")
  | _, EAdd => (c, EmptyString)
  | CAT, EText s => let '(s', u', r) := cat_handler s (ud c) in (mkConv s' u' (conv_tbl c), r)
  | AMT, EText s => let '(s', u', r) := amt_handler s (ud c) in (mkConv s' u' (conv_tbl c), r)
  | DTE, EText s => let '(s', u', r) := date_handler s (ud c) in (mkConv s' u' (conv_tbl c), r)
  | DESC, EText s =>
      let '(s', t', r) := desc_handler s (ud c) (conv_tbl c) in (mkConv s' (ud c) t', r)
  end.

(** One conversation: the updates up to the one that ends it. *)
Fixpoint run (c : conv) (es : list event) : conv :=
  match es with
  | [] => c
  | e :: es' =>
      let c' := fst (step c e) in
      match st c' with
      | END => c'
      | _ => run c' es'
      end
  end.

End Conversation.

(** *** [/export] *)

Definition dq : string := String (ascii_of_nat 34) EmptyString.
Definition nl : string := String (ascii_of_nat 10) EmptyString.

(** [sep.join(parts)] *)
Fixpoint join (sep : string) (parts : list string) : string :=
  match parts with
  | [] => EmptyString
  | [p] => p
  | p :: ps => (p ++ sep ++ join sep ps)%string
  end.

Inductive reply := ReplyText (s : string) | ReplyDocument (filename contents : string).

Section ExportCsv.
(** [str(x)] of a Python [float] *)
Context (str_float : Q -> string).

Definition csv_header : string := "id,date,category,amount,currency,description".

(** the line of one row: [str(id)], the date, the category,
    [str(amount)] and the currency joined by commas, then the description
    (empty for [None]) with each double quote doubled, between double
    quotes *)
Definition csv_line (r : export_row) : string :=
  let '(i, d, c, a, cur, desc0) := r in
  let desc := replace dq (dq ++ dq)%string (match desc0 with Some s => s | None => EmptyString end) in
  join "," [str_int i; d; c; str_float a; cur; (dq ++ desc ++ dq)%string].

Definition export_cmd (tbl : table) (uid : Z) : reply :=
  match get_export_data tbl uid with
  | [] => ReplyText "No data to export."
  | rows => ReplyDocument "expenses.csv" (join nl (csv_header :: map csv_line rows))
  end.

End ExportCsv.

(** The spec's standard CSV escaping of the description, stated on its
    own (not taken from the code): every double quote written twice. *)
Fixpoint csv_double_quotes (s : string) : string :=
  match s with
  | EmptyString => EmptyString
  | String c s' =>
      if Ascii.eqb c (ascii_of_nat 34) then dq ++ dq ++ csv_double_quotes s'
      else String c (csv_double_quotes s')
  end.

(** *** Concrete inputs used below *)

(** a [date.today()] *)
Definition today_ex : date := mkDate 2025 11 13.

Definition no_user_data : user_data := mkUD None None None.

(** [/quick food 250 --desc "lunch" yesterday] *)
Definition quick_lunch_yesterday : string :=
  "/quick food 250 --desc " ++ dq ++ "lunch" ++ dq ++ " yesterday".

(** [/quick food 10 --desc], an empty quoted text, [--desc "lunch"] *)
Definition quick_empty_then_lunch : string :=
  "/quick food 10 --desc " ++ dq ++ dq ++ " --desc " ++ dq ++ "lunch" ++ dq.

(** [/quick food 10 --desc], an empty quoted text, [tomorrow] *)
Definition quick_empty_desc : string :=
  "/quick food 10 --desc " ++ dq ++ dq ++ " tomorrow".

End Bot.

(* ------------------------------------------------------------------ *)
(** ** [/list], [/summary] and the reading of the [/export] file (bot.py) *)

Module Cmds.
Import Py Date Json Float4 Db Bot.
Local Open Scope Z_scope.
Local Open Scope string_scope.

(** [s.split()]: the runs of non-whitespace characters *)
Definition py_split (s : string) : list string := split_words_acc [] s.

(** The digits of a base-10 [int()] literal: digits, where one ['_'] may
    stand between two digits; [None] when the text is not of that form. *)
Fixpoint int_digits (after_digit : bool) (s : string) : option string :=
  match s with
  | EmptyString => if after_digit then Some EmptyString else None
  | String c s' =>
      if is_digit c then option_map (String c) (int_digits true s')
      else if is_char 95 c && after_digit then int_digits false s'
      else None
  end.

(** CPython's default [sys.get_int_max_str_digits()] (3.11 and later,
    and the security releases before): [int()] of a decimal text with
    more digits raises [ValueError]. *)
Definition int_max_str_digits : nat := 4300.

(** [int(s)]: surrounding whitespace, an optional sign, the digits (at
    most [int_max_str_digits] of them, leading zeros counted); [None]
    when it raises [ValueError]. *)
Definition py_int (s0 : string) : option Z :=
  let s := strip s0 in
  let '(neg, r) :=
    match s with
    | String c r => if is_char 45 c then (true, r) else if is_char 43 c then (false, r) else (false, s)
    | EmptyString => (false, s)
    end in
  match int_digits false r with
  | Some ds =>
      if (int_max_str_digits <? String.length ds)%nat then None
      else Some (if neg then - digits_value ds else digits_value ds)
  | None => None
  end.

(** What a command handler does: send a reply, or raise (nothing sent). *)
Inductive outcome := Sent (r : reply) | Raised (err : string).

(** [n] of [list_cmd]: [int(parts[1])] when there is a second word and
    it converts, 10 otherwise. *)
Definition list_limit (text : string) : Z :=
  match py_split text with
  | _ :: p :: _ => match py_int p with Some n => n | None => 10 end
  | _ => 10
  end.

(** [d - timedelta(days=n)] *)
Fixpoint minus_days (n : nat) (d : date) : date :=
  match n with
  | O => d
  | S n' => minus_days n' (prev_day d)
  end.

(** [start] of [summary_cmd]: the period is the lower-cased second word,
    ['month'] when there is none. *)
Definition summary_start (today : date) (text : string) : option date :=
  let period := match py_split text with _ :: p :: _ => lower_str p | _ => "month" end in
  if String.eqb period "today" then Some today
  else if String.eqb period "week" then Some (minus_days 7 today)
  else if String.eqb period "all" then None
  else Some (mkDate (year today) (month today) 1).

Section Render.
(** [str(x)] of a Python [float] *)
Context (str_float : Q -> string).

(** [f"{dt} | {cat} | {amt} | {desc or ''} (id:{tid})"] *)
Definition list_line (r : recent_row) : string :=
  let '(tid, cat, amt, dt, desc) := r in
  dt ++ " | " ++ cat ++ " | " ++ str_float amt ++ " | "
     ++ (match desc with Some d => d | None => EmptyString end)
     ++ " (id:" ++ str_int tid ++ ")".

(** [list_cmd]; the database error of [get_transactions] propagates. *)
Definition list_cmd (tbl : table) (uid : Z) (text : string) : outcome :=
  match get_transactions tbl uid (list_limit text) with
  | SqlError e => Raised e
  | Rows [] => Sent (ReplyText "No transactions yet.")
  | Rows rows => Sent (ReplyText (join nl (map list_line rows)))
  end.

(** [summary_cmd] with [date.today()] = [today]; the database error of
    [get_summary] propagates. *)
Definition summary_cmd (today : date) (tbl : table) (uid : Z) (text : string) : outcome :=
  match get_summary tbl uid (summary_start today text) with
  | SqlError e => Raised e
  | Rows [] => Sent (ReplyText "No transactions for the selected period.")
  | Rows rows => Sent (ReplyText ("Summary:" ++ nl ++
                   join nl (map (fun '(c, t) => c ++ " : " ++ str_float t) rows)))
  end.

End Render.

(** A CSV reader's quoted field (RFC 4180), as a spreadsheet reads the
    description of [expenses.csv]: after the opening double quote, two
    double quotes stand for one and a lone double quote closes the field.
    Returns the field and the input after it. *)
Fixpoint csv_quoted_body (s : string) : option (string * string) :=
  match s with
  | EmptyString => None
  | String c s' =>
      if is_char 34 c then
        match s' with
        | String c2 s'' =>
            if is_char 34 c2
            then option_map (fun '(f, r) => (String c2 f, r)) (csv_quoted_body s'')
            else Some (EmptyString, s')
        | EmptyString => Some (EmptyString, EmptyString)
        end
      else option_map (fun '(f, r) => (String c f, r)) (csv_quoted_body s')
  end.

Definition csv_read_quoted (s : string) : option (string * string) :=
  match s with
  | String c s' => if is_char 34 c then csv_quoted_body s' else None
  | EmptyString => None
  end.

Fixpoint count_char (n : nat) (s : string) : nat :=
  match s with
  | EmptyString => O
  | String c s' => ((if is_char n c then 1 else 0) + count_char n s')%nat
  end.

End Cmds.

(* ------------------------------------------------------------------ *)
(** ** Configuration: [load_env_file], [_get_pool] (db_utils.py, db.py)
    and the bot token ([get_token_from_file], [main] in bot.py) *)

Module Env.
Import Py Date Bot Cmds.
Local Open Scope Z_scope.
Local Open Scope string_scope.

(** [os.environ]; the first binding of a key is its value *)
Definition env := list (string * string).

Definition getenv (e : env) (k : string) : option string :=
  option_map snd (find (fun kv => String.eqb (fst kv) k) e).

(** [os.environ.setdefault(k, v)] *)
Definition setdefault (k v : string) (e : env) : env :=
  match getenv e k with Some _ => e | None => (k, v) :: e end.

(** [s.strip(chars)] for the characters satisfying [p] *)
Fixpoint lstrip_by (p : ascii -> bool) (s : string) : string :=
  match s with
  | EmptyString => EmptyString
  | String c s' => if p c then lstrip_by p s' else s
  end.

Definition rstrip_by (p : ascii -> bool) (s : string) : string :=
  string_of_list_ascii (rev (list_ascii_of_string (lstrip_by p
    (string_of_list_ascii (rev (list_ascii_of_string s)))))).

Definition strip_by (p : ascii -> bool) (s : string) : string := rstrip_by p (lstrip_by p s).

(** the lines of a text file ([for line in f]), each with its ['\n'] *)
Fixpoint file_lines_acc (acc : list ascii) (s : string) : list string :=
  match s with
  | EmptyString => match acc with [] => [] | _ => [string_of_list_ascii (rev acc)] end
  | String c s' =>
      if is_char 10 c then string_of_list_ascii (rev (c :: acc)) :: file_lines_acc [] s'
      else file_lines_acc (c :: acc) s'
  end.

(** A file opened in text mode reads with universal newlines: ['\r\n']
    and a lone ['\r'] are read as ['\n']. *)
Fixpoint universal_newlines (s : string) : string :=
  match s with
  | EmptyString => EmptyString
  | String c s' =>
      if is_char 13 c then
        String (ascii_of_nat 10)
          (match s' with
           | String c2 s'' => if is_char 10 c2 then universal_newlines s'' else universal_newlines s'
           | EmptyString => EmptyString
           end)
      else String c (universal_newlines s')
  end.

Definition file_lines (s : string) : list string := file_lines_acc [] (universal_newlines s).

Definition has_char (n : nat) (s : string) : bool :=
  existsb (is_char n) (list_ascii_of_string s).

(** [s.split(c, 1)] when [c] occurs in [s]: the text before the first [c]
    and the text after it *)
Fixpoint split_at_char (n : nat) (s : string) : string * string :=
  match s with
  | EmptyString => (EmptyString, EmptyString)
  | String c s' =>
      if is_char n c then (EmptyString, s')
      else let '(a, b) := split_at_char n s' in (String c a, b)
  end.

(** The body of the loop of [load_env_file] on one line: the key and
    value it passes to [setdefault], if any. *)
Definition env_line (line0 : string) : option (string * string) :=
  let line := strip line0 in
  if negb (String.eqb line EmptyString) && negb (String.prefix "#" line) && has_char 61 line then
    let '(k0, v0) := split_at_char 61 line in
    let key := strip k0 in
    let value := strip_by (is_char 39) (strip_by (is_char 34) (strip v0)) in
    if negb (String.eqb key EmptyString) && negb (String.eqb value EmptyString)
    then Some (key, value) else None
  else None.

(** [load_env_file()]; [file] is the content of [.env], [None] when it
    does not exist. *)
Definition load_env_file (file : option string) (e : env) : env :=
  match file with
  | None => e
  | Some content =>
      fold_left (fun e line => match env_line line with
                               | Some (k, v) => setdefault k v e
                               | None => e
                               end) (file_lines content) e
  end.

(** The module-level settings of db_utils.py; [None] when
    [int(os.getenv("PGPORT", "5432"))] raises at import. *)
Record pg_settings := mkPg {
  pghost : option string; pgport : Z; pgdatabase : option string;
  pguser : option string; pgpassword : option string; pgsslmode : string }.

Definition pg_settings_of (e : env) : option pg_settings :=
  match py_int (match getenv e "PGPORT" with Some p => p | None => "5432" end) with
  | None => None
  | Some port =>
      Some (mkPg (getenv e "PGHOST") port (getenv e "PGDATABASE") (getenv e "PGUSER")
                 (getenv e "PGPASSWORD")
                 (match getenv e "PGSSLMODE" with Some m => m | None => "require" end))
  end.

(** truth value of an environment value: set and non-empty *)
Definition truthy (o : option string) : bool :=
  match o with Some (String _ _) => true | _ => false end.

(** [f"{x}"] of a [str] or [None] *)
Definition fmt_opt (o : option string) : string :=
  match o with Some s => s | None => "None" end.

Definition conn_string (c : pg_settings) : string :=
  "host=" ++ fmt_opt (pghost c) ++ " port=" ++ str_int (pgport c)
  ++ " dbname=" ++ fmt_opt (pgdatabase c) ++ " user=" ++ fmt_opt (pguser c)
  ++ " password=" ++ fmt_opt (pgpassword c)
  ++ (if String.eqb (pgsslmode c) "require" then " sslmode=require" else EmptyString).

Definition missing_settings_msg : string :=
  "Please set PGHOST, PGDATABASE, PGUSER, PGPASSWORD environment variables. "
  ++ "Create a .env file or set them as environment variables.".

Section Pool.
(** whether [ThreadedConnectionPool(1, 10, conn_string)] connects *)
Context (connects : string -> bool).

(** [_get_pool()] with the global [_pool] threaded through; a pool is
    represented by its connection string.  [inl] is the exception. *)
Definition get_pool (c : pg_settings) (pool : option string)
    : (string + string) * option string :=
  match pool with
  | Some p => (inr p, pool)
  | None =>
      if truthy (pghost c) && truthy (pgdatabase c) && truthy (pguser c) && truthy (pgpassword c)
      then let cs := conn_string c in
           if connects cs then (inr cs, Some cs) else (inl "OperationalError", None)
      else (inl missing_settings_msg, None)
  end.

End Pool.

(** [close_pool()] *)
Definition close_pool (pool : option string) : option string := None.

Definition placeholder_token : string := "REPLACE_WITH_YOUR_BOT_TOKEN".

(** [get_token_from_file()]; [file] is the content of [credentials.txt],
    [None] when it does not exist. *)
Definition get_token_from_file (file : option string) : option string :=
  match file with
  | None => None
  | Some content =>
      match find (fun l => String.prefix "bot_token=" (strip l)) (file_lines content) with
      | Some l => Some (strip (snd (split_at_char 61 l)))
      | None => None
      end
  end.

(** [x or y] on [str]-or-[None] values *)
Definition py_or (x : option string) (y : string) : string :=
  match x with Some (String _ _ as s) => s | _ => y end.

(** The token [main] builds the application with, and whether it logs the
    missing-token error. *)
Definition main_token (bot_token_env : option string) (credentials : option string)
    : string * bool :=
  let tok := py_or bot_token_env (py_or (get_token_from_file credentials) placeholder_token) in
  (tok, String.eqb tok placeholder_token).

End Env.

(* ------------------------------------------------------------------ *)
(** ** [datetime.strptime] for the formats of db.py *)

Module Strp.
Import Py Date.
Local Open Scope Z_scope.

(** The items of a format: its directives, a literal character, and a
    space, which [_strptime] turns into [\s+]. *)
Inductive item := IY | Im | Id | IH | IM | IS | ILit (c : ascii) | ISpace.

(** [%H] is [(2[0-3]|[0-1]\d|\d)] *)
Definition alts_hour (s : string) : list (Z * string) :=
  (match s with
   | String a (String b r) =>
       if (code a =? 50)%nat && in_range b 48 51 then [(20 + digit_val b, r)] else []
   | _ => [] end)
  ++ (match s with
      | String a (String b r) =>
          if in_range a 48 49 && is_digit b then [(10 * digit_val a + digit_val b, r)] else []
      | _ => [] end)
  ++ (match s with
      | String a r => if is_digit a then [(digit_val a, r)] else []
      | _ => [] end).

(** [%M] is [([0-5]\d|\d)] *)
Definition alts_minute (s : string) : list (Z * string) :=
  (match s with
   | String a (String b r) =>
       if in_range a 48 53 && is_digit b then [(10 * digit_val a + digit_val b, r)] else []
   | _ => [] end)
  ++ (match s with
      | String a r => if is_digit a then [(digit_val a, r)] else []
      | _ => [] end).

(** [%S] is [(6[0-1]|[0-5]\d|\d)] *)
Definition alts_second (s : string) : list (Z * string) :=
  (match s with
   | String a (String b r) =>
       if (code a =? 54)%nat && in_range b 48 49 then [(60 + digit_val b, r)] else []
   | _ => [] end)
  ++ alts_minute s.

(** [%Y] is [(\d\d\d\d)] *)
Definition alts_year (s : string) : list (Z * string) :=
  match s with
  | String a (String b (String c (String d r))) =>
      if is_digit a && is_digit b && is_digit c && is_digit d
      then [(digits_value (String a (String b (String c (String d EmptyString)))), r)]
      else []
  | _ => []
  end.

(** [\s+]: what is left after each run of whitespace, the longest first *)
Fixpoint space_runs (s : string) : list string :=
  match s with
  | String c r => if is_space c then space_runs r ++ [r] else []
  | EmptyString => []
  end.

Definition alts (i : item) (s : string) : list (Z * string) :=
  match i with
  | IY => alts_year s
  | Im => alts_month s
  | Id => alts_day s
  | IH => alts_hour s
  | IM => alts_minute s
  | IS => alts_second s
  | ILit c => match s with
              | String c' r => if Ascii.eqb c c' then [(0, r)] else []
              | EmptyString => []
              end
  | ISpace => map (fun r => (0, r)) (space_runs s)
  end.

(** The matches of the format's regular expression at the start of [s],
    in the order the backtracking engine tries them: the values of the
    items and the input left over.  [re.match] returns the first. *)
Fixpoint matches (f : list item) (s : string) : list (list Z * string) :=
  match f with
  | [] => [([], s)]
  | i :: f' =>
      flat_map (fun '(v, r) => map (fun '(vs, r') => (v :: vs, r')) (matches f' r)) (alts i s)
  end.

Fixpoint value_of (i : item) (f : list item) (vs : list Z) (dflt : Z) : Z :=
  match f, vs with
  | i' :: f', v :: vs' =>
      match i, i' with
      | IY, IY | Im, Im | Id, Id | IH, IH | IM, IM | IS, IS => v
      | _, _ => value_of i f' vs' dflt
      end
  | _, _ => dflt
  end.

(** [datetime.strptime(s, fmt).date()]: [None] when it raises (no match,
    unconverted data remains, a day out of range for the month, or the
    seconds 60 and 61 that the regular expression admits and [datetime]
    refuses). *)
Definition strptime_date (f : list item) (s : string) : option date :=
  match matches f s with
  | [] => None
  | (vs, rest) :: _ =>
      match rest with
      | String _ _ => None
      | EmptyString =>
          let d := mkDate (value_of IY f vs 1900) (value_of Im f vs 1) (value_of Id f vs 1) in
          if valid_date d && (value_of IS f vs 0 <=? 59) then Some d else None
      end
  end.

Definition fmt_ymd : list item := [IY; ILit "-"; Im; ILit "-"; Id].
Definition fmt_ymd_hms : list item :=
  [IY; ILit "-"; Im; ILit "-"; Id; ISpace; IH; ILit ":"; IM; ILit ":"; IS].
Definition fmt_dmy_dash : list item := [Id; ILit "-"; Im; ILit "-"; IY].
Definition fmt_dmy_slash : list item := [Id; ILit "/"; Im; ILit "/"; IY].

End Strp.

(* ------------------------------------------------------------------ *)
(** ** The SQLite-to-PostgreSQL migration (db.py) *)

Module Migrate.
Import Py Date Json Bot Cmds Env Strp.
Local Open Scope Z_scope.
Local Open Scope string_scope.

(** A row of the SQLite [transactions] table as [dict(r).get(k)] sees it:
    [None] for NULL or a missing column; the text columns hold text, the
    integer columns integers and [amount] a number. *)
Record srow := mkSrow {
  s_id : option Z; s_user_id : option Z; s_category : option string; s_amount : option Q;
  s_currency : option string; s_date : option string; s_description : option string;
  s_tags : option string; s_merchant : option string; s_payment_method : option string;
  s_transaction_type : option string; s_is_recurring : option Z;
  s_recurring_period : option string; s_status : option string;
  s_bill_due_date : option string; s_attachment_url : option string;
  s_created_at : option string; s_updated_at : option string }.

(** [to_date]'s result: [None], a [date], or the text itself *)
Inductive dval := DNone | DDate (d : date) | DText (s : string).

(** The dictionary [normalize_row] returns. *)
Record nrow := mkNrow {
  n_id : option Z; n_user_id : option Z; n_category : option string; n_amount : option Q;
  n_currency : string; n_date : dval; n_description : option string; n_tags : option string;
  n_merchant : option string; n_payment_method : option string; n_transaction_type : string;
  n_is_recurring : bool; n_recurring_period : option string; n_status : string;
  n_bill_due_date : dval; n_attachment_url : option string;
  n_created_at : option string; n_updated_at : option string }.

Definition to_date_formats : list (list item) := [fmt_ymd; fmt_ymd_hms; fmt_dmy_dash; fmt_dmy_slash].

Fixpoint first_format (fs : list (list item)) (s : string) : option date :=
  match fs with
  | [] => None
  | f :: fs' => match strptime_date f s with Some d => Some d | None => first_format fs' s end
  end.

(** [to_date(d)]: the first format that parses, else the text itself *)
Definition to_date (d : option string) : dval :=
  match d with
  | None => DNone
  | Some s => match first_format to_date_formats s with Some x => DDate x | None => DText s end
  end.

Section Normalize.
(** [json.loads] ([None] when it raises) and [json.dumps] *)
Context (json_loads : string -> option json) (json_dumps : json -> string).

(** [tags_json] of [normalize_row]; [None] is Python's [None] *)
Definition tags_json (tags : option string) : option json :=
  match tags with
  | None => None
  | Some t0 =>
      let t := strip t0 in
      match json_loads t with
      | Some JNull => None
      | Some j => Some j
      | None =>
          if String.eqb t EmptyString then None
          else Some (JArr (map JStr (filter (fun x => negb (String.eqb x EmptyString))
                                           (map strip (split_sep 44 t)))))
      end
  end.

Definition normalize_row (r : srow) : nrow :=
  mkNrow (s_id r) (s_user_id r) (s_category r) (s_amount r)
    (py_or (s_currency r) "INR") (to_date (s_date r)) (s_description r)
    (option_map json_dumps (tags_json (s_tags r)))
    (s_merchant r) (s_payment_method r) (py_or (s_transaction_type r) "expense")
    (match s_is_recurring r with Some z => negb (Z.eqb z 0) | None => false end)
    (s_recurring_period r) (py_or (s_status r) "paid") (to_date (s_bill_due_date r))
    (s_attachment_url r) (s_created_at r) (s_updated_at r).

(** Whether PostgreSQL converts the row's values to the column types (a
    date text it can read, an id in the [INTEGER] range, ...). *)
Context (pg_converts : nrow -> bool).

(** The row passes the [NOT NULL] constraints (the primary key [id],
    [category], [amount], [date]) and the conversions. *)
Definition row_ok (r : nrow) : bool :=
  match n_id r, n_category r, n_amount r, n_date r with
  | Some _, Some _, Some _, DNone => false
  | Some _, Some _, Some _, _ => pg_converts r
  | _, _, _, _ => false
  end.

Definition id_taken (pg : list nrow) (r : nrow) : bool :=
  existsb (fun r' => match n_id r', n_id r with Some a, Some b => Z.eqb a b | _, _ => false end) pg.

(** [INSERT ... ON CONFLICT (id) DO NOTHING] of the rows, in order *)
Definition insert_rows (pg : list nrow) (rows : list nrow) : list nrow :=
  fold_left (fun acc r => if id_taken acc r then acc else (acc ++ [r])%list) rows pg.

(** [execute_values] of one batch and [commit]: the batch's statements run
    in one transaction, so a row that fails rolls the whole batch back and
    the exception ends [migrate]. *)
Definition insert_batch (pg : list nrow) (batch : list nrow) : option (list nrow) :=
  if forallb row_ok batch then Some (insert_rows pg batch) else None.

(** [cur.fetchmany(n)]: [n] rows; the SQLite module's loop stops at the
    [n]-th row, so [n = 0] fetches them all. *)
Definition fetchmany (n : nat) (rows : list srow) : list srow * list srow :=
  match n with
  | O => (rows, [])
  | _ => (firstn n rows, skipn n rows)
  end.

(** The [while rows:] loop: the PostgreSQL rows committed, the counts
    printed ([Inserted {inserted} rows...]) and whether it raised. *)
Fixpoint migrate_loop (fuel : nat) (bs : nat) (batch rest : list srow) (pg : list nrow)
    (inserted : Z) : list nrow * list Z * bool :=
  match fuel with
  | O => (pg, [], false)
  | S fuel' =>
      match batch with
      | [] => (pg, [], false)
      | _ =>
          let data := map normalize_row batch in
          match insert_batch pg data with
          | None => (pg, [], true)
          | Some pg' =>
              let inserted' := (inserted + Z.of_nat (List.length data))%Z in
              let '(next, rest') := fetchmany bs rest in
              let '(pg'', outs, failed) := migrate_loop fuel' bs next rest' pg' inserted' in
              (pg'', inserted' :: outs, failed)
          end
      end
  end.

(** [migrate(batch_size)] on the SQLite rows (in the order of
    [SELECT * FROM transactions]) and the PostgreSQL rows before it. *)
Definition migrate (bs : nat) (sqlite_rows : list srow) (pg : list nrow)
    : list nrow * list Z * bool :=
  let '(first, rest) := fetchmany bs sqlite_rows in
  migrate_loop (S (List.length sqlite_rows)) bs first rest pg 0%Z.

End Normalize.

End Migrate.

(* ================================================================== *)
(** * Notions used by the further properties *)

Module Predicates.
Import Py Date Json Float4 Db Bot Cmds Env Strp Migrate.
Local Open Scope Z_scope.

(** every character of [s] satisfies [p] *)
Definition all_chars (p : ascii -> bool) (s : string) : Prop :=
  forall c, In c (list_ascii_of_string s) -> p c = true.

(** [pad_zero 4 (str_int y)] is four digits that read back as [y] *)
Definition year4_ok (y : Z) : bool :=
  match pad_zero 4 (str_int y) with
  | String a (String b (String c (String e EmptyString))) =>
      is_digit a && is_digit b && is_digit c && is_digit e
      && (digits_value (String a (String b (String c (String e EmptyString)))) =? y)
  | _ => false
  end.

(** [pad_zero 2 (str_int x)] is two digits that read back as [x] *)
Definition pad2_ok (x : Z) : bool :=
  match pad_zero 2 (str_int x) with
  | String a (String b EmptyString) =>
      is_digit a && is_digit b && (10 * digit_val a + digit_val b =? x)
  | _ => false
  end.

(** [d.strftime(f)] for the layouts [%d-%m-%Y] and [%d/%m/%Y] *)
Definition strftime_dmy (sep : ascii) (d : date) : string :=
  pad_zero 2 (str_int (day d)) ++ String sep (pad_zero 2 (str_int (month d))
    ++ String sep (pad_zero 4 (str_int (year d)))).

(** a date text followed by a [%H:%M:%S] time, as [%Y-%m-%d %H:%M:%S] reads it *)
Definition with_time (s : string) (h mi sec : Z) : string :=
  s ++ String " " (pad_zero 2 (str_int h) ++ String ":" (pad_zero 2 (str_int mi)
    ++ String ":" (pad_zero 2 (str_int sec)))).

(** What the [/add] conversation has collected in each state, and the
    table: unchanged before the description step, one row of [uid] more
    at most after it. *)
Definition conv_inv (uid : Z) (tbl : table) (c : conv) : Prop :=
  match st c with
  | CAT => conv_tbl c = tbl
  | AMT => conv_tbl c = tbl /\ ud_category (ud c) <> None
  | DTE => conv_tbl c = tbl /\ ud_category (ud c) <> None /\ ud_amount (ud c) <> None
  | DESC => conv_tbl c = tbl /\ ud_category (ud c) <> None /\ ud_amount (ud c) <> None
            /\ ud_date (ud c) <> None
  | END => conv_tbl c = tbl \/ exists r, conv_tbl c = (tbl ++ [r])%list /\ user_id r = uid
  end.

(** a SQLite row of user 7 dated [2025-11-12] with the given id and category *)
Definition srow_ex (i : Z) (cat : option string) : srow :=
  mkSrow (Some i) (Some 7) cat (Some 250%Q) (Some "INR"%string) (Some "2025-11-12"%string) None None None None
    None None None None None None None None.

End Predicates.

(* ================================================================== *)
(** * Facts about the model *)

Module Facts.
Import Py Date Json Float4 Db Bot.
Local Open Scope Z_scope.

Lemma fold_max_ge (xs : list Z) (acc : Z) :
  acc <= fold_left Z.max xs acc /\ (forall x, In x xs -> x <= fold_left Z.max xs acc).
Proof.
  revert acc; induction xs as [| y ys IH]; intro acc; simpl.
  - split; [lia | tauto].
  - destruct (IH (Z.max acc y)) as [H1 H2]. split.
    + lia.
    + intros x [<- | Hx]; [lia | auto].
Qed.

Lemma fold_max_in (xs : list Z) (acc : Z) :
  fold_left Z.max xs acc = acc \/ In (fold_left Z.max xs acc) xs.
Proof.
  revert acc; induction xs as [| y ys IH]; intro acc; simpl; [auto |].
  destruct (IH (Z.max acc y)) as [H | H]; rewrite ?H.
  - destruct (Z.max_spec acc y) as [[_ ->] | [_ ->]]; auto.
  - auto.
Qed.

(** [next_id] is one more than the largest id of the table, 1 on an
    empty table. *)
Lemma next_id_spec (tbl : table) :
  (tbl = [] -> next_id tbl = 1) /\
  (tbl <> [] -> exists r0, In r0 tbl /\ next_id tbl = id r0 + 1 /\
                  forall r, In r tbl -> id r <= id r0).
Proof.
  unfold next_id. destruct tbl as [| r rs]; simpl.
  - split; [reflexivity | congruence].
  - split; [discriminate | intros _].
    destruct (fold_max_ge (map id rs) (id r)) as [H1 H2].
    destruct (fold_max_in (map id rs) (id r)) as [E | E].
    + exists r. rewrite E. split; [auto | split; [reflexivity |]].
      intros r' [<- | Hr']; [lia |].
      rewrite <- E. apply H2, in_map, Hr'.
    + apply in_map_iff in E. destruct E as [r0 [E Hr0]].
      exists r0. rewrite <- E. split; [auto | split; [reflexivity |]].
      intros r' [<- | Hr']; rewrite E; [lia |]. apply H2, in_map, Hr'.
Qed.

(** Boolean comparisons of [Z] turned into propositions for [lia]. *)
Ltac bool_to_prop :=
  repeat match goal with
  | H : (_ || _) = true |- _ => apply Bool.orb_true_iff in H; destruct H as [H | H]
  | H : (_ && _) = true |- _ =>
      let H' := fresh H in apply Bool.andb_true_iff in H; destruct H as [H H']
  | H : (_ || _) = false |- _ =>
      let H' := fresh H in apply Bool.orb_false_iff in H; destruct H as [H H']
  | H : (_ && _) = false |- _ => apply Bool.andb_false_iff in H; destruct H as [H | H]
  | H : negb _ = true |- _ => apply Bool.negb_true_iff in H
  | H : negb _ = false |- _ => apply Bool.negb_false_iff in H
  | H : (_ <? _) = true |- _ => apply Z.ltb_lt in H
  | H : (_ <? _) = false |- _ => apply Z.ltb_ge in H
  | H : (_ =? _) = true |- _ => apply Z.eqb_eq in H
  | H : (_ =? _) = false |- _ => apply Z.eqb_neq in H
  | H : (_ <=? _) = true |- _ => apply Z.leb_le in H
  | H : (_ <=? _) = false |- _ => apply Z.leb_gt in H
  end.

(** Close a goal [b = true] over [Z] comparisons by arithmetic. *)
Ltac zbool_true :=
  match goal with
  | |- ?b = true => destruct b eqn:?; [reflexivity | exfalso]
  end;
  bool_to_prop; lia.





(** ** The insertion sort behind [ORDER BY] *)
Section SortFacts.
Context {A : Type} (le : A -> A -> bool).

Lemma insert_by_perm (x : A) (l : list A) : Permutation (insert_by le x l) (x :: l).
Proof.
  induction l as [| y l IH]; simpl; [auto |].
  destruct (le x y); [auto |].
  eapply perm_trans; [apply perm_skip, IH | apply perm_swap].
Qed.

Lemma sort_by_perm (l : list A) : Permutation (sort_by le l) l.
Proof.
  induction l as [| x l IH]; simpl; [auto |].
  eapply perm_trans; [apply insert_by_perm | apply perm_skip, IH].
Qed.

Hypothesis le_total : forall a b, le a b = false -> le b a = true.




End SortFacts.


(** ** [ORDER BY date DESC, id DESC] *)



(** ** [GROUP BY category] *)

Lemma in_dedup (c : string) (l : list string) : In c (dedup l) <-> In c l.
Proof.
  induction l as [| x l IH]; simpl; [tauto |].
  rewrite filter_In, IH. destruct (String.eqb_spec x c) as [-> | Hne]; simpl.
  - tauto.
  - split; [intros [H | [H _]]; [congruence | auto] | intros [H | H]; [congruence | auto]].
Qed.


Lemma summary_rows_in (tbl : table) (u : Z) (start : option date) (r : tx) :
  In r (summary_rows tbl u start) <->
  In r tbl /\ user_id r = u /\
  match start with Some s => date_leb s (tx_date r) = true | None => True end.
Proof.
  unfold summary_rows. rewrite filter_In, Bool.andb_true_iff, Z.eqb_eq.
  destruct start; tauto.
Qed.


(** ** [replace] of the double quote by two double quotes *)

Lemma substring_full (s : string) : substring 0 (String.length s) s = s.
Proof. induction s as [| c s IH]; simpl; [reflexivity | rewrite IH; reflexivity]. Qed.

Lemma prefix_dq_cons (c : ascii) (s : string) :
  String.prefix dq (String c s) = Ascii.eqb c (ascii_of_nat 34).
Proof.
  unfold dq. cbn [String.prefix].
  destruct (ascii_dec (ascii_of_nat 34) c) as [<- | Hn].
  - rewrite Ascii.eqb_refl. destruct s; reflexivity.
  - symmetry. apply Ascii.eqb_neq. congruence.
Qed.

Lemma replace_go_quotes (s : string) : forall fuel n,
  (String.length s < fuel)%nat -> (String.length s < n)%nat ->
  replace_go dq (dq ++ dq) fuel n s = csv_double_quotes s.
Proof.
  induction s as [| c s IH]; intros fuel n Hf Hn.
  - destruct fuel, n; simpl in *; try lia; reflexivity.
  - destruct fuel as [| f], n as [| n']; cbn [String.length] in *; try lia.
    cbn [replace_go csv_double_quotes]. rewrite prefix_dq_cons.
    destruct (Ascii.eqb c (ascii_of_nat 34)) eqn:E.
    + apply Ascii.eqb_eq in E. subst c.
      change (String.length dq) with 1%nat. cbn [substring].
      replace (String.length (String (ascii_of_nat 34) s) - 1)%nat with (String.length s)
        by (simpl; lia).
      rewrite substring_full, IH by lia. reflexivity.
    + rewrite IH by lia. reflexivity.
Qed.

Lemma replace_quotes (s : string) : replace dq (dq ++ dq) s = csv_double_quotes s.
Proof. unfold replace, replace_n, dq at 1. apply replace_go_quotes; lia. Qed.

Lemma all_some_map_pair {B : Type} (f : string -> option B) (cs : list string)
    (l : list (string * B)) :
  all_some (map (fun c => option_map (pair c) (f c)) cs) = Some l ->
  map fst l = cs /\ (forall c t, In (c, t) l <-> In c cs /\ f c = Some t).
Proof.
  revert l; induction cs as [| c cs IH]; intros l H; simpl in H.
  - injection H as <-. simpl. split; [reflexivity | tauto].
  - revert H. destruct (f c) as [t0 |] eqn:Ef; simpl; [| discriminate].
    destruct (all_some (map (fun c0 => option_map (pair c0) (f c0)) cs)) as [l' |];
      simpl; [| discriminate].
    intro H. injection H as <-. destruct (IH l' eq_refl) as [H1 H2]. simpl.
    rewrite H1. split; [reflexivity |].
    intros c' t. rewrite H2. split.
    + intros [E | [Hin Hf]]; [injection E as <- <-; auto | auto].
    + intros [[<- | Hin] Hf]; [left; congruence | right; auto].
Qed.

Lemma all_some_map_none {B : Type} (f : string -> option B) (cs : list string) :
  all_some (map (fun c => option_map (pair c) (f c)) cs) = None <->
  exists c, In c cs /\ f c = None.
Proof.
  induction cs as [| c cs IH]; simpl.
  - split; [discriminate | intros [c [[] _]]].
  - destruct (f c) as [t0 |] eqn:Ef; simpl.
    + transitivity (all_some (map (fun c0 => option_map (pair c0) (f c0)) cs) = None).
      { destruct (all_some (map (fun c0 => option_map (pair c0) (f c0)) cs));
          simpl; split; congruence. }
      rewrite IH. split.
      * intros [c' [H1 H2]]; eauto.
      * intros [c' [[<- | H1] H2]]; [congruence | eauto].
    + split; [intros _; eauto | reflexivity].
Qed.

(** What [get_summary] returns: one entry per category of the selected
    rows, with the [REAL] sum of its rows, or the overflow error when
    one of these sums overflows. *)
Lemma summary_spec (tbl : table) (u : Z) (start : option date) :
  let rows := summary_rows tbl u start in
  match get_summary tbl u start with
  | Rows l =>
      map fst l = dedup (map category rows) /\
      forall c t, In (c, t) l <->
        (exists r, In r rows /\ category r = c) /\ sum_real (map amount (group_rows rows c)) = Some t
  | SqlError e =>
      e = "value out of range: overflow"%string /\
      exists c, (exists r, In r rows /\ category r = c) /\ sum_real (map amount (group_rows rows c)) = None
  end.
Proof.
  intro rows. unfold get_summary. fold rows.
  destruct (all_some (map (fun c => option_map (pair c) (sum_real (map amount (group_rows rows c))))
                          (dedup (map category rows)))) as [l |] eqn:E.
  - destruct (all_some_map_pair _ _ _ E) as [H1 H2]. split; [exact H1 |].
    intros c t. rewrite H2, in_dedup, in_map_iff.
    split; intros [[r [Hr1 Hr2]] Ht]; split; try exact Ht; exists r; split; assumption.
  - apply all_some_map_none in E. destruct E as [c [Hc Hn]].
    split; [reflexivity |]. exists c. split; [| exact Hn].
    apply in_dedup, in_map_iff in Hc. destruct Hc as [r [Hr1 Hr2]]. exists r; split; assumption.
Qed.

Lemma summary_rows_cases (tbl : table) (u : Z) (start : option date) :
  (exists l, get_summary tbl u start = Rows l) \/
  get_summary tbl u start = SqlError "value out of range: overflow"%string.
Proof.
  pose proof (summary_spec tbl u start) as H. cbv zeta in H.
  destruct (get_summary tbl u start) as [l | e]; [left; eauto | right; destruct H as [-> _]; reflexivity].
Qed.

(** With no tags, [insert_tx] does not depend on the JSON functions. *)
Lemma insert_tx_tags_none jl jd jb jl' jd' jb' today tbl u c a ds de cur :
  insert_tx jl jd jb today tbl u c a ds de None cur = insert_tx jl' jd' jb' today tbl u c a ds de None cur.
Proof. reflexivity. Qed.

(** A successful [insert_tx] appends one row with the next id and the
    amount as stored in [REAL]. *)
Lemma insert_tx_ok jl jd jb today tbl u c a ds de tg cur n tbl' :
  insert_tx jl jd jb today tbl u c a ds de tg cur = Ok (n, tbl') ->
  n = next_id tbl /\ int4_ok n = true /\ int4_ok u = true /\
  exists v, real_in a = Some v /\
    tbl' = tbl ++ [mkTx n u c v cur (match strptime_ymd ds with Some d => d | None => today end) de].
Proof.
  unfold insert_tx.
  destruct (int4_ok (next_id tbl)) eqn:E1; simpl; [| discriminate].
  destruct (_ || _); [discriminate |].
  destruct (match tags_param jl jd tg with Some t => jb t | None => None end); [discriminate |].
  destruct (int4_ok u) eqn:E2; simpl; [| discriminate].
  destruct (real_in a) as [v |]; [| discriminate].
  intro H. injection H as <- <-. repeat split; auto. eauto.
Qed.


(** A failed [insert_tx] changes nothing; an [INTEGER] overflow of the
    next id fails it whatever the other arguments. *)
Lemma insert_tx_next_id_overflow jl jd jb today tbl u c a ds de tg cur :
  int4_ok (next_id tbl) = false ->
  insert_tx jl jd jb today tbl u c a ds de tg cur = Err "integer out of range"%string.
Proof. intro H. unfold insert_tx. rewrite H. reflexivity. Qed.




(** A step from a state of the conversation that stays in the
    conversation leaves the table as it is. *)
Lemma step_in_conv_keeps_table fp today uid (c : conv) (e : event) :
  st c <> END -> st (fst (step fp today uid c e)) <> END ->
  conv_tbl (fst (step fp today uid c e)) = conv_tbl c.
Proof.
  intros Hc Hc'. destruct c as [s u t]; unfold step in *; simpl in *.
  destruct s; [| | | | congruence]; destruct e as [x | |]; simpl in *; try reflexivity;
    try congruence.
  - destruct (amt_handler x u) as [[? ?] ?]; reflexivity.
  - destruct (date_handler fp x u) as [[? ?] ?]; reflexivity.
  - unfold desc_handler in *.
    destruct (ud_category u), (ud_amount u), (ud_date u); simpl in *; try reflexivity;
      try congruence.
    destruct (bot_insert_tx today t uid _ _ _ _ _) as [[? ?] |]; simpl in *; congruence.
Qed.

Lemma run_in_conv_keeps_table fp today uid (es : list event) : forall c : conv,
  st c <> END -> st (run fp today uid c es) <> END ->
  conv_tbl (run fp today uid c es) = conv_tbl c.
Proof.
  induction es as [| e es IH]; intros c Hc Hr; simpl in *; [reflexivity |].
  destruct (st (fst (step fp today uid c e))) eqn:E;
    try (rewrite IH; [apply step_in_conv_keeps_table; congruence | congruence | exact Hr]).
  congruence.
Qed.

Lemma run_app_in_conv fp today uid (es es2 : list event) : forall c : conv,
  st c <> END -> st (run fp today uid c es) <> END ->
  run fp today uid c (es ++ es2) = run fp today uid (run fp today uid c es) es2.
Proof.
  induction es as [| e es IH]; intros c Hc Hr; simpl in *; [reflexivity |].
  destruct (st (fst (step fp today uid c e))) eqn:E; try (apply IH; congruence).
  congruence.
Qed.

End Facts.

(* ================================================================== *)
(** * Lemmas for the further properties *)

Module DateFacts.
Import Py Date Json Float4 Db Bot Cmds Env Strp Migrate Predicates.
Local Open Scope Z_scope.
Import Facts.

Lemma in_range_enum (m : Z) (lo n : nat) :
  Z.of_nat lo <= m < Z.of_nat lo + Z.of_nat n -> In m (map Z.of_nat (seq lo n)).
Proof.
  intro H. apply in_map_iff. exists (Z.to_nat m). split; [lia |]. apply in_seq. lia.
Qed.

Lemma range_check (f : Z -> bool) (lo n : nat) :
  forallb f (map Z.of_nat (seq lo n)) = true ->
  forall y, Z.of_nat lo <= y < Z.of_nat lo + Z.of_nat n -> f y = true.
Proof.
  intros H y Hy. rewrite forallb_forall in H. apply H, in_range_enum, Hy.
Qed.

Lemma year4_all : forallb year4_ok (map Z.of_nat (seq 1 9999)) = true.
Proof. vm_compute. reflexivity. Qed.

Lemma pad_year (y : Z) : 1 <= y <= 9999 ->
  exists a b c e, pad_zero 4 (str_int y) = String a (String b (String c (String e EmptyString)))
    /\ is_digit a = true /\ is_digit b = true /\ is_digit c = true /\ is_digit e = true
    /\ digits_value (String a (String b (String c (String e EmptyString)))) = y.
Proof.
  intro Hy. assert (H0 : Z.of_nat 1 <= y < Z.of_nat 1 + Z.of_nat 9999)
    by (change (Z.of_nat 1) with 1; change (Z.of_nat 9999) with 9999; lia).
  pose proof (range_check year4_ok 1 9999 year4_all y H0) as H.
  unfold year4_ok in H.
  destruct (pad_zero 4 (str_int y)) as [| a [| b [| c [| e [| ? ?]]]]]; try discriminate.
  exists a, b, c, e. bool_to_prop. repeat split; assumption.
Qed.

Lemma alts_year_pad (y : Z) (r : string) : 1 <= y <= 9999 ->
  alts_year (pad_zero 4 (str_int y) ++ r) = [(y, r)].
Proof.
  intro Hy. destruct (pad_year y Hy) as (a & b & c & e & E & Ha & Hb & Hc & He & Hv).
  rewrite E. cbn [append alts_year]. rewrite Ha, Hb, Hc, He. cbn [andb]. rewrite Hv. reflexivity.
Qed.

Ltac enum H := apply in_range_enum in H; simpl in H; repeat destruct H as [<- | H]; [..| contradiction].

Lemma alts_month_pad (m : Z) (r : string) : 1 <= m <= 12 ->
  exists l, alts_month (pad_zero 2 (str_int m) ++ r) = (m, r) :: l.
Proof.
  intro H. assert (H' : Z.of_nat 1 <= m < Z.of_nat 1 + Z.of_nat 12) by lia. clear H.
  enum H'; eexists; reflexivity.
Qed.

Lemma alts_day_pad (d : Z) (r : string) : 1 <= d <= 31 ->
  exists l, alts_day (pad_zero 2 (str_int d) ++ r) = (d, r) :: l.
Proof.
  intro H. assert (H' : Z.of_nat 1 <= d < Z.of_nat 1 + Z.of_nat 31) by lia. clear H.
  enum H'; eexists; reflexivity.
Qed.

Lemma alts_hour_pad (h : Z) (r : string) : 0 <= h <= 23 ->
  exists l, alts_hour (pad_zero 2 (str_int h) ++ r) = (h, r) :: l.
Proof.
  intro H. assert (H' : Z.of_nat 0 <= h < Z.of_nat 0 + Z.of_nat 24) by lia. clear H.
  enum H'; eexists; reflexivity.
Qed.

Lemma alts_minute_pad (x : Z) (r : string) : 0 <= x <= 59 ->
  exists l, alts_minute (pad_zero 2 (str_int x) ++ r) = (x, r) :: l.
Proof.
  intro H. assert (H' : Z.of_nat 0 <= x < Z.of_nat 0 + Z.of_nat 60) by lia. clear H.
  enum H'; eexists; reflexivity.
Qed.

Lemma alts_second_pad (x : Z) (r : string) : 0 <= x <= 59 ->
  exists l, alts_second (pad_zero 2 (str_int x) ++ r) = (x, r) :: l.
Proof.
  intro H. assert (H' : Z.of_nat 0 <= x < Z.of_nat 0 + Z.of_nat 60) by lia. clear H.
  enum H'; eexists; reflexivity.
Qed.


Lemma append_empty_r (s : string) : (s ++ EmptyString)%string = s.
Proof. induction s as [| c s IH]; simpl; [reflexivity | rewrite IH; reflexivity]. Qed.

Lemma days_in_month_le (y m : Z) : 28 <= days_in_month y m <= 31.
Proof.
  unfold days_in_month. destruct (m =? 2); [destruct (is_leap y); lia |].
  destruct ((m =? 4) || (m =? 6) || (m =? 9) || (m =? 11)); lia.
Qed.

Lemma valid_date_ranges (d : date) : valid_date d = true ->
  1 <= year d <= 9999 /\ 1 <= month d <= 12 /\ 1 <= day d <= 31.
Proof.
  destruct d as [y m dd]. unfold valid_date; simpl. intro H. bool_to_prop.
  pose proof (days_in_month_le y m). lia.
Qed.




Lemma pad2_all : forallb pad2_ok (map Z.of_nat (seq 0 100)) = true.
Proof. vm_compute. reflexivity. Qed.

Lemma pad2_digits (x : Z) : 0 <= x <= 99 ->
  exists a b, pad_zero 2 (str_int x) = String a (String b EmptyString)
    /\ is_digit a = true /\ is_digit b = true.
Proof.
  intro Hx. assert (H0 : Z.of_nat 0 <= x < Z.of_nat 0 + Z.of_nat 100)
    by (change (Z.of_nat 0) with 0; change (Z.of_nat 100) with 100; lia).
  pose proof (range_check pad2_ok 0 100 pad2_all x H0) as H. unfold pad2_ok in H.
  destruct (pad_zero 2 (str_int x)) as [| a [| b [| ? ?]]]; try discriminate.
  exists a, b. bool_to_prop. repeat split; assumption.
Qed.

Lemma digit_not_space (c : ascii) : is_digit c = true -> is_space c = false.
Proof.
  unfold is_digit, is_space. intro H. apply andb_prop in H. destruct H as [H1 H2].
  apply Nat.leb_le in H1. apply Nat.leb_le in H2.
  apply orb_false_iff; split; apply andb_false_iff;
    right; apply Nat.leb_gt; lia.
Qed.

Lemma matches_head (i : item) (f : list item) (s : string) (v : Z) (r : string) vs r' :
  (exists l, alts i s = (v, r) :: l) -> (exists l', matches f r = (vs, r') :: l') ->
  exists l'', matches (i :: f) s = (v :: vs, r') :: l''.
Proof.
  intros [l H1] [l' H2]. cbn [matches]. rewrite H1. cbn [flat_map]. rewrite H2.
  eexists. reflexivity.
Qed.

Lemma matches_nil_end (s : string) : exists l, matches [] s = ([], s) :: l.
Proof. exists []. reflexivity. Qed.

Lemma alts_lit (c : ascii) (r : string) : exists l, alts (ILit c) (String c r) = (0, r) :: l.
Proof. exists []. simpl. rewrite Ascii.eqb_refl. reflexivity. Qed.

Lemma alts_space_digit (c : ascii) (r : string) :
  is_digit c = true -> exists l, alts ISpace (String " " (String c r)) = (0, String c r) :: l.
Proof.
  intro H. exists []. cbn [alts space_runs]. rewrite (digit_not_space c H).
  reflexivity.
Qed.

Lemma matches_none (i : item) (f : list item) (s : string) :
  (forall v r, In (v, r) (alts i s) -> matches f r = []) -> matches (i :: f) s = [].
Proof.
  cbn [matches]. generalize (alts i s) as L. intros L H.
  induction L as [| [v r] l IH]; [reflexivity |].
  cbn [flat_map]. rewrite (H v r (or_introl eq_refl)). apply IH.
  intros v' r' Hin. apply (H v'). right. exact Hin.
Qed.

Lemma alts_year_sep (a b sep : ascii) (r : string) :
  is_digit sep = false -> alts_year (String a (String b (String sep r))) = [].
Proof.
  intro H. destruct r as [| c r]; [reflexivity |]; cbn [alts_year].
  rewrite H, andb_false_r. reflexivity.
Qed.

Lemma alts_day_rests (a b : ascii) (t : string) v r :
  In (v, r) (alts_day (String a (String b t))) -> r = t \/ r = String b t.
Proof.
  unfold alts_day. intro H. repeat (apply in_app_or in H; destruct H as [H | H]);
  repeat match type of H with
  | context [if ?c then _ else _] => destruct c
  end; simpl in H; try contradiction;
  destruct H as [H | []]; injection H as _ <-; auto.
Qed.

Lemma digit_not_lit (c b : ascii) : is_digit c = false -> is_digit b = true -> Ascii.eqb c b = false.
Proof.
  intros Hc Hb. destruct (Ascii.eqb_spec c b) as [-> | ]; [congruence | reflexivity].
Qed.

Lemma str_app_assoc (a b c : string) : ((a ++ b) ++ c)%string = (a ++ (b ++ c))%string.
Proof. induction a as [| x a IH]; simpl; [reflexivity | rewrite IH; reflexivity]. Qed.

Lemma matches_ymd_head_r (d : date) (tail : string) :
  1 <= year d <= 9999 -> 1 <= month d <= 12 -> 1 <= day d <= 31 ->
  exists l, matches fmt_ymd (isoformat d ++ tail)
            = ([year d; 0; month d; 0; day d], tail) :: l.
Proof.
  intros Hy Hm Hd.
  unfold fmt_ymd, isoformat. rewrite !str_app_assoc.
  eapply matches_head; [exists []; apply alts_year_pad; exact Hy |].
  eapply matches_head; [apply alts_lit |].
  eapply matches_head; [apply alts_month_pad; exact Hm |].
  eapply matches_head; [apply alts_lit |].
  eapply matches_head; [apply alts_day_pad; exact Hd |].
  apply matches_nil_end.
Qed.

Lemma matches_ymd_head (d : date) (tail : string) : valid_date d = true ->
  exists l, matches fmt_ymd (isoformat d ++ tail)
            = ([year d; 0; month d; 0; day d], tail) :: l.
Proof.
  intro Hv. destruct (valid_date_ranges d Hv) as (Hy & Hm & Hd).
  apply matches_ymd_head_r; assumption.
Qed.

Lemma alts_space_pad (x : Z) (r : string) : 0 <= x <= 99 ->
  exists l, alts ISpace (String " " (pad_zero 2 (str_int x) ++ r))
            = (0, (pad_zero 2 (str_int x) ++ r)%string) :: l.
Proof.
  intro Hx. destruct (pad2_digits x Hx) as (a & b & E & Ha & Hb). rewrite E.
  apply alts_space_digit, Ha.
Qed.

Lemma matches_year_sep (f : list item) (a b sep : ascii) (r : string) :
  is_digit sep = false -> matches (IY :: f) (String a (String b (String sep r))) = [].
Proof. intro H. cbn [matches alts]. rewrite (alts_year_sep a b sep r H). reflexivity. Qed.

Lemma strptime_none_of_matches (f : list item) (s : string) :
  matches f s = [] -> strptime_date f s = None.
Proof. intro H. unfold strptime_date. rewrite H. reflexivity. Qed.

Lemma strptime_ymd_iso (d : date) : valid_date d = true -> strptime_date fmt_ymd (isoformat d) = Some d.
Proof.
  intro Hv. destruct (matches_ymd_head d EmptyString Hv) as [l E].
  rewrite append_empty_r in E. unfold strptime_date. rewrite E. cbn.
  destruct d as [y m dd]. cbn [year month day]. rewrite Hv. reflexivity.
Qed.

Lemma strptime_ymd_with_time (d : date) h mi sec : valid_date d = true -> 0 <= h <= 23 ->
  strptime_date fmt_ymd (with_time (isoformat d) h mi sec) = None.
Proof.
  intros Hv Hh. destruct (matches_ymd_head d (String " " (pad_zero 2 (str_int h) ++ String ":"
    (pad_zero 2 (str_int mi) ++ String ":" (pad_zero 2 (str_int sec))))) Hv) as [l E].
  unfold strptime_date, with_time. rewrite E. reflexivity.
Qed.

Lemma strptime_ymd_hms (d : date) h mi sec : valid_date d = true ->
  0 <= h <= 23 -> 0 <= mi <= 59 -> 0 <= sec <= 59 ->
  strptime_date fmt_ymd_hms (with_time (isoformat d) h mi sec) = Some d.
Proof.
  intros Hv Hh Hmi Hs. destruct (valid_date_ranges d Hv) as (Hy & Hm & Hd).
  assert (E : exists l, matches fmt_ymd_hms (with_time (isoformat d) h mi sec)
     = ([year d; 0; month d; 0; day d; 0; h; 0; mi; 0; sec], EmptyString) :: l).
  { unfold fmt_ymd_hms, with_time, isoformat. rewrite !str_app_assoc.
    eapply matches_head; [exists []; apply alts_year_pad; exact Hy |].
    eapply matches_head; [apply alts_lit |].
    eapply matches_head; [apply alts_month_pad; exact Hm |].
    eapply matches_head; [apply alts_lit |].
    eapply matches_head; [apply alts_day_pad; exact Hd |].
    eapply matches_head; [apply alts_space_pad; lia |].
    eapply matches_head; [apply alts_hour_pad; exact Hh |].
    eapply matches_head; [apply alts_lit |].
    eapply matches_head; [apply alts_minute_pad; exact Hmi |].
    eapply matches_head; [apply alts_lit |].
    eapply matches_head; [rewrite <- (append_empty_r (pad_zero 2 (str_int sec)));
                          apply alts_second_pad; exact Hs |].
    apply matches_nil_end. }
  destruct E as [l E]. unfold strptime_date. rewrite E. cbn.
  destruct d as [y m dd]. cbn [year month day]. rewrite Hv.
  replace (sec <=? 59) with true by (symmetry; apply Z.leb_le; lia). reflexivity.
Qed.

Lemma strptime_dmy (sep : ascii) (d : date) : valid_date d = true ->
  strptime_date [Id; ILit sep; Im; ILit sep; IY] (strftime_dmy sep d) = Some d.
Proof.
  intro Hv. destruct (valid_date_ranges d Hv) as (Hy & Hm & Hd).
  assert (E : exists l, matches [Id; ILit sep; Im; ILit sep; IY] (strftime_dmy sep d)
     = ([day d; 0; month d; 0; year d], EmptyString) :: l).
  { unfold strftime_dmy.
    eapply matches_head; [apply alts_day_pad; exact Hd |].
    eapply matches_head; [apply alts_lit |].
    eapply matches_head; [apply alts_month_pad; exact Hm |].
    eapply matches_head; [apply alts_lit |].
    eapply matches_head; [exists []; rewrite <- (append_empty_r (pad_zero 4 (str_int (year d))));
                          apply alts_year_pad; exact Hy |].
    apply matches_nil_end. }
  destruct E as [l E]. unfold strptime_date. rewrite E. cbn.
  destruct d as [y m dd]. cbn [year month day]. rewrite Hv. reflexivity.
Qed.

Lemma strftime_dmy_shape (sep : ascii) (d : date) : valid_date d = true ->
  exists a b t, strftime_dmy sep d = String a (String b (String sep t))
    /\ is_digit a = true /\ is_digit b = true.
Proof.
  intro Hv. destruct (valid_date_ranges d Hv) as (_ & _ & Hd).
  destruct (pad2_digits (day d) ltac:(lia)) as (a & b & E & Ha & Hb).
  unfold strftime_dmy. rewrite E. eexists a, b, _. split; [reflexivity | auto].
Qed.

Lemma strptime_dmy_year_first (sep : ascii) (f : list item) (d : date) :
  is_digit sep = false -> valid_date d = true -> strptime_date (IY :: f) (strftime_dmy sep d) = None.
Proof.
  intros Hs Hv. destruct (strftime_dmy_shape sep d Hv) as (a & b & t & E & _ & _).
  apply strptime_none_of_matches. rewrite E. apply matches_year_sep, Hs.
Qed.

Lemma strptime_dash_on_slash (d : date) : valid_date d = true ->
  strptime_date fmt_dmy_dash (strftime_dmy "/" d) = None.
Proof.
  intro Hv. destruct (strftime_dmy_shape "/" d Hv) as (a & b & t & E & _ & Hb).
  apply strptime_none_of_matches. rewrite E. unfold fmt_dmy_dash.
  apply matches_none. intros v r Hin. cbn [alts] in Hin.
  destruct (alts_day_rests a b _ v r Hin) as [-> | ->]; cbn [matches alts].
  - reflexivity.
  - rewrite (digit_not_lit "-" b eq_refl Hb). reflexivity.
Qed.

(** the four layouts of dates [to_date] reads *)
Lemma to_date_layouts_aux (d : date) (h mi sec : Z) :
  valid_date d = true -> 0 <= h <= 23 -> 0 <= mi <= 59 -> 0 <= sec <= 59 ->
  to_date (Some (isoformat d)) = DDate d /\
  to_date (Some (with_time (isoformat d) h mi sec)) = DDate d /\
  to_date (Some (strftime_dmy "-" d)) = DDate d /\
  to_date (Some (strftime_dmy "/" d)) = DDate d.
Proof.
  intros Hv Hh Hmi Hs. unfold to_date, to_date_formats. cbn [first_format].
  rewrite (strptime_ymd_iso d Hv), (strptime_ymd_with_time d h mi sec Hv Hh),
    (strptime_ymd_hms d h mi sec Hv Hh Hmi Hs).
  unfold fmt_ymd, fmt_ymd_hms.
  rewrite !(strptime_dmy_year_first "-" _ d eq_refl Hv), !(strptime_dmy_year_first "/" _ d eq_refl Hv).
  rewrite (strptime_dash_on_slash d Hv).
  unfold fmt_dmy_dash, fmt_dmy_slash. rewrite !strptime_dmy by exact Hv.
  repeat split; reflexivity.
Qed.


Lemma alts_month_rests (a b : ascii) (t : string) v r :
  In (v, r) (alts_month (String a (String b t))) -> r = t \/ r = String b t.
Proof.
  unfold alts_month. intro H. repeat (apply in_app_or in H; destruct H as [H | H]);
  repeat match type of H with
  | context [if ?c then _ else _] => destruct c
  end; simpl in H; try contradiction;
  destruct H as [H | []]; injection H as _ <-; auto.
Qed.

Lemma matches_lit_digit (f : list item) (c b : ascii) (t : string) :
  is_digit c = false -> is_digit b = true -> matches (ILit c :: f) (String b t) = [].
Proof. intros Hc Hb. cbn [matches alts]. rewrite (digit_not_lit c b Hc Hb). reflexivity. Qed.

(** a text of the shape YYYY-MM-DD whose day does not exist is passed on as text *)
Lemma to_date_invalid_aux (d : date) :
  1 <= year d <= 9999 -> 1 <= month d <= 12 -> 1 <= day d <= 31 -> valid_date d = false ->
  to_date (Some (isoformat d)) = DText (isoformat d).
Proof.
  intros Hy Hm Hd Hv.
  destruct (pad_year (year d) Hy) as (a & b & c & e & Ey & Ha & Hb & Hc & He & _).
  destruct (pad2_digits (month d) ltac:(lia)) as (ma & mb & Em & Hma & Hmb).
  destruct (pad2_digits (day d) ltac:(lia)) as (da & db & Ed & Hda & Hdb).
  assert (S1 : strptime_date fmt_ymd (isoformat d) = None).
  { destruct (matches_ymd_head_r d EmptyString Hy Hm Hd) as [l E].
    rewrite append_empty_r in E. unfold strptime_date. rewrite E. cbn.
    destruct d as [y m dd]. cbn [year month day] in *. rewrite Hv. reflexivity. }
  assert (S2 : strptime_date fmt_ymd_hms (isoformat d) = None).
  { apply strptime_none_of_matches. unfold fmt_ymd_hms, isoformat.
    apply matches_none. intros v r Hin. cbn [alts] in Hin. rewrite alts_year_pad in Hin by exact Hy.
    destruct Hin as [Hin | []]. injection Hin as _ <-.
    apply matches_none. intros v' r' Hin. cbn [alts append] in Hin. rewrite Ascii.eqb_refl in Hin.
    destruct Hin as [Hin | []]. injection Hin as _ <-.
    apply matches_none. intros v2 r2 Hin. rewrite Em in Hin. cbn [alts append] in Hin.
    destruct (alts_month_rests ma mb _ v2 r2 Hin) as [-> | ->].
    - apply matches_none. intros v3 r3 Hin3. cbn [alts] in Hin3. rewrite Ascii.eqb_refl in Hin3.
      destruct Hin3 as [Hin3 | []]. injection Hin3 as _ <-.
      apply matches_none. intros v4 r4 Hin4. rewrite Ed in Hin4. cbn [alts] in Hin4.
      destruct (alts_day_rests da db _ v4 r4 Hin4) as [-> | ->].
      + reflexivity.
      + cbn [matches alts space_runs]. rewrite (digit_not_space db Hdb). reflexivity.
    - apply matches_lit_digit; [reflexivity | exact Hmb]. }
  assert (S3 : forall sep, is_digit sep = false ->
            strptime_date [Id; ILit sep; Im; ILit sep; IY] (isoformat d) = None).
  { intros sep Hsep. apply strptime_none_of_matches. unfold isoformat. rewrite Ey. cbn [append].
    apply matches_none. intros v r Hin. cbn [alts] in Hin.
    destruct (alts_day_rests a b _ v r Hin) as [-> | ->].
    - apply matches_lit_digit; assumption.
    - apply matches_lit_digit; assumption. }
  unfold to_date, to_date_formats. cbn [first_format].
  rewrite S1, S2. unfold fmt_dmy_dash, fmt_dmy_slash. rewrite !S3 by reflexivity. reflexivity.
Qed.

End DateFacts.

Module QuickFacts.
Import Py Date Json Float4 Db Bot Cmds Env Strp Migrate Predicates.
Local Open Scope Z_scope.
Import Facts DateFacts.





Lemma span_fst_all (p : ascii -> bool) (s : string) : all_chars p (fst (span p s)).
Proof.
  induction s as [| c s IH]; simpl; [intros ? [] |].
  destruct (p c) eqn:E; [| intros ? []].
  destruct (span p s) as [a r]. simpl in *. intros x [<- | H]; auto.
Qed.

Lemma span_snd_sub (p : ascii -> bool) (s : string) (x : ascii) :
  In x (list_ascii_of_string (snd (span p s))) -> In x (list_ascii_of_string s).
Proof.
  induction s as [| c s IH]; simpl; [auto |].
  destruct (p c); [| auto]. destruct (span p s) as [a r] eqn:E. simpl in *. auto.
Qed.

Lemma all_chars_app (p : ascii -> bool) (a b : string) :
  all_chars p a -> all_chars p b -> all_chars p (a ++ b).
Proof.
  unfold all_chars. induction a as [| c a IH]; simpl; [auto |].
  intros Ha Hb x [<- | H]; [apply Ha; auto | apply IH; auto].
Qed.

Lemma all_chars_weaken (p q : ascii -> bool) (s : string) :
  (forall c, p c = true -> q c = true) -> all_chars p s -> all_chars q s.
Proof. unfold all_chars. auto. Qed.

Lemma quick_re_shape (s cat amt rest : string) :
  quick_re s = Some (cat, amt, rest) ->
  cat <> EmptyString /\ all_chars (fun c => is_word c || is_char 45 c) cat /\
  all_chars (fun c => is_digit c || is_char 44 c || is_char 46 c) amt.
Proof.
  unfold quick_re.
  pose proof (span_fst_all (fun c => is_word c || is_char 45 c) s) as Hc.
  destruct (span (fun c => is_word c || is_char 45 c) s) as [c0 r1]. simpl in Hc.
  destruct (span is_space r1) as [ws r2].
  pose proof (span_fst_all (fun c => is_digit c || is_char 44 c) r2) as Hi.
  destruct (span (fun c => is_digit c || is_char 44 c) r2) as [ip r3]. simpl in Hi.
  assert (Hf : forall fr r4, (fr, r4) = match r3 with
    | String c r => if is_char 46 c then let '(fd, r') := span is_digit r in
                      match fd with EmptyString => (EmptyString, r3) | _ => (String c fd, r') end
                    else (EmptyString, r3)
    | EmptyString => (EmptyString, r3) end ->
    all_chars (fun c => is_digit c || is_char 46 c) fr).
  { intros fr r4 E. destruct r3 as [| c r]; [injection E as -> _; intros ? [] |].
    destruct (is_char 46 c) eqn:Hd; [| injection E as -> _; intros ? []].
    pose proof (span_fst_all is_digit r) as Hs.
    destruct (span is_digit r) as [fd r'] eqn:Es. simpl in Hs.
    destruct fd as [| x fd]; injection E as -> _; [intros ? [] |].
    intros y [<- | Hy]; [rewrite Hd, orb_true_r; reflexivity |].
    rewrite (Hs y Hy). reflexivity. }
  destruct (match r3 with
    | String c r => if is_char 46 c then let '(fd, r') := span is_digit r in
                      match fd with EmptyString => (EmptyString, r3) | _ => (String c fd, r') end
                    else (EmptyString, r3)
    | EmptyString => (EmptyString, r3) end) as [fr r4] eqn:E4.
  specialize (Hf fr r4 eq_refl).
  destruct (span is_space r4) as [sp r5]. destruct (span _ r5) as [rst r6].
  destruct c0 as [| x c0]; [discriminate |]. destruct ws as [| w ws]; [discriminate |].
  destruct ip as [| i ip]; [discriminate |].
  intro H. injection H as <- <- <-. split; [discriminate | split; [exact Hc |]].
  apply (all_chars_app _ (String i ip) fr).
  - apply (all_chars_weaken (fun c => is_digit c || is_char 44 c)); [| exact Hi]. intros c Hc'.
    apply orb_true_iff in Hc'. destruct Hc' as [-> | ->]; [reflexivity |].
    rewrite orb_true_r. reflexivity.
  - apply (all_chars_weaken (fun c => is_digit c || is_char 46 c)); [| exact Hf]. intros c Hc'.
    apply orb_true_iff in Hc'. destruct Hc' as [-> | ->]; [reflexivity |].
    rewrite !orb_true_r. reflexivity.
Qed.


Lemma substring_sub (x : ascii) (s : string) : forall n m,
  In x (list_ascii_of_string (substring n m s)) -> In x (list_ascii_of_string s).
Proof.
  induction s as [| c s IH]; intros n m; simpl.
  - destruct n, m; simpl; auto.
  - destruct n as [| n]; [destruct m as [| m]; simpl; [intros [] | intros [H | H]; eauto] |].
    intro H. right. eapply IH. exact H.
Qed.

Lemma replace_go_empty_sub (old : string) (x : ascii) : forall fuel n s,
  In x (list_ascii_of_string (replace_go old EmptyString fuel n s)) -> In x (list_ascii_of_string s).
Proof.
  induction fuel as [| fuel IH]; intros n s; simpl; [auto |].
  destruct n as [| n]; [auto |]. destruct s as [| c s]; [auto |].
  destruct (String.prefix old (String c s)).
  - intro H. simpl in H. apply IH in H. eapply substring_sub. exact H.
  - simpl. intros [H | H]; [auto | right; eapply IH; exact H].
Qed.

Lemma replace_comma_sub (x : ascii) (s : string) :
  In x (list_ascii_of_string (replace "," EmptyString s)) -> In x (list_ascii_of_string s).
Proof. unfold replace, replace_n. apply replace_go_empty_sub. Qed.

Lemma digit_val_nonneg (c : ascii) : is_digit c = true -> 0 <= digit_val c.
Proof.
  unfold is_digit, digit_val. intro H. apply andb_prop in H. destruct H as [H _].
  apply Nat.leb_le in H. lia.
Qed.

Lemma digits_value_acc_nonneg (s : string) : forall acc,
  0 <= acc -> all_chars is_digit s -> 0 <= digits_value_acc acc s.
Proof.
  induction s as [| c s IH]; intros acc Ha Hs; cbn [digits_value_acc]; [exact Ha |].
  apply IH; [| intros x Hx; apply Hs; right; exact Hx].
  pose proof (digit_val_nonneg c (Hs c (or_introl eq_refl))). lia.
Qed.

Lemma float_of_numeric_nonneg (s : string) (q : Q) :
  all_chars (fun c => negb (is_char 45 c)) s -> float_of_numeric s = Some q -> (0 <= q)%Q.
Proof.
  intros Hs. unfold float_of_numeric.
  assert (Hn : match s with
               | String c r => if is_char 45 c then (true, r) else (false, s)
               | EmptyString => (false, s) end = (false, s)).
  { destruct s as [| c r]; [reflexivity |].
    specialize (Hs c (or_introl eq_refl)). cbv beta in Hs. destruct (is_char 45 c); [simpl in Hs; discriminate | reflexivity]. }
  rewrite Hn. clear Hn.
  pose proof (span_fst_all is_digit s) as Hi.
  destruct (span is_digit s) as [ip s2]. simpl in Hi.
  assert (Hf : forall fp s3, (fp, s3) = match s2 with
      | String c r => if is_char 46 c then span is_digit r else (EmptyString, s2)
      | EmptyString => (EmptyString, s2) end -> all_chars is_digit fp).
  { intros fp s3 E. destruct s2 as [| c r]; [injection E as -> _; intros ? [] |].
    destruct (is_char 46 c); [| injection E as -> _; intros ? []].
    pose proof (span_fst_all is_digit r) as Hr. rewrite <- E in Hr. exact Hr. }
  destruct (match s2 with
      | String c r => if is_char 46 c then span is_digit r else (EmptyString, s2)
      | EmptyString => (EmptyString, s2) end) as [fp s3].
  specialize (Hf fp s3 eq_refl).
  destruct s3; [| discriminate].
  destruct (_ =? 0)%nat; [discriminate |].
  intro H. injection H as <-. unfold Qle. simpl.
  pose proof (digits_value_acc_nonneg (ip ++ fp) 0 ltac:(lia) (all_chars_app _ ip fp Hi Hf)).
  unfold digits_value. lia.
Qed.

Lemma desc_at_shape (s w g : string) :
  desc_at s = Some (w, g) -> g <> EmptyString /\ all_chars (fun c => negb (is_char 34 c)) g.
Proof.
  unfold desc_at. destruct (String.prefix "--desc" s); [| discriminate].
  destruct (span is_space _) as [ws r1]. destruct ws as [| ? ?]; [discriminate |].
  destruct r1 as [| q r2]; [discriminate |]. destruct (is_char 34 q); [| discriminate].
  pose proof (span_fst_all (fun c => negb (is_char 34 c)) r2) as Hg.
  destruct (span _ r2) as [g0 r3]. simpl in Hg.
  destruct g0 as [| x g0]; [discriminate |]. destruct r3 as [| q' r4]; [discriminate |].
  destruct (is_char 34 q'); [| discriminate].
  intro H. injection H as _ <-. split; [discriminate | exact Hg].
Qed.

Lemma desc_search_shape (s w g : string) :
  desc_search s = Some (w, g) -> g <> EmptyString /\ all_chars (fun c => negb (is_char 34 c)) g.
Proof.
  induction s as [| c s IH]; cbn [desc_search];
    destruct (desc_at _) as [[w' g'] |] eqn:E;
    try (intro H; injection H as -> ->; eapply desc_at_shape; exact E).
  - discriminate.
  - exact IH.
Qed.

End QuickFacts.

Module ConvFacts.
Import Py Date Json Float4 Db Bot Cmds Env Strp Migrate Predicates.
Local Open Scope Z_scope.
Import Facts.

Lemma step_inv fp today uid tbl (c : conv) (e : event) :
  st c <> END -> conv_inv uid tbl c -> conv_inv uid tbl (fst (step fp today uid c e)).
Proof.
  destruct c as [s u t]. unfold conv_inv, step; cbn [st ud conv_tbl].
  intros Hs Hi. destruct s; [| | | | congruence]; destruct e as [x | |];
    cbn [fst st ud conv_tbl cat_handler]; try (left; tauto); try exact Hi.
  - split; [exact Hi | discriminate].
  - unfold amt_handler. destruct (float_of_numeric _); cbn [fst st ud conv_tbl ud_category ud_amount]; [| exact Hi].
    split; [tauto | split; [tauto | discriminate]].
  - unfold date_handler. destruct (fp (strip x)); cbn [fst st ud conv_tbl ud_category ud_amount ud_date]; [| exact Hi].
    split; [tauto | split; [tauto | split; [tauto | discriminate]]].
  - unfold desc_handler. destruct Hi as (Ht & Hc & Ha & Hd).
    destruct (ud_category u) as [c |] eqn:Ec; [| congruence].
    destruct (ud_amount u) as [a |] eqn:Ea; [| congruence].
    destruct (ud_date u) as [d |] eqn:Ed; [| congruence].
    destruct (bot_insert_tx today t uid c a d (Some (strip x)) "INR") as [[n t'] | e] eqn:E;
      cbn [fst st ud conv_tbl].
    + right. unfold bot_insert_tx in E. apply insert_tx_ok in E.
      destruct E as (_ & _ & _ & v & _ & ->). subst t. eexists; split; reflexivity.
    + subst t. repeat split; congruence.
Qed.

Lemma run_inv fp today uid tbl (es : list event) : forall c : conv,
  st c <> END -> conv_inv uid tbl c -> conv_inv uid tbl (run fp today uid c es).
Proof.
  induction es as [| e es IH]; intros c Hs Hi; cbn [run]; [exact Hi |].
  pose proof (step_inv fp today uid tbl c e Hs Hi) as H.
  destruct (st (fst (step fp today uid c e))) eqn:E; try exact H; apply IH; try exact H;
    rewrite E; discriminate.
Qed.

End ConvFacts.

Module StrFacts.
Import Py Date Json Float4 Db Bot Cmds Env Strp Migrate Predicates.
Local Open Scope Z_scope.
Import Facts QuickFacts.

Lemma list_ascii_app (a b : string) :
  list_ascii_of_string (a ++ b) = (list_ascii_of_string a ++ list_ascii_of_string b)%list.
Proof. induction a as [| c a IH]; simpl; [reflexivity | rewrite IH; reflexivity]. Qed.

Lemma string_of_list_app (l1 l2 : list ascii) :
  string_of_list_ascii (l1 ++ l2) = (string_of_list_ascii l1 ++ string_of_list_ascii l2)%string.
Proof. induction l1 as [| c l IH]; simpl; [reflexivity | rewrite IH; reflexivity]. Qed.



Lemma last_char (s : string) : s <> EmptyString -> exists s' e, s = (s' ++ String e EmptyString)%string.
Proof.
  induction s as [| c s IH]; intro H; [congruence |].
  destruct s as [| c' s]; [exists EmptyString, c; reflexivity |].
  destruct IH as (s' & e & E); [discriminate |]. exists (String c s'), e. rewrite E. reflexivity.
Qed.



End StrFacts.

Module ReplyFacts.
Import Py Date Json Float4 Db Bot Cmds Env Strp Migrate Predicates.
Local Open Scope Z_scope.
Import Facts.

Lemma date_leb_refl (d : date) : date_leb d d = true.
Proof. destruct d as [y m dd]; unfold date_leb; simpl. zbool_true. Qed.

Lemma date_leb_trans (a b c : date) : date_leb a b = true -> date_leb b c = true -> date_leb a c = true.
Proof.
  destruct a as [y1 m1 d1], b as [y2 m2 d2], c as [y3 m3 d3]; unfold date_leb; simpl.
  intros H1 H2. bool_to_prop; zbool_true.
Qed.

Lemma prev_day_le (d : date) : date_leb (prev_day d) d = true.
Proof.
  destruct d as [y m dd]. unfold prev_day, date_leb; simpl.
  destruct (1 <? dd) eqn:E1; [simpl; zbool_true |].
  destruct (1 <? m) eqn:E2; simpl; zbool_true.
Qed.

Lemma minus_days_le (n : nat) : forall d, date_leb (minus_days n d) d = true.
Proof.
  induction n as [| n IH]; intro d; simpl; [apply date_leb_refl |].
  eapply date_leb_trans; [apply IH | apply prev_day_le].
Qed.

Lemma summary_start_le (today : date) (text : string) :
  1 <= day today ->
  match summary_start today text with Some s => date_leb s today = true | None => True end.
Proof.
  intro Hd. unfold summary_start.
  destruct (String.eqb _ "today"); [apply date_leb_refl |].
  destruct (String.eqb _ "week"); [apply minus_days_le |].
  destruct (String.eqb _ "all"); [exact I |].
  destruct today as [y m dd]; unfold date_leb; simpl in *. zbool_true.
Qed.

Lemma is_char_quote (c : ascii) : is_char 34 c = Ascii.eqb c (ascii_of_nat 34).
Proof.
  unfold is_char, code. destruct (Ascii.eqb_spec c (ascii_of_nat 34)) as [-> | Hn]; [reflexivity |].
  apply Nat.eqb_neq. intro E. apply Hn. rewrite <- E. symmetry. apply ascii_nat_embedding.
Qed.

Lemma csv_body_quotes (s rest : string) :
  (rest = EmptyString \/ exists c r', rest = String c r' /\ is_char 34 c = false) ->
  csv_quoted_body (csv_double_quotes s ++ dq ++ rest) = Some (s, rest).
Proof.
  intro Hr. induction s as [| c s IH]; cbn [csv_double_quotes].
  - unfold dq. cbn [append csv_quoted_body]. change (is_char 34 (ascii_of_nat 34)) with true.
    destruct Hr as [-> | (c & r' & -> & Hc)]; [reflexivity |]. rewrite Hc. reflexivity.
  - destruct (Ascii.eqb c (ascii_of_nat 34)) eqn:E.
    + apply Ascii.eqb_eq in E. subst c. unfold dq at 1 2. cbn [append csv_quoted_body].
      change (is_char 34 (ascii_of_nat 34)) with true. cbv iota. rewrite IH. reflexivity.
    + cbn [append csv_quoted_body]. rewrite is_char_quote, E. rewrite IH. reflexivity.
Qed.

End ReplyFacts.

Module EnvFacts.
Import Py Date Json Float4 Db Bot Cmds Env Strp Migrate Predicates.
Local Open Scope Z_scope.
Import Facts QuickFacts StrFacts.

Lemma getenv_cons (k' v k : string) (e : env) :
  getenv ((k', v) :: e) k = if String.eqb k' k then Some v else getenv e k.
Proof. unfold getenv. simpl. destruct (String.eqb k' k); reflexivity. Qed.

Lemma getenv_setdefault (k' v k : string) (e : env) :
  getenv (setdefault k' v e) k
  = match getenv e k with
    | Some x => Some x
    | None => if String.eqb k' k then Some v else None
    end.
Proof.
  unfold setdefault. destruct (getenv e k') as [x |] eqn:E.
  - destruct (getenv e k) eqn:E2; [reflexivity |].
    destruct (String.eqb_spec k' k) as [<- | ]; [congruence | reflexivity].
  - rewrite getenv_cons. destruct (String.eqb_spec k' k) as [<- | ]; [rewrite E; reflexivity |].
    destruct (getenv e k); reflexivity.
Qed.

Lemma getenv_fold (ls : list string) : forall (e : env) (k : string),
  getenv (fold_left (fun e line => match env_line line with
                                   | Some (k, v) => setdefault k v e
                                   | None => e end) ls e) k
  = match getenv e k with
    | Some v => Some v
    | None => getenv (flat_map (fun l => match env_line l with Some kv => [kv] | None => [] end) ls) k
    end.
Proof.
  induction ls as [| l ls IH]; intros e k; simpl.
  - destruct (getenv e k); reflexivity.
  - rewrite IH. destruct (env_line l) as [[k' v] |]; simpl.
    + rewrite getenv_setdefault, getenv_cons.
      destruct (getenv e k); [reflexivity |].
      destruct (String.eqb k' k); reflexivity.
    + reflexivity.
Qed.

End EnvFacts.

Module StripFacts.
Import Py Date Json Float4 Db Bot Cmds Env Strp Migrate Predicates.
Local Open Scope Z_scope.
Import Facts QuickFacts StrFacts.

Lemma lstrip_is_by (s : string) : lstrip s = lstrip_by is_space s.
Proof. induction s as [| c s IH]; simpl; [reflexivity |]. destruct (is_space c); auto. Qed.

Lemma strip_is_by (s : string) : strip s = strip_by is_space s.
Proof. unfold strip, rstrip, strip_by, rstrip_by. rewrite !lstrip_is_by. reflexivity. Qed.

Lemma lstrip_by_keep (p : ascii -> bool) (c : ascii) (s : string) :
  p c = false -> lstrip_by p (String c s) = String c s.
Proof. intro H. simpl. rewrite H. reflexivity. Qed.

Lemma lstrip_by_app_keep (p : ascii -> bool) (c : ascii) (s t : string) :
  p c = false -> lstrip_by p (String c s ++ t) = (String c s ++ t)%string.
Proof. intro H. simpl. rewrite H. reflexivity. Qed.

Lemma rstrip_by_last (p : ascii -> bool) (s : string) (e : ascii) :
  p e = false -> rstrip_by p (s ++ String e EmptyString) = (s ++ String e EmptyString)%string.
Proof.
  intro He. unfold rstrip_by. rewrite list_ascii_app. cbn [list_ascii_of_string].
  rewrite rev_app_distr. cbn [rev app string_of_list_ascii lstrip_by]. rewrite He.
  cbn [list_ascii_of_string]. rewrite list_ascii_of_string_of_list_ascii.
  cbn [rev]. rewrite rev_involutive, string_of_list_app, string_of_list_ascii_of_string.
  reflexivity.
Qed.

Lemma rstrip_by_drop (p : ascii -> bool) (s : string) (e : ascii) :
  p e = true -> rstrip_by p (s ++ String e EmptyString) = rstrip_by p s.
Proof.
  intro He. unfold rstrip_by. rewrite list_ascii_app. cbn [list_ascii_of_string].
  rewrite rev_app_distr. cbn [rev app string_of_list_ascii lstrip_by]. rewrite He.
  reflexivity.
Qed.

Lemma all_chars_cons (p : ascii -> bool) (c : ascii) (s : string) :
  all_chars p (String c s) -> p c = true /\ all_chars p s.
Proof. intro H. split; [apply H; left; reflexivity | intros x Hx; apply H; right; exact Hx]. Qed.

Lemma all_chars_last (p : ascii -> bool) (s : string) (e : ascii) :
  all_chars p (s ++ String e EmptyString) -> p e = true.
Proof. intro H. apply H. rewrite list_ascii_app. apply in_or_app. right. left. reflexivity. Qed.

Lemma rstrip_by_all (p : ascii -> bool) (s : string) :
  all_chars (fun x => negb (p x)) s -> rstrip_by p s = s.
Proof.
  intro H. destruct s as [| c r]; [reflexivity |].
  destruct (last_char (String c r) ltac:(discriminate)) as (s' & e & E). rewrite E in *.
  apply rstrip_by_last. apply all_chars_last in H. destruct (p e); [discriminate | reflexivity].
Qed.

Lemma strip_by_all (p : ascii -> bool) (s : string) :
  all_chars (fun x => negb (p x)) s -> strip_by p s = s.
Proof.
  intro H. unfold strip_by. destruct s as [| c r]; [reflexivity |].
  pose proof (all_chars_cons _ _ _ H) as [Hc _].
  rewrite lstrip_by_keep by (destruct (p c); [discriminate | reflexivity]).
  apply rstrip_by_all, H.
Qed.

Lemma strip_by_wrap (p : ascii -> bool) (q : ascii) (w : string) :
  p q = true -> w <> EmptyString -> all_chars (fun x => negb (p x)) w ->
  strip_by p (String q (w ++ String q EmptyString)) = w.
Proof.
  intros Hq Hw H. unfold strip_by. cbn [lstrip_by]. rewrite Hq.
  destruct w as [| c r]; [congruence |].
  pose proof (all_chars_cons _ _ _ H) as [Hc _].
  cbn [append]. rewrite lstrip_by_keep by (destruct (p c); [discriminate | reflexivity]).
  change (String c (r ++ String q EmptyString)) with ((String c r) ++ String q EmptyString)%string.
  rewrite rstrip_by_drop by exact Hq. apply rstrip_by_all, H.
Qed.

Lemma word_facts (c : ascii) :
  is_word c = true -> is_space c = false /\ is_char 61 c = false /\ is_char 35 c = false
                      /\ is_char 34 c = false /\ is_char 39 c = false /\ is_char 10 c = false.
Proof. destruct c as [[] [] [] [] [] [] [] []]; vm_compute; intro H; first [discriminate H | repeat split]. Qed.

Lemma split_at_char_app (n : nat) (k w : string) (c : ascii) :
  all_chars (fun x => negb (is_char n x)) k -> is_char n c = true ->
  split_at_char n (k ++ String c w) = (k, w).
Proof.
  intros Hk Hc. induction k as [| x k IH]; simpl; [rewrite Hc; reflexivity |].
  destruct (all_chars_cons _ _ _ Hk) as [Hx Hk'].
  destruct (is_char n x); [discriminate |]. rewrite IH by exact Hk'. reflexivity.
Qed.

Lemma env_line_kv (k v w : string) :
  k <> EmptyString -> all_chars is_word k -> all_chars (fun x => negb (is_space x)) v ->
  strip_by (is_char 39) (strip_by (is_char 34) v) = w -> w <> EmptyString ->
  env_line (k ++ "=" ++ v ++ String (ascii_of_nat 10) EmptyString) = Some (k, w).
Proof.
  intros Hk Hkw Hv Hw Hwne.
  destruct k as [| c k']; [congruence |].
  destruct (all_chars_cons _ _ _ Hkw) as [Hc _].
  destruct (word_facts c Hc) as (Hcs & _ & Hc35 & _).
  assert (Hline : strip (String c k' ++ "=" ++ v ++ String (ascii_of_nat 10) EmptyString)
                  = (String c k' ++ "=" ++ v)%string).
  { rewrite strip_is_by. unfold strip_by. rewrite lstrip_by_app_keep by exact Hcs.
    replace (String c k' ++ "=" ++ v ++ String (ascii_of_nat 10) EmptyString)%string
      with ((String c k' ++ "=" ++ v) ++ String (ascii_of_nat 10) EmptyString)%string
      by (rewrite !DateFacts.str_app_assoc; reflexivity).
    rewrite rstrip_by_drop by reflexivity.
    apply rstrip_by_all. apply all_chars_app; [| apply (all_chars_app _ "=" v); [| exact Hv]].
    - intros x Hx. destruct (word_facts x (Hkw x Hx)) as [-> _]. reflexivity.
    - intros x [<- | []]. reflexivity. }
  unfold env_line. rewrite Hline.
  assert (Hk61 : all_chars (fun x => negb (is_char 61 x)) (String c k')).
  { intros x Hx. destruct (word_facts x (Hkw x Hx)) as (_ & -> & _). reflexivity. }
  assert (Hhas : has_char 61 (String c k' ++ "=" ++ v) = true).
  { unfold has_char. apply existsb_exists. exists "="%char. split; [| reflexivity].
    rewrite list_ascii_app. apply in_or_app. right. left. reflexivity. }
  rewrite Hhas. change ("=" ++ v)%string with (String "=" v).
  rewrite (split_at_char_app 61 (String c k') v "=" Hk61 eq_refl).
  cbn [append String.eqb String.prefix].
  destruct (ascii_dec "#" c) as [<- | _]; [discriminate Hc35 |].
  assert (Hks : strip (String c k') = String c k').
  { rewrite strip_is_by. apply strip_by_all. intros x Hx.
    destruct (word_facts x (Hkw x Hx)) as [-> _]. reflexivity. }
  assert (Hvs : strip v = v) by (rewrite strip_is_by; apply strip_by_all, Hv).
  cbn [andb negb]. rewrite Hks, Hvs, Hw. cbn [String.eqb].
  destruct w as [| ? ?]; [congruence |]. reflexivity.
Qed.

End StripFacts.

Module TokenFacts.
Import Py Date Json Float4 Db Bot Cmds Env Strp Migrate Predicates.
Local Open Scope Z_scope.
Local Open Scope string_scope.
Import Facts QuickFacts StrFacts StripFacts.

Lemma file_lines_line (l rest : string) : forall acc,
  all_chars (fun x => negb (is_char 10 x)) l ->
  file_lines_acc acc (l ++ String (ascii_of_nat 10) rest)
  = string_of_list_ascii (rev acc ++ list_ascii_of_string l ++ [ascii_of_nat 10]) :: file_lines_acc [] rest.
Proof.
  induction l as [| c l IH]; intros acc Hl; cbn [append file_lines_acc].
  - change (is_char 10 (ascii_of_nat 10)) with true. cbv iota.
    cbn [rev list_ascii_of_string app]. reflexivity.
  - destruct (all_chars_cons _ _ _ Hl) as [Hc Hl'].
    destruct (is_char 10 c); [discriminate |]. rewrite IH by exact Hl'.
    cbn [rev list_ascii_of_string]. rewrite <- app_assoc. reflexivity.
Qed.

Lemma universal_newlines_app (l rest : string) :
  all_chars (fun x => negb (is_char 13 x)) l ->
  universal_newlines (l ++ rest) = l ++ universal_newlines rest.
Proof.
  induction l as [| c l IH]; intro Hl; [reflexivity |].
  destruct (all_chars_cons _ _ _ Hl) as [Hc Hl']. cbn [append universal_newlines].
  destruct (is_char 13 c); [discriminate |]. rewrite IH by exact Hl'. reflexivity.
Qed.

(** The first line of a file whose first line has no line break. *)
Lemma file_lines_first (l rest : string) :
  all_chars (fun x => negb (is_char 10 x)) l -> all_chars (fun x => negb (is_char 13 x)) l ->
  file_lines (l ++ String (ascii_of_nat 10) rest)
  = string_of_list_ascii (list_ascii_of_string l ++ [ascii_of_nat 10]) :: file_lines rest.
Proof.
  intros H10 H13. unfold file_lines. rewrite universal_newlines_app by exact H13.
  cbn [universal_newlines]. change (is_char 13 (ascii_of_nat 10)) with false. cbv iota.
  rewrite file_lines_line by exact H10. reflexivity.
Qed.

Lemma nonspace_noncr (s : string) :
  all_chars (fun x => negb (is_space x)) s -> all_chars (fun x => negb (is_char 13 x)) s.
Proof.
  apply all_chars_weaken. intros c. destruct c as [[] [] [] [] [] [] [] []]; vm_compute; congruence.
Qed.

Lemma all_chars_wrap (p : ascii -> bool) (q : ascii) (w : string) :
  p q = true -> all_chars p w -> all_chars p (String q (w ++ String q EmptyString)).
Proof.
  intros Hq Hw x [<- | Hx]; [exact Hq |].
  apply (all_chars_app p w (String q EmptyString)); [exact Hw | | exact Hx].
  intros y [<- | []]; exact Hq.
Qed.

Lemma token_line (t rest : string) :
  t <> EmptyString -> all_chars (fun x => negb (is_space x)) t ->
  get_token_from_file (Some ("bot_token=" ++ t ++ nl ++ rest)) = Some t.
Proof.
  intros Hne Ht.
  assert (Hn : all_chars (fun x => negb (is_char 10 x)) ("bot_token=" ++ t)).
  { apply (all_chars_app _ "bot_token=" t); [intros x Hx; repeat destruct Hx as [<- | Hx]; try reflexivity; contradiction |].
    intros x Hx. specialize (Ht x Hx). destruct (is_char 10 x) eqn:E; [| reflexivity].
    unfold is_char, code in E. apply Nat.eqb_eq in E.
    replace x with (ascii_of_nat 10) in Ht by (rewrite <- E; apply ascii_nat_embedding). discriminate Ht. }
  assert (Hr : all_chars (fun x => negb (is_char 13 x)) ("bot_token=" ++ t)).
  { apply (all_chars_app _ "bot_token=" t); [intros x Hx; repeat destruct Hx as [<- | Hx]; try reflexivity; contradiction |].
    apply nonspace_noncr, Ht. }
  unfold get_token_from_file, nl.
  replace ("bot_token=" ++ t ++ String (ascii_of_nat 10) EmptyString ++ rest)
    with (("bot_token=" ++ t) ++ String (ascii_of_nat 10) rest)
    by (rewrite DateFacts.str_app_assoc; reflexivity).
  rewrite file_lines_first by assumption.
  cbn [rev app]. rewrite string_of_list_app, string_of_list_ascii_of_string.
  cbn [string_of_list_ascii].
  assert (Hs : strip (("bot_token=" ++ t) ++ String (ascii_of_nat 10) EmptyString) = ("bot_token=" ++ t)%string).
  { rewrite strip_is_by. unfold strip_by. rewrite DateFacts.str_app_assoc.
    rewrite lstrip_by_app_keep by reflexivity. rewrite <- DateFacts.str_app_assoc.
    rewrite rstrip_by_drop by reflexivity. apply rstrip_by_all.
    apply (all_chars_app _ "bot_token=" t); [| exact Ht].
    intros x Hx; repeat destruct Hx as [<- | Hx]; try reflexivity; contradiction. }
  cbn [find]. rewrite Hs.
  assert (Hp : forall u, String.prefix "bot_token=" ("bot_token=" ++ u) = true)
    by (intro u; generalize "bot_token="; intro s; induction s as [| c s IH];
        [destruct u; reflexivity | cbn; destruct (ascii_dec c c); [exact IH | congruence]]).
  rewrite Hp. f_equal.
  rewrite DateFacts.str_app_assoc. cbn [append split_at_char snd].
  change (is_char 61 "b") with false. change (is_char 61 "o") with false.
  change (is_char 61 "t") with false. change (is_char 61 "_") with false.
  change (is_char 61 "k") with false. change (is_char 61 "e") with false.
  change (is_char 61 "n") with false. change (is_char 61 "=") with true. cbv iota. cbn [snd].
  rewrite strip_is_by. unfold strip_by.
  destruct t as [| c r]; [congruence |].
  destruct (all_chars_cons _ _ _ Ht) as [Hc _].
  rewrite lstrip_by_app_keep by (destruct (is_space c); [discriminate | reflexivity]).
  rewrite rstrip_by_drop by reflexivity. apply rstrip_by_all, Ht.
Qed.

End TokenFacts.

Module EnvFileFacts.
Import Py Date Json Float4 Db Bot Cmds Env Strp Migrate Predicates.
Local Open Scope Z_scope.
Local Open Scope string_scope.
Import Facts QuickFacts StrFacts StripFacts TokenFacts EnvFacts.

Lemma nonspace_nonnl (s : string) :
  all_chars (fun x => negb (is_space x)) s -> all_chars (fun x => negb (is_char 10 x)) s.
Proof.
  apply all_chars_weaken. intros c. destruct c as [[] [] [] [] [] [] [] []]; vm_compute; congruence.
Qed.

Lemma word_nonspace (s : string) : all_chars is_word s -> all_chars (fun x => negb (is_space x)) s.
Proof.
  apply all_chars_weaken. intros c Hc. destruct (word_facts c Hc) as [-> _]. reflexivity.
Qed.

Lemma file_lines_kv (k w rest : string) :
  all_chars is_word k -> all_chars (fun x => negb (is_space x)) w ->
  file_lines (k ++ "=" ++ w ++ nl ++ rest) = (k ++ "=" ++ w ++ nl) :: file_lines rest.
Proof.
  intros Hk Hw. unfold nl.
  replace (k ++ "=" ++ w ++ String (ascii_of_nat 10) EmptyString ++ rest)
    with ((k ++ "=" ++ w) ++ String (ascii_of_nat 10) rest)
    by (rewrite !DateFacts.str_app_assoc; reflexivity).
  assert (Hs : all_chars (fun x => negb (is_space x)) (k ++ "=" ++ w)).
  { apply all_chars_app; [apply word_nonspace, Hk |].
    apply (all_chars_app _ "=" w); [intros x [<- | []]; reflexivity | exact Hw]. }
  rewrite file_lines_first.
  - rewrite string_of_list_app, string_of_list_ascii_of_string.
    cbn [string_of_list_ascii]. rewrite !DateFacts.str_app_assoc. reflexivity.
  - apply nonspace_nonnl, Hs.
  - apply nonspace_noncr, Hs.
Qed.

Lemma plain_value_facts (w : string) :
  all_chars (fun x => negb (is_space x || is_char 34 x || is_char 39 x)) w ->
  all_chars (fun x => negb (is_space x)) w /\ all_chars (fun x => negb (is_char 34 x)) w
  /\ all_chars (fun x => negb (is_char 39 x)) w.
Proof.
  intro H. repeat split; revert H; apply all_chars_weaken; intro c;
    destruct (is_space c), (is_char 34 c), (is_char 39 c); cbn; congruence.
Qed.

End EnvFileFacts.

Module MigrateFacts.
Import Py Date Json Float4 Db Bot Cmds Env Strp Migrate Predicates.
Local Open Scope Z_scope.
Import Facts.

Section Loop.
Variables (jl : string -> option json) (jd : json -> string) (pc : nrow -> bool).

Lemma insert_rows_app (pg a b : list nrow) :
  insert_rows pg (a ++ b) = insert_rows (insert_rows pg a) b.
Proof. unfold insert_rows. apply fold_left_app. Qed.

Lemma insert_rows_prefix (rows : list nrow) : forall pg, exists sfx, insert_rows pg rows = pg ++ sfx.
Proof.
  induction rows as [| r rows IH]; intro pg; [exists []; symmetry; apply app_nil_r |].
  cbn [insert_rows fold_left]. fold (insert_rows (if id_taken pg r then pg else pg ++ [r]) rows).
  destruct (id_taken pg r).
  - apply IH.
  - destruct (IH (pg ++ [r])) as [sfx E]. exists (r :: sfx). rewrite E, <- app_assoc. reflexivity.
Qed.

Lemma id_taken_app (pg sfx : list nrow) (r : nrow) :
  id_taken pg r = true -> id_taken (pg ++ sfx) r = true.
Proof. unfold id_taken. rewrite existsb_app. intros ->. reflexivity. Qed.

Lemma id_taken_self (pg : list nrow) (r : nrow) (z : Z) :
  n_id r = Some z -> id_taken (pg ++ [r]) r = true.
Proof.
  intro Hz. unfold id_taken. rewrite existsb_app. cbn [existsb]. rewrite Hz, Z.eqb_refl.
  rewrite !orb_true_r. reflexivity.
Qed.

Lemma insert_rows_taken (rows : list nrow) : forall pg,
  (forall r, In r rows -> exists z, n_id r = Some z) ->
  forall r, In r rows -> id_taken (insert_rows pg rows) r = true.
Proof.
  induction rows as [| x rows IH]; intros pg Hid r Hr; [destruct Hr |].
  cbn [insert_rows fold_left]. fold (insert_rows (if id_taken pg x then pg else pg ++ [x]) rows).
  destruct Hr as [<- | Hr].
  - destruct (insert_rows_prefix rows (if id_taken pg x then pg else pg ++ [x])) as [sfx ->].
    apply id_taken_app. destruct (id_taken pg x) eqn:E; [exact E |].
    destruct (Hid x (or_introl eq_refl)) as [z Hz]. exact (id_taken_self pg x z Hz).
  - apply IH; [intros y Hy; apply Hid; right; exact Hy | exact Hr].
Qed.

Lemma insert_rows_all_taken (rows : list nrow) : forall pg,
  (forall r, In r rows -> id_taken pg r = true) -> insert_rows pg rows = pg.
Proof.
  induction rows as [| x rows IH]; intros pg H; [reflexivity |].
  cbn [insert_rows fold_left]. rewrite (H x (or_introl eq_refl)).
  apply IH. intros r Hr. apply H. right. exact Hr.
Qed.

Lemma row_ok_id (r : nrow) : row_ok pc r = true -> exists z, n_id r = Some z.
Proof.
  unfold row_ok. destruct (n_id r) as [z |]; [eauto |].
  destruct (n_category r), (n_amount r); discriminate.
Qed.

Lemma last_cons_default (x : Z) (l : list Z) (d : Z) : last (x :: l) d = last l x.
Proof.
  revert x d. induction l as [| y l IH]; intros x d; [reflexivity |].
  change (last (x :: y :: l) d) with (last (y :: l) d). rewrite (IH y d), (IH y x). reflexivity.
Qed.

Lemma loop_success (fuel bs : nat) : forall (batch rest : list srow) (pg : list nrow) (ins : Z),
  (List.length batch + List.length rest < fuel)%nat -> (batch = [] -> rest = []) ->
  forallb (row_ok pc) (map (normalize_row jl jd) (batch ++ rest)) = true ->
  exists outs,
    migrate_loop jl jd pc fuel bs batch rest pg ins
    = (insert_rows pg (map (normalize_row jl jd) (batch ++ rest)), outs, false)
    /\ last outs ins = (ins + Z.of_nat (List.length (batch ++ rest)))%Z.
Proof.
  induction fuel as [| fuel IH]; intros batch rest pg ins Hf Hne Hok; [lia |].
  destruct batch as [| b bt].
  - rewrite (Hne eq_refl). exists []. split; [reflexivity | cbn; lia].
  - rewrite map_app, forallb_app in Hok. apply andb_prop in Hok as [Hb Hr].
    cbn [migrate_loop]. unfold insert_batch. rewrite Hb.
    assert (Hfm : let '(next, rest') := fetchmany bs rest in
                  next ++ rest' = rest /\ (next = [] -> rest' = [])).
    { unfold fetchmany. destruct bs as [| bs']; [split; [apply app_nil_r | reflexivity] |].
      split; [apply firstn_skipn |]. intro E.
      destruct rest as [| x rs]; [reflexivity | discriminate]. }
    destruct (fetchmany bs rest) as [next rest'] eqn:Ef. destruct Hfm as [Eapp Hne'].
    destruct (IH next rest' (insert_rows pg (map (normalize_row jl jd) (b :: bt)))
                 (ins + Z.of_nat (List.length (map (normalize_row jl jd) (b :: bt))))%Z)
      as [outs [Eloop Hlast]].
    + rewrite <- Eapp, length_app in Hf. cbn [List.length] in Hf |- *. lia.
    + exact Hne'.
    + rewrite Eapp. exact Hr.
    + rewrite Eloop. exists ((ins + Z.of_nat (List.length (map (normalize_row jl jd) (b :: bt))))%Z :: outs).
      split.
      * rewrite Eapp, map_app, insert_rows_app. reflexivity.
      * rewrite Eapp in Hlast. rewrite length_map in Hlast |- *.
        rewrite last_cons_default, Hlast. rewrite length_app in *. cbn [List.length] in *. lia.
Qed.

Lemma loop_extends (fuel bs : nat) : forall (batch rest : list srow) (pg : list nrow) (ins : Z),
  exists sfx, fst (fst (migrate_loop jl jd pc fuel bs batch rest pg ins)) = pg ++ sfx.
Proof.
  induction fuel as [| fuel IH]; intros batch rest pg ins; cbn [migrate_loop].
  - exists []. symmetry. apply app_nil_r.
  - destruct batch as [| b bt]; [exists []; symmetry; apply app_nil_r |].
    unfold insert_batch. destruct (forallb (row_ok pc) _); [| exists []; symmetry; apply app_nil_r].
    destruct (fetchmany bs rest) as [next rest'].
    destruct (insert_rows_prefix (map (normalize_row jl jd) (b :: bt)) pg) as [s1 E1].
    destruct (IH next rest' (insert_rows pg (map (normalize_row jl jd) (b :: bt)))
                 (ins + Z.of_nat (List.length (map (normalize_row jl jd) (b :: bt))))%Z) as [s2 E2].
    destruct (migrate_loop jl jd pc fuel bs next rest' _ _) as [[pg'' outs] failed].
    cbn [fst] in E2 |- *. exists (s1 ++ s2). rewrite E2, E1, app_assoc. reflexivity.
Qed.

Lemma loop_failure (bs : nat) (Hbs : (0 < bs)%nat) : forall k (pre post : list srow) (pg : list nrow) (ins : Z) (fuel : nat),
  List.length pre = (k * bs)%nat -> (List.length pre + List.length post < fuel)%nat ->
  forallb (row_ok pc) (map (normalize_row jl jd) pre) = true ->
  forallb (row_ok pc) (map (normalize_row jl jd) (firstn bs post)) = false ->
  fst (fst (migrate_loop jl jd pc fuel bs (firstn bs (pre ++ post)) (skipn bs (pre ++ post)) pg ins))
  = insert_rows pg (map (normalize_row jl jd) pre)
  /\ snd (migrate_loop jl jd pc fuel bs (firstn bs (pre ++ post)) (skipn bs (pre ++ post)) pg ins) = true.
Proof.
  induction k as [| k IH]; intros pre post pg ins fuel Hlen Hf Hpre Hpost.
  - destruct pre; [| discriminate]. cbn [app].
    destruct fuel as [| fuel]; [lia |].
    destruct (firstn bs post) as [| b bt] eqn:Eb; [discriminate |].
    cbn [migrate_loop]. unfold insert_batch. rewrite Hpost. split; reflexivity.
  - destruct fuel as [| fuel]; [lia |].
    assert (Hge : (bs <= List.length pre)%nat) by (rewrite Hlen; cbn; lia).
    rewrite firstn_app, skipn_app.
    replace (bs - List.length pre)%nat with 0%nat by lia. rewrite firstn_O, skipn_O, app_nil_r.
    replace (skipn bs pre) with (skipn bs pre) by reflexivity.
    pose proof (firstn_skipn bs pre) as Esplit.
    rewrite <- Esplit, map_app, forallb_app in Hpre. apply andb_prop in Hpre as [H1 H2].
    destruct (firstn bs pre) as [| b bt] eqn:Eb.
    { apply (f_equal (@List.length _)) in Eb. rewrite length_firstn in Eb. cbn in Eb. lia. }
    cbn [migrate_loop]. unfold insert_batch. rewrite H1.
    replace (fetchmany bs (skipn bs pre ++ post))
      with (firstn bs (skipn bs pre ++ post), skipn bs (skipn bs pre ++ post))
      by (unfold fetchmany; destruct bs; [lia | reflexivity]).
    destruct (IH (skipn bs pre) post (insert_rows pg (map (normalize_row jl jd) (b :: bt)))
                 (ins + Z.of_nat (List.length (map (normalize_row jl jd) (b :: bt))))%Z fuel)
      as [E1 E2].
    + rewrite length_skipn, Hlen. cbn. lia.
    + rewrite length_skipn. lia.
    + exact H2.
    + exact Hpost.
    + destruct (migrate_loop jl jd pc fuel bs _ _ _ _) as [[pg'' outs] failed].
      cbn [fst snd] in E1, E2 |- *. split; [| exact E2].
      rewrite E1, <- insert_rows_app, <- map_app. rewrite <- Esplit at 2. reflexivity.
Qed.

Lemma fetchmany_spec (bs : nat) (rows : list srow) :
  fst (fetchmany bs rows) ++ snd (fetchmany bs rows) = rows
  /\ (fst (fetchmany bs rows) = [] -> snd (fetchmany bs rows) = []).
Proof.
  unfold fetchmany. destruct bs as [| bs']; cbn [fst snd].
  - split; [apply app_nil_r | reflexivity].
  - split; [apply firstn_skipn |]. intro E.
    destruct rows as [| x rs]; [reflexivity | discriminate E].
Qed.

Lemma loop_indep (fuel bs : nat) : forall (batch rest : list srow) (pg1 pg2 : list nrow) (ins : Z),
  snd (fst (migrate_loop jl jd pc fuel bs batch rest pg1 ins))
  = snd (fst (migrate_loop jl jd pc fuel bs batch rest pg2 ins))
  /\ snd (migrate_loop jl jd pc fuel bs batch rest pg1 ins)
  = snd (migrate_loop jl jd pc fuel bs batch rest pg2 ins).
Proof.
  induction fuel as [| fuel IH]; intros batch rest pg1 pg2 ins; cbn [migrate_loop]; [split; reflexivity |].
  destruct batch as [| b bt]; [split; reflexivity |].
  unfold insert_batch. destruct (forallb (row_ok pc) _); [| split; reflexivity].
  destruct (fetchmany bs rest) as [next rest'].
  destruct (IH next rest' (insert_rows pg1 (map (normalize_row jl jd) (b :: bt)))
               (insert_rows pg2 (map (normalize_row jl jd) (b :: bt)))
               (ins + Z.of_nat (List.length (map (normalize_row jl jd) (b :: bt))))%Z) as [E1 E2].
  destruct (migrate_loop jl jd pc fuel bs next rest' (insert_rows pg1 _) _) as [[a1 o1] f1].
  destruct (migrate_loop jl jd pc fuel bs next rest' (insert_rows pg2 _) _) as [[a2 o2] f2].
  cbn [fst snd] in E1, E2 |- *. subst. split; reflexivity.
Qed.

End Loop.
End MigrateFacts.

Module IntFacts.
Import Py Date Json Float4 Db Bot Cmds Env Strp Migrate Predicates.
Local Open Scope Z_scope.
Import Facts QuickFacts StripFacts.
Local Open Scope Z_scope.

Ltac eval_digit :=
  repeat match goal with
  | |- context [digit_val ?c] => let v := eval vm_compute in (digit_val c) in change (digit_val c) with v
  end.

Lemma dv_acc_pos (d : Decimal.uint) : forall p : positive,
  digits_value_acc (Zpos p) (NilEmpty.string_of_uint d) = Zpos (Pos.of_uint_acc d p).
Proof.
  induction d; intro p; cbn [NilEmpty.string_of_uint digits_value_acc Pos.of_uint_acc];
    [reflexivity | ..]; eval_digit; rewrite <- IHd; f_equal; lia.
Qed.

Lemma dv_uint (d : Decimal.uint) : digits_value (NilEmpty.string_of_uint d) = Z.of_uint d.
Proof.
  unfold digits_value. induction d; cbn [NilEmpty.string_of_uint digits_value_acc]; eval_digit;
    [reflexivity | exact IHd | ..]; cbn [Z.mul Z.add]; apply dv_acc_pos.
Qed.

Lemma int_digits_uint (d : Decimal.uint) :
  int_digits true (NilEmpty.string_of_uint d) = Some (NilEmpty.string_of_uint d).
Proof. induction d; cbn [NilEmpty.string_of_uint int_digits]; [reflexivity | ..]; rewrite IHd; reflexivity. Qed.

Lemma uint_digits (d : Decimal.uint) : all_chars is_digit (NilEmpty.string_of_uint d).
Proof.
  induction d; [intros c [] |..]; intros c [<- | Hc]; try reflexivity; exact (IHd c Hc).
Qed.

Lemma uint_nonspace (d : Decimal.uint) : all_chars (fun x => negb (is_space x)) (NilEmpty.string_of_uint d).
Proof.
  apply (all_chars_weaken is_digit); [| apply uint_digits].
  intros c Hc. rewrite DateFacts.digit_not_space by exact Hc. reflexivity.
Qed.

Lemma digits_value_acc_shift (s : string) : forall acc,
  digits_value_acc acc s = acc * 10 ^ Z.of_nat (String.length s) + digits_value s.
Proof.
  unfold digits_value. induction s as [| c s IH]; intro acc; cbn [digits_value_acc String.length].
  - rewrite Z.pow_0_r. lia.
  - rewrite IH, (IH (10 * 0 + digit_val c)). rewrite Nat2Z.inj_succ, Z.pow_succ_r by lia. ring.
Qed.

Lemma digit_val_bounds (c : ascii) : is_digit c = true -> 0 <= digit_val c <= 9.
Proof.
  unfold is_digit, digit_val. intro H. apply andb_prop in H. destruct H as [H1 H2].
  apply Nat.leb_le in H1. apply Nat.leb_le in H2. lia.
Qed.

Lemma digit_val_pos (c : ascii) : is_digit c = true -> c <> "0"%char -> 1 <= digit_val c.
Proof.
  intros H Hc. pose proof (digit_val_bounds c H) as Hb.
  destruct (Z.eq_dec (digit_val c) 0) as [E | E]; [| lia].
  exfalso. apply Hc. unfold digit_val, code in E.
  assert (E' : nat_of_ascii c = 48%nat) by lia.
  rewrite <- (ascii_nat_embedding c), E'. reflexivity.
Qed.

(** the value of [n] digits is below [10^n] *)
Lemma digits_value_bound (s : string) :
  all_chars is_digit s -> 0 <= digits_value s < 10 ^ Z.of_nat (String.length s).
Proof.
  induction s as [| c s IH]; intro Hs.
  - cbn. lia.
  - destruct (all_chars_cons _ _ _ Hs) as [Hc Hs']. specialize (IH Hs').
    assert (E : digits_value (String c s)
                = digit_val c * 10 ^ Z.of_nat (String.length s) + digits_value s).
    { unfold digits_value at 1. cbn [digits_value_acc]. rewrite digits_value_acc_shift. ring. }
    rewrite E. cbn [String.length]. rewrite Nat2Z.inj_succ, Z.pow_succ_r by lia.
    pose proof (digit_val_bounds c Hc). nia.
Qed.

(** and at least [10^(n-1)] when the first digit is not zero *)
Lemma digits_value_lower (c : ascii) (s : string) :
  is_digit c = true -> c <> "0"%char -> all_chars is_digit s ->
  10 ^ Z.of_nat (String.length s) <= digits_value (String c s).
Proof.
  intros Hc Hz Hs. unfold digits_value at 1. cbn [digits_value_acc].
  rewrite digits_value_acc_shift.
  pose proof (digit_val_pos c Hc Hz). pose proof (digits_value_bound s Hs).
  nia.
Qed.

(** [str(n)] of a positive number starts with a nonzero digit. *)
Lemma uint_head (p : positive) :
  exists c r, NilEmpty.string_of_uint (Pos.to_uint p) = String c r /\ c <> "0"%char.
Proof.
  assert (Hn : Decimal.unorm (Pos.to_uint p) = Pos.to_uint p).
  { rewrite <- DecimalPos.Unsigned.to_of, DecimalPos.Unsigned.of_to. reflexivity. }
  pose proof (DecimalPos.Unsigned.to_uint_nonzero p) as Hz.
  destruct (Pos.to_uint p) as [| d | d | d | d | d | d | d | d | d | d];
    try (eexists _, _; split; [reflexivity | discriminate]).
  - cbn in Hn. discriminate Hn.
  - exfalso. unfold Decimal.unorm in Hn. cbn [Decimal.nzhead] in Hn.
    pose proof (DecimalFacts.nb_digits_nzhead d) as Hl.
    destruct (Decimal.nzhead d) as [| u | u | u | u | u | u | u | u | u | u] eqn:E2;
      try discriminate Hn.
    + injection Hn as <-. apply Hz. reflexivity.
    + injection Hn as ->. cbn [Decimal.nb_digits] in Hl. lia.
Qed.

Lemma uint_len_bound (p : positive) :
  let L := String.length (NilEmpty.string_of_uint (Pos.to_uint p)) in
  (1 <= L)%nat /\ 10 ^ (Z.of_nat L - 1) <= Zpos p < 10 ^ Z.of_nat L.
Proof.
  intro L.
  assert (Hv : digits_value (NilEmpty.string_of_uint (Pos.to_uint p)) = Zpos p).
  { rewrite dv_uint. unfold Z.of_uint. rewrite DecimalPos.Unsigned.of_to. reflexivity. }
  pose proof (uint_digits (Pos.to_uint p)) as Hd.
  destruct (uint_head p) as [c [r [E Hc]]].
  unfold L. rewrite E in Hd, Hv |- *.
  destruct (all_chars_cons _ _ _ Hd) as [Hc0 Hr].
  pose proof (digits_value_lower c r Hc0 Hc Hr) as Hlo.
  pose proof (digits_value_bound (String c r) Hd) as Hhi.
  cbn [String.length] in *. rewrite Nat2Z.inj_succ in *.
  replace (Z.succ (Z.of_nat (String.length r)) - 1) with (Z.of_nat (String.length r)) by lia.
  split; [lia |]. lia.
Qed.

Lemma digit_facts (c : ascii) :
  is_digit c = true -> is_char 45 c = false /\ is_char 43 c = false.
Proof. destruct c as [[] [] [] [] [] [] [] []]; vm_compute; intro H; first [discriminate H | split; reflexivity]. Qed.

Lemma py_int_uint (d : Decimal.uint) : d <> Decimal.Nil ->
  (String.length (NilEmpty.string_of_uint d) <= int_max_str_digits)%nat ->
  py_int (NilEmpty.string_of_uint d) = Some (Z.of_uint d)
  /\ py_int (String "-" (NilEmpty.string_of_uint d)) = Some (- Z.of_uint d).
Proof.
  intros Hd Hl. rewrite <- dv_uint.
  assert (H1 : strip (NilEmpty.string_of_uint d) = NilEmpty.string_of_uint d)
    by (rewrite strip_is_by; apply strip_by_all, uint_nonspace).
  assert (H2 : strip (String "-" (NilEmpty.string_of_uint d)) = String "-" (NilEmpty.string_of_uint d)).
  { rewrite strip_is_by. apply strip_by_all. intros c [<- | Hc]; [reflexivity | exact (uint_nonspace d c Hc)]. }
  unfold py_int. rewrite H1, H2. change (is_char 45 "-") with true. cbv iota beta.
  pose proof (uint_digits d) as Hdig. pose proof (int_digits_uint d) as Hid.
  destruct (NilEmpty.string_of_uint d) as [| c r] eqn:E.
  { destruct d; [congruence | ..]; discriminate E. }
  destruct (all_chars_cons _ _ _ Hdig) as [Hc _].
  destruct (digit_facts c Hc) as [-> ->].
  cbn [int_digits] in Hid |- *. rewrite Hc in Hid |- *. rewrite Hid.
  assert (Hl' : (int_max_str_digits <? String.length (String c r))%nat = false)
    by (apply Nat.ltb_ge; first [exact Hl | rewrite <- E; exact Hl]).
  rewrite Hl'. split; reflexivity.
Qed.

Lemma py_int_uint_long (d : Decimal.uint) :
  (int_max_str_digits < String.length (NilEmpty.string_of_uint d))%nat ->
  py_int (NilEmpty.string_of_uint d) = None
  /\ py_int (String "-" (NilEmpty.string_of_uint d)) = None.
Proof.
  intros Hl.
  assert (H1 : strip (NilEmpty.string_of_uint d) = NilEmpty.string_of_uint d)
    by (rewrite strip_is_by; apply strip_by_all, uint_nonspace).
  assert (H2 : strip (String "-" (NilEmpty.string_of_uint d)) = String "-" (NilEmpty.string_of_uint d)).
  { rewrite strip_is_by. apply strip_by_all. intros c [<- | Hc]; [reflexivity | exact (uint_nonspace d c Hc)]. }
  unfold py_int. rewrite H1, H2. change (is_char 45 "-") with true. cbv iota beta.
  pose proof (uint_digits d) as Hdig. pose proof (int_digits_uint d) as Hid.
  destruct (NilEmpty.string_of_uint d) as [| c r] eqn:E.
  { cbn in Hl. lia. }
  destruct (all_chars_cons _ _ _ Hdig) as [Hc _].
  destruct (digit_facts c Hc) as [-> ->].
  cbn [int_digits] in Hid |- *. rewrite Hc in Hid |- *. rewrite Hid.
  assert (Hl' : (int_max_str_digits <? String.length (String c r))%nat = true)
    by (apply Nat.ltb_lt; first [exact Hl | rewrite <- E; exact Hl]).
  rewrite Hl'. split; reflexivity.
Qed.

Lemma uint_len_le (p : positive) (k : nat) :
  Zpos p < 10 ^ Z.of_nat k -> (String.length (NilEmpty.string_of_uint (Pos.to_uint p)) <= k)%nat.
Proof.
  intro Hp. destruct (uint_len_bound p) as [H1 [H2 H3]].
  apply Nat.nlt_ge. intro Hc.
  assert (10 ^ Z.of_nat k <= 10 ^ (Z.of_nat (String.length (NilEmpty.string_of_uint (Pos.to_uint p))) - 1))
    by (apply Z.pow_le_mono_r; lia).
  lia.
Qed.

Lemma uint_len_gt (p : positive) (k : nat) :
  10 ^ Z.of_nat k <= Zpos p -> (k < String.length (NilEmpty.string_of_uint (Pos.to_uint p)))%nat.
Proof.
  intro Hp. destruct (uint_len_bound p) as [H1 [H2 H3]].
  apply Nat.nle_gt. intro Hc.
  assert (10 ^ Z.of_nat (String.length (NilEmpty.string_of_uint (Pos.to_uint p))) <= 10 ^ Z.of_nat k)
    by (apply Z.pow_le_mono_r; lia).
  lia.
Qed.

(** [int(str(z))] is [z] for a number of at most 4300 digits. *)
Lemma py_int_str_int (z : Z) : Z.abs z < 10 ^ 4300 -> py_int (str_int z) = Some z.
Proof.
  change (10 ^ 4300) with (10 ^ Z.of_nat int_max_str_digits).
  intro Hz. rewrite <- (DecimalZ.of_to z) at 2. unfold str_int.
  destruct z as [| p | p]; [reflexivity | |]; cbn [Z.to_int NilEmpty.string_of_int Z.of_int];
    apply py_int_uint; try apply DecimalPos.Unsigned.to_uint_nonnil;
    apply uint_len_le; exact Hz.
Qed.

(** [int(str(z))] raises for a number of more than 4300 digits. *)
Lemma py_int_str_int_long (z : Z) : 10 ^ 4300 <= Z.abs z -> py_int (str_int z) = None.
Proof.
  change (10 ^ 4300) with (10 ^ Z.of_nat int_max_str_digits).
  intro Hz. unfold str_int.
  destruct z as [| p | p]; [exfalso; cbn [Z.abs] in Hz;
      assert (0 < 10 ^ Z.of_nat int_max_str_digits) by (apply Z.pow_pos_nonneg; lia); lia | |];
    cbn [Z.to_int NilEmpty.string_of_int]; apply py_int_uint_long; apply uint_len_gt; exact Hz.
Qed.

Lemma str_int_nonspace (z : Z) : str_int z <> EmptyString /\ all_chars (fun x => negb (is_space x)) (str_int z).
Proof.
  unfold str_int. destruct z as [| p | p]; cbn [Z.to_int NilEmpty.string_of_int].
  - split; [discriminate | intros c [<- | []]; reflexivity].
  - split; [| apply uint_nonspace].
    pose proof (DecimalPos.Unsigned.to_uint_nonnil p). destruct (Pos.to_uint p); [congruence | ..]; discriminate.
  - split; [discriminate |]. intros c [<- | Hc]; [reflexivity | exact (uint_nonspace _ c Hc)].
Qed.

Lemma split_words_nonspace (s : string) : forall acc,
  all_chars (fun x => negb (is_space x)) s ->
  split_words_acc acc s = match acc, s with
                          | [], EmptyString => []
                          | _, _ => [string_of_list_ascii (rev acc ++ list_ascii_of_string s)]
                          end.
Proof.
  induction s as [| c s IH]; intros acc Hs; cbn [split_words_acc].
  - destruct acc; [reflexivity |]. cbn [list_ascii_of_string]. rewrite app_nil_r. reflexivity.
  - destruct (all_chars_cons _ _ _ Hs) as [Hc Hs']. destruct (is_space c); [discriminate |].
    rewrite IH by exact Hs'. cbn [rev list_ascii_of_string]. rewrite <- app_assoc.
    destruct acc; destruct s; reflexivity.
Qed.

Lemma split_words_word_space (s t : string) (sp : ascii) : forall acc,
  all_chars (fun x => negb (is_space x)) s -> is_space sp = true -> (acc <> [] \/ s <> EmptyString) ->
  split_words_acc acc (s ++ String sp t)
  = string_of_list_ascii (rev acc ++ list_ascii_of_string s) :: split_words_acc [] t.
Proof.
  induction s as [| c s IH]; intros acc Hs Hsp Hne; cbn [append split_words_acc].
  - rewrite Hsp. destruct acc; [destruct Hne; congruence |]. cbn [list_ascii_of_string].
    rewrite app_nil_r. reflexivity.
  - destruct (all_chars_cons _ _ _ Hs) as [Hc Hs']. destruct (is_space c); [discriminate |].
    rewrite IH by (exact Hs' || exact Hsp || (left; discriminate)). cbn [rev list_ascii_of_string].
    rewrite <- app_assoc. reflexivity.
Qed.

End IntFacts.

Module SplitFacts.
Import Py Bot Predicates.
Local Open Scope string_scope.

Lemma split_sep_acc_app (p rest : string) : forall acc,
  all_chars (fun x => negb (is_char 44 x)) p ->
  split_sep_acc 44 acc (p ++ rest) = split_sep_acc 44 (rev (list_ascii_of_string p) ++ acc) rest.
Proof.
  induction p as [| c p IH]; intros acc Hp; [reflexivity |].
  cbn [append split_sep_acc list_ascii_of_string rev].
  assert (Hc : (code c =? 44)%nat = false).
  { pose proof (Hp c (or_introl eq_refl)) as H. unfold is_char in H.
    destruct (code c =? 44)%nat; [discriminate H | reflexivity]. }
  rewrite Hc, IH by (intros x Hx; apply Hp; right; exact Hx).
  rewrite <- app_assoc. reflexivity.
Qed.

Lemma split_sep_join (ps : list string) :
  ps <> [] -> Forall (all_chars (fun x => negb (is_char 44 x))) ps ->
  split_sep 44 (join "," ps) = ps.
Proof.
  unfold split_sep. induction ps as [| p ps IH]; intros Hne Hps; [congruence |].
  inversion Hps as [| ? ? Hp Hps']; subst.
  destruct ps as [| p' ps'].
  - cbn [join]. rewrite <- (DateFacts.append_empty_r p) at 1.
    rewrite split_sep_acc_app by exact Hp. cbn [split_sep_acc].
    rewrite app_nil_r, rev_involutive, string_of_list_ascii_of_string. reflexivity.
  - change (join "," (p :: p' :: ps')) with (p ++ "," ++ join "," (p' :: ps')).
    rewrite split_sep_acc_app by exact Hp. cbn [append split_sep_acc].
    change (code (ascii_of_nat 44) =? 44)%nat with true. cbv iota.
    rewrite app_nil_r, rev_involutive, string_of_list_ascii_of_string.
    rewrite IH by (discriminate || exact Hps'). reflexivity.
Qed.

End SplitFacts.

(* ================================================================== *)
(** * The claims *)

Import Py Date Json Float4 Db Bot.
Local Open Scope Z_scope.
Local Open Scope string_scope.




(** C4 (counterexample): when the largest id is 2147483647, the
    [INTEGER] expression [COALESCE(MAX(id), 0) + 1] overflows: the insert
    raises [integer out of range] and assigns no id. *)
Lemma insert_tx_next_id_int_overflow :
  insert_tx (fun _ => None) (fun _ => EmptyString) (fun _ => None) today_ex [mkTx 2147483647 1 "food" 1 "INR" today_ex None]
    7 "food" 250 "2025-11-13" None None "INR"
  = Err "integer out of range".
Proof. reflexivity. Qed.

(** C4 (amended): when [insert_tx] returns, the id it returns is the
    largest id of the whole table (all users) plus one, 1 on an empty
    table, and the table gets one row appended with that id, the user and
    the category.  It raises [integer out of range], adding nothing, when
    that id is outside the [INTEGER] range, and it raises whenever the
    user id is outside that range. *)
Theorem insert_tx_next_id jl jd jb (today : date) (tbl : table) (uid : Z) (cat : string)
    (a : Q) (ds : string) (desc tags : option string) (cur : string) :
  match insert_tx jl jd jb today tbl uid cat a ds desc tags cur with
  | Ok (n, tbl') =>
      n = next_id tbl /\
      (exists r, tbl' = (tbl ++ [r])%list /\ id r = n /\ user_id r = uid /\ category r = cat) /\
      (tbl = [] -> n = 1) /\
      (tbl <> [] -> exists r0, In r0 tbl /\ n = id r0 + 1 /\
                      forall r, In r tbl -> id r <= id r0)
  | Err _ => True
  end /\
  (int4_ok (next_id tbl) = false ->
   insert_tx jl jd jb today tbl uid cat a ds desc tags cur = Err "integer out of range") /\
  (int4_ok uid = false ->
   exists e, insert_tx jl jd jb today tbl uid cat a ds desc tags cur = Err e).
Proof.
  split; [| split; [apply Facts.insert_tx_next_id_overflow |]].
  - destruct (insert_tx jl jd jb today tbl uid cat a ds desc tags cur) as [[n tbl'] | e] eqn:E;
      [| exact I].
    apply Facts.insert_tx_ok in E. destruct E as (-> & _ & _ & v & _ & ->).
    destruct (Facts.next_id_spec tbl) as [H1 H2].
    split; [reflexivity | split; [| split; assumption]].
    eexists; split; [reflexivity | auto].
  - intro Hu. unfold insert_tx.
    destruct (int4_ok (next_id tbl)); simpl; [| eauto].
    destruct (_ || _); [eauto |].
    destruct (match tags_param jl jd tags with Some t => jb t | None => None end); [eauto |].
    rewrite Hu. simpl. eauto.
Qed.

(** C2 (amended): the interactive amount step deletes every character
    other than a digit, ['.'] or ['-'] (all of them are kept, wherever
    they are), parses the rest with [float], moves on to the date step
    when that succeeds and re-prompts otherwise; [1,200] becomes [1200]
    and is accepted as 1200, [1.2.3] re-prompts. *)
Theorem amt_handler_sanitizes (text : string) (u : user_data) :
  list_ascii_of_string (sanitize_amount text)
  = filter (fun c => is_digit c || is_char 46 c || is_char 45 c) (list_ascii_of_string text) /\
  amt_handler text u
  = match float_of_numeric (sanitize_amount (strip text)) with
    | None => (AMT, u, "Couldn't parse amount. Enter numeric amount:")
    | Some a => (DTE, mkUD (ud_category u) (Some a) (ud_date u),
                 "Enter date (YYYY-MM-DD) or text like 'today' or '2025-11-13':")
    end /\
  amt_handler "1,200" u
  = (DTE, mkUD (ud_category u) (Some 1200%Q) (ud_date u),
     "Enter date (YYYY-MM-DD) or text like 'today' or '2025-11-13':") /\
  amt_handler "1.2.3" u = (AMT, u, "Couldn't parse amount. Enter numeric amount:").
Proof.
  split; [| split; [reflexivity | split; reflexivity]].
  induction text as [| c s IH]; simpl; [reflexivity |].
  destruct (is_digit c || is_char 46 c || is_char 45 c); simpl; rewrite ?IH; reflexivity.
Qed.

(** C2 (counterexample): the interactive amount [1,200] is accepted as
    1200 and the flow moves on to the date step; it does not re-prompt. *)
Lemma amt_handler_comma_accepted :
  amt_handler "1,200" no_user_data
  = (DTE, mkUD None (Some 1200%Q) None,
     "Enter date (YYYY-MM-DD) or text like 'today' or '2025-11-13':").
Proof. reflexivity. Qed.

(** C3 (code defect): with dateutil, which skips the word [yesterday] and
    finds no date in it, [/quick food 250 --desc "lunch" yesterday] saves
    the transaction with today's date, not yesterday's. *)
Theorem quick_yesterday_saved_today :
  dateutil_fragment " yesterday" = Some None /\
  quick_cmd dateutil_fp today_ex 7 quick_lunch_yesterday []
  = (QSaved "food" 250%Q today_ex (Some "lunch"),
     [mkTx 1 7 "food" 250%Q "INR" today_ex (Some "lunch")]) /\
  today_ex <> prev_day today_ex.
Proof. split; [reflexivity | split; [reflexivity | discriminate]]. Qed.

(** C9: [/quick food ,, stuff] matches [QUICK_RE] with the amount [,,];
    [float] of the empty string raises, so nothing is saved and no usage
    reply is sent. *)
Theorem quick_commas_only_raises (fp : string -> option date) (today : date) (uid : Z)
    (tbl : table) :
  quick_re "food ,, stuff" = Some ("food", ",,", "stuff")%string /\
  quick_cmd fp today uid "/quick food ,, stuff" tbl = (QRaise, tbl).
Proof. split; reflexivity. Qed.

(** Whatever the date parser does, [/quick food 10 --desc], an empty
    quoted text, then [--desc "lunch"] is saved with the description
    [lunch]. *)
Lemma quick_empty_then_lunch_any_parser (fp : string -> option date) :
  exists d tbl', quick_cmd fp today_ex 7 quick_empty_then_lunch []
                 = (QSaved "food" 10%Q d (Some "lunch"), tbl').
Proof.
  unfold quick_cmd. vm_compute.
  destruct (fp _); eexists; eexists; reflexivity.
Qed.

(** C10 (counterexample): [/quick food 10 --desc], an empty quoted text,
    then [--desc "lunch"]: the message has the empty [--desc] fragment
    and still gets the description [lunch]. *)
Lemma quick_empty_desc_then_lunch :
  exists d tbl', quick_cmd dateutil_fp today_ex 7 quick_empty_then_lunch []
                 = (QSaved "food" 10%Q d (Some "lunch"), tbl').
Proof. apply quick_empty_then_lunch_any_parser. Qed.

(** C10 (amended): when a [/quick] message matches the grammar, its
    amount parses and its rest has no [--desc] fragment with a non-empty
    quoted text (such as one that only has [--desc ""]), the transaction
    gets no description and the whole stripped rest, the [--desc ""]
    fragment included, is what the date parser gets; the row is then
    saved unless [insert_tx] raises, which the reply reports. *)
Theorem quick_no_desc_whole_rest (fp : string -> option date) (today : date) (uid : Z)
    (text : string) (tbl : table) (cat amt rest0 : string) (a : Q) :
  quick_re (strip (replace_n "/quick" EmptyString 1 text)) = Some (cat, amt, rest0) ->
  float_of_numeric (replace "," EmptyString amt) = Some a ->
  desc_search (strip rest0) = None ->
  let d := match fp (strip rest0) with Some d => d | None => today end in
  quick_cmd fp today uid text tbl
  = match bot_insert_tx today tbl uid cat a (isoformat d) None "INR" with
    | Ok (_, tbl') => (QSaved cat a d None, tbl')
    | Err msg => (QDbError msg, tbl)
    end.
Proof.
  intros Hre Hf Hd. unfold quick_cmd. rewrite Hre, Hf, Hd. reflexivity.
Qed.

Lemma quick_no_desc_whole_rest_witness :
  strip (("--desc " ++ dq ++ dq ++ " tomorrow")%string) = ("--desc " ++ dq ++ dq ++ " tomorrow")%string /\
  quick_cmd strptime_ymd today_ex 7 quick_empty_desc []
  = (QSaved "food" 10%Q today_ex None, [mkTx 1 7 "food" 10 "INR" today_ex None]).
Proof.
  split; [reflexivity |].
  rewrite (quick_no_desc_whole_rest strptime_ymd today_ex 7 quick_empty_desc [] "food" "10"
             ("--desc " ++ dq ++ dq ++ " tomorrow")%string 10%Q); reflexivity.
Defined.

(** C8: in one [/add] conversation, whatever the updates so far, as long
    as the conversation has not ended no row has been written, and
    [/cancel] then ends it with the table unchanged. *)
Theorem cancel_in_conv_persists_nothing (fp : string -> option date) (today : date)
    (uid : Z) (u : user_data) (tbl : table) (es : list event) :
  st (run fp today uid (mkConv CAT u tbl) es) <> END ->
  conv_tbl (run fp today uid (mkConv CAT u tbl) es) = tbl /\
  st (run fp today uid (mkConv CAT u tbl) (es ++ [ECancel])%list) = END /\
  conv_tbl (run fp today uid (mkConv CAT u tbl) (es ++ [ECancel])%list) = tbl.
Proof.
  intro H.
  assert (Ht : conv_tbl (run fp today uid (mkConv CAT u tbl) es) = tbl)
    by (apply (Facts.run_in_conv_keeps_table fp today uid es (mkConv CAT u tbl));
        [discriminate | exact H]).
  rewrite (Facts.run_app_in_conv fp today uid es [ECancel] (mkConv CAT u tbl));
    [| discriminate | exact H].
  destruct (run fp today uid (mkConv CAT u tbl) es) as [s u' t] eqn:E; simpl in *.
  destruct s; try congruence; simpl; auto.
Qed.

Lemma cancel_in_conv_persists_nothing_witness :
  st (run strptime_ymd today_ex 7 (mkConv CAT no_user_data [])
        [EText "petrol"; EText "abc"; EText "500"; EText "not a date"]) <> END /\
  conv_tbl (run strptime_ymd today_ex 7 (mkConv CAT no_user_data [])
        ([EText "petrol"; EText "abc"; EText "500"; EText "not a date"] ++ [ECancel])%list) = [].
Proof.
  assert (H : st (run strptime_ymd today_ex 7 (mkConv CAT no_user_data [])
        [EText "petrol"; EText "abc"; EText "500"; EText "not a date"]) <> END)
    by (vm_compute; discriminate).
  split; [exact H |].
  apply (cancel_in_conv_persists_nothing strptime_ymd today_ex 7 no_user_data []
           [EText "petrol"; EText "abc"; EText "500"; EText "not a date"] H).
Defined.









(* ================================================================== *)
(** * Further properties of the code *)

Import Cmds Env Strp Migrate Predicates.



(** X2: What [/quick] saves: a category of word characters and dashes, a non-negative amount, a non-empty description without double quotes. *)
Theorem quick_cmd_saved_shape (fp : string -> option date) (today : date) (uid : Z)
    (text : string) (tbl tbl' : table) (c : string) (a : Q) (d : date) (desc : option string) :
  quick_cmd fp today uid text tbl = (QSaved c a d desc, tbl') ->
  c <> EmptyString /\ all_chars (fun x => is_word x || is_char 45 x) c /\ (0 <= a)%Q /\
  (forall g, desc = Some g -> g <> EmptyString /\ all_chars (fun x => negb (is_char 34 x)) g).
Proof.
  unfold quick_cmd.
  destruct (quick_re _) as [[[c0 amt] rest0] |] eqn:Hre; [| discriminate].
  destruct (QuickFacts.quick_re_shape _ _ _ _ Hre) as (Hne & Hc & Ha).
  destruct (float_of_numeric _) as [a0 |] eqn:Hf; [| discriminate].
  destruct (desc_search (strip rest0)) as [[w g0] |] eqn:Hd; cbv beta iota zeta.
  - destruct (bot_insert_tx _ _ _ _ _ _ _ _) as [[n t] | e]; intro H; [| discriminate H].
    injection H as <- <- _ <- _.
    split; [exact Hne | split; [exact Hc | split]].
    + eapply QuickFacts.float_of_numeric_nonneg; [| exact Hf].
      intros x Hx. apply QuickFacts.replace_comma_sub, Ha in Hx.
      unfold is_char, is_digit in *. destruct (Nat.eqb_spec (code x) 45) as [E | E]; [| reflexivity].
      rewrite E in Hx. discriminate.
    + intros g Hg. injection Hg as <-. eapply QuickFacts.desc_search_shape. exact Hd.
  - destruct (bot_insert_tx _ _ _ _ _ _ _ _) as [[n t] | e]; intro H; [| discriminate H].
    injection H as <- <- _ <- _.
    split; [exact Hne | split; [exact Hc | split]].
    + eapply QuickFacts.float_of_numeric_nonneg; [| exact Hf].
      intros x Hx. apply QuickFacts.replace_comma_sub, Ha in Hx.
      unfold is_char, is_digit in *. destruct (Nat.eqb_spec (code x) 45) as [E | E]; [| reflexivity].
      rewrite E in Hx. discriminate.
    + discriminate.
Qed.



(** X4: Any run of the [/add] conversation adds at most one row, of the conversing user, and only at its end. *)
Theorem add_conversation_one_row (fp : string -> option date) (today : date) (uid : Z)
    (u : user_data) (tbl : table) (es : list event) :
  let c := run fp today uid (mkConv CAT u tbl) es in
  (st c = DESC -> exists cat a ds, ud c = mkUD (Some cat) (Some a) (Some ds)) /\
  (conv_tbl c = tbl \/
   (st c = END /\ exists r, conv_tbl c = (tbl ++ [r])%list /\ user_id r = uid)).
Proof.
  cbv zeta.
  pose proof (ConvFacts.run_inv fp today uid tbl es (mkConv CAT u tbl) ltac:(discriminate) eq_refl) as H.
  destruct (run fp today uid (mkConv CAT u tbl) es) as [s [uc ua ud0] t].
  unfold conv_inv in H. cbn [st ud conv_tbl ud_category ud_amount ud_date] in *.
  destruct s; split; try discriminate; try tauto.
  - intros _. destruct H as (_ & Hc & Ha & Hd).
    destruct uc, ua, ud0; try congruence. eauto.
Qed.


(** X6: [/list] raises on a count outside [BIGINT] or a negative one; with count 0 or no rows it replies that there are no transactions yet. *)
Theorem list_cmd_edges (str_float : Q -> string) (tbl : table) (uid : Z) (text : string) :
  (list_limit text < - 2 ^ 63 \/ 2 ^ 63 <= list_limit text ->
   list_cmd str_float tbl uid text = Raised "bigint out of range") /\
  (- 2 ^ 63 <= list_limit text < 0 ->
   list_cmd str_float tbl uid text = Raised "LIMIT must not be negative") /\
  (0 <= list_limit text < 2 ^ 63 -> list_limit text = 0 \/ user_rows tbl uid = [] ->
   list_cmd str_float tbl uid text = Sent (ReplyText "No transactions yet.")).
Proof.
  unfold list_cmd, get_transactions, int8_ok. split; [| split].
  - intro H. replace ((- 2 ^ 63 <=? list_limit text) && (list_limit text <? 2 ^ 63))%Z with false
      by (symmetry; apply andb_false_iff; destruct H;
          [left; apply Z.leb_gt | right; apply Z.ltb_ge]; lia).
    reflexivity.
  - intro H. replace ((- 2 ^ 63 <=? list_limit text) && (list_limit text <? 2 ^ 63))%Z with true
      by (symmetry; apply andb_true_iff; split; [apply Z.leb_le | apply Z.ltb_lt]; lia).
    replace (list_limit text <? 0)%Z with true by (symmetry; apply Z.ltb_lt; lia).
    reflexivity.
  - intros H0 H. replace ((- 2 ^ 63 <=? list_limit text) && (list_limit text <? 2 ^ 63))%Z with true
      by (symmetry; apply andb_true_iff; split; [apply Z.leb_le | apply Z.ltb_lt]; lia).
    replace (list_limit text <? 0)%Z with false by (symmetry; apply Z.ltb_ge; lia).
    cbv iota beta. destruct H as [-> | ->]; [reflexivity |]. simpl. rewrite firstn_nil. reflexivity.
Qed.

(** X7: For every period word, [/summary] counts the user's rows dated today or later. *)
Theorem summary_counts_later_rows (today : date) (tbl : table) (uid : Z) (text : string) (r : tx) :
  1 <= day today -> In r tbl -> user_id r = uid -> date_leb today (tx_date r) = true ->
  In r (summary_rows tbl uid (summary_start today text)) /\
  (forall l, get_summary tbl uid (summary_start today text) = Rows l -> In (category r) (map fst l)).
Proof.
  intros Hd Hin Hu Hr.
  assert (H : In r (summary_rows tbl uid (summary_start today text))).
  { apply Facts.summary_rows_in. split; [exact Hin | split; [exact Hu |]].
    pose proof (ReplyFacts.summary_start_le today text Hd) as Hs.
    destruct (summary_start today text); [| exact I].
    eapply ReplyFacts.date_leb_trans; [exact Hs | exact Hr]. }
  split; [exact H |].
  intros l E. pose proof (Facts.summary_spec tbl uid (summary_start today text)) as S.
  cbv zeta in S. rewrite E in S. destruct S as [S1 _]. rewrite S1.
  apply Facts.in_dedup, in_map. exact H.
Qed.

Lemma summary_counts_later_rows_witness :
  1 <= day today_ex /\ In (mkTx 1 7 "food" 250 "INR" (mkDate 2025 12 25) None) [mkTx 1 7 "food" 250 "INR" (mkDate 2025 12 25) None] /\
  user_id (mkTx 1 7 "food" 250 "INR" (mkDate 2025 12 25) None) = 7 /\
  date_leb today_ex (tx_date (mkTx 1 7 "food" 250 "INR" (mkDate 2025 12 25) None)) = true /\
  In (mkTx 1 7 "food" 250 "INR" (mkDate 2025 12 25) None)
     (summary_rows [mkTx 1 7 "food" 250 "INR" (mkDate 2025 12 25) None] 7 (summary_start today_ex "/summary today")) /\
  (forall l, get_summary [mkTx 1 7 "food" 250 "INR" (mkDate 2025 12 25) None] 7 (summary_start today_ex "/summary today") = Rows l ->
     In (category (mkTx 1 7 "food" 250 "INR" (mkDate 2025 12 25) None)) (map fst l)).
Proof.
  assert (H1 : 1 <= day today_ex) by (simpl; lia).
  assert (H2 : In (mkTx 1 7 "food" 250 "INR" (mkDate 2025 12 25) None) [mkTx 1 7 "food" 250 "INR" (mkDate 2025 12 25) None])
    by (left; reflexivity).
  assert (H3 : user_id (mkTx 1 7 "food" 250 "INR" (mkDate 2025 12 25) None) = 7) by reflexivity.
  assert (H4 : date_leb today_ex (tx_date (mkTx 1 7 "food" 250 "INR" (mkDate 2025 12 25) None)) = true) by reflexivity.
  split; [exact H1 | split; [exact H2 | split; [exact H3 | split; [exact H4 |]]]].
  apply (summary_counts_later_rows today_ex _ 7 "/summary today" _ H1 H2 H3 H4).
Defined.

(** X8: [/summary] reports an empty period exactly when no row of the user falls in it. *)
Theorem summary_cmd_empty_iff (str_float : Q -> string) (today : date) (tbl : table) (uid : Z)
    (text : string) :
  summary_cmd str_float today tbl uid text = Sent (ReplyText "No transactions for the selected period.")
  <-> summary_rows tbl uid (summary_start today text) = [].
Proof.
  split.
  - intro H. unfold summary_cmd in H.
    pose proof (Facts.summary_spec tbl uid (summary_start today text)) as S. cbv zeta in S.
    destruct (get_summary tbl uid (summary_start today text)) as [l | e]; [| discriminate H].
    destruct S as [S1 _].
    destruct l as [| [c t] l].
    + destruct (summary_rows tbl uid (summary_start today text)) as [| r rs]; [reflexivity |].
      discriminate S1.
    + injection H as H. discriminate H.
  - intro E. unfold summary_cmd, get_summary. cbv zeta. rewrite E. reflexivity.
Qed.

(** X9: [/export] reports no data exactly when the user has no rows, and otherwise sends the CSV file. *)
Theorem export_cmd_empty_iff (str_float : Q -> string) (tbl : table) (uid : Z) :
  (export_cmd str_float tbl uid = ReplyText "No data to export." <-> user_rows tbl uid = []) /\
  (user_rows tbl uid <> [] ->
   export_cmd str_float tbl uid
   = ReplyDocument "expenses.csv"
       (join nl (csv_header :: map (csv_line str_float) (get_export_data tbl uid)))).
Proof.
  unfold export_cmd, get_export_data.
  pose proof (Facts.sort_by_perm export_le (user_rows tbl uid)) as Hp.
  destruct (sort_by export_le (user_rows tbl uid)) as [| r l]; cbn [map].
  - apply Permutation_nil in Hp. split; [split; [intros _; exact Hp | reflexivity] | contradiction].
  - split; [| reflexivity].
    split; [discriminate |]. intro H. rewrite H in Hp. apply Permutation_sym, Permutation_nil in Hp.
    discriminate.
Qed.

(** X10: A CSV reader reads the quoted description field of an exported line back unchanged. *)
Theorem csv_line_description_reads_back (str_float : Q -> string) (i : Z) (d c : string) (a : Q)
    (cur : string) (desc : option string) (rest : string) :
  (rest = EmptyString \/ exists ch r', rest = String ch r' /\ is_char 34 ch = false) ->
  exists field,
    csv_line str_float (i, d, c, a, cur, desc)
    = (join "," [str_int i; d; c; str_float a; cur] ++ "," ++ field)%string /\
    csv_read_quoted (field ++ rest)
    = Some (match desc with Some s => s | None => EmptyString end, rest).
Proof.
  intro Hr. exists (dq ++ csv_double_quotes (match desc with Some s => s | None => EmptyString end) ++ dq)%string.
  split.
  - unfold csv_line. rewrite Facts.replace_quotes. cbn [join]. rewrite !DateFacts.str_app_assoc. reflexivity.
  - rewrite !DateFacts.str_app_assoc. unfold dq at 1. cbn [append csv_read_quoted].
    change (is_char 34 (ascii_of_nat 34)) with true. cbv iota.
    apply ReplyFacts.csv_body_quotes, Hr.
Qed.

(** X11: A .env line with a plain, double-quoted or single-quoted value is read as the same key and value. *)
Theorem env_line_value_forms (k w : string) :
  k <> EmptyString -> all_chars is_word k -> w <> EmptyString ->
  all_chars (fun x => negb (is_space x || is_char 34 x || is_char 39 x)) w ->
  env_line (k ++ "=" ++ w ++ nl) = Some (k, w) /\
  env_line (k ++ "=" ++ dq ++ w ++ dq ++ nl) = Some (k, w) /\
  env_line (k ++ "=" ++ "'" ++ w ++ "'" ++ nl) = Some (k, w).
Proof.
  intros Hk Hkw Hw Hall.
  destruct (EnvFileFacts.plain_value_facts w Hall) as (Hsp & H34 & H39).
  assert (Hwrap : forall q, (String q EmptyString ++ w ++ String q EmptyString ++ nl)%string
                            = (String q (w ++ String q EmptyString) ++ nl)%string)
    by (intro q; cbn [append]; rewrite DateFacts.str_app_assoc; reflexivity).
  split; [| split].
  - apply StripFacts.env_line_kv; auto.
    rewrite (StripFacts.strip_by_all (is_char 34) w H34). apply StripFacts.strip_by_all, H39.
  - change dq with (String (ascii_of_nat 34) EmptyString). rewrite Hwrap.
    apply StripFacts.env_line_kv; auto.
    + apply TokenFacts.all_chars_wrap; [reflexivity | exact Hsp].
    + rewrite StripFacts.strip_by_wrap by (reflexivity || exact Hw || exact H34).
      apply StripFacts.strip_by_all, H39.
  - change "'" with (String (ascii_of_nat 39) EmptyString). rewrite Hwrap.
    apply StripFacts.env_line_kv; auto.
    + apply TokenFacts.all_chars_wrap; [reflexivity | exact Hsp].
    + rewrite (StripFacts.strip_by_all (is_char 34)) by (apply TokenFacts.all_chars_wrap; [reflexivity | exact H34]).
      apply StripFacts.strip_by_wrap; [reflexivity | exact Hw | exact H39].
Qed.

Lemma env_line_value_forms_witness :
  env_line ("PGHOST" ++ "=" ++ "db.local" ++ nl) = Some ("PGHOST", "db.local") /\
  env_line ("PGHOST" ++ "=" ++ dq ++ "db.local" ++ dq ++ nl) = Some ("PGHOST", "db.local") /\
  env_line ("PGHOST" ++ "=" ++ "'" ++ "db.local" ++ "'" ++ nl) = Some ("PGHOST", "db.local").
Proof.
  apply env_line_value_forms; [discriminate | | discriminate |].
  - intros c Hc. repeat (destruct Hc as [<- | Hc]; [reflexivity |]). contradiction.
  - intros c Hc. repeat (destruct Hc as [<- | Hc]; [reflexivity |]). contradiction.
Defined.

(** X12: The first .env line for a key sets it when the environment does not already have it. *)
Theorem load_env_file_line_sets (e : env) (k w rest : string) :
  k <> EmptyString -> all_chars is_word k -> w <> EmptyString ->
  all_chars (fun x => negb (is_space x || is_char 34 x || is_char 39 x)) w ->
  getenv (load_env_file (Some (k ++ "=" ++ w ++ nl ++ rest)) e) k
  = Some (match getenv e k with Some v => v | None => w end).
Proof.
  intros Hk Hkw Hw Hall.
  destruct (EnvFileFacts.plain_value_facts w Hall) as (Hsp & H34 & H39).
  unfold load_env_file. rewrite EnvFacts.getenv_fold.
  destruct (getenv e k) as [v |]; [reflexivity |].
  rewrite EnvFileFacts.file_lines_kv by assumption.
  cbn [flat_map]. rewrite StripFacts.env_line_kv with (w := w); try assumption.
  - cbn [app]. rewrite EnvFacts.getenv_cons, String.eqb_refl. reflexivity.
  - rewrite (StripFacts.strip_by_all (is_char 34) w H34). apply StripFacts.strip_by_all, H39.
Qed.

Lemma load_env_file_line_sets_witness :
  getenv (load_env_file (Some ("PGPORT" ++ "=" ++ "6543" ++ nl ++ "PGPORT=7000" ++ nl)) []) "PGPORT"
  = Some "6543".
Proof.
  apply (load_env_file_line_sets [] "PGPORT" "6543"); [discriminate | | discriminate |];
  intros c Hc; repeat (destruct Hc as [<- | Hc]; [reflexivity |]); contradiction.
Defined.

(** X13: [load_env_file] keeps every variable that is already set, and changes nothing without a .env file. *)
Theorem load_env_file_never_overrides (e : env) (k v : string) (file : option string) :
  (getenv e k = Some v -> getenv (load_env_file file e) k = Some v) /\
  load_env_file None e = e.
Proof.
  split; [| reflexivity].
  intro H. destruct file as [content |]; [| exact H].
  unfold load_env_file. rewrite EnvFacts.getenv_fold, H. reflexivity.
Qed.

Lemma load_env_file_never_overrides_witness :
  getenv (load_env_file (Some ("PGHOST=file-host" ++ nl)) [("PGHOST", "env-host")]) "PGHOST"
  = Some "env-host".
Proof.
  apply (proj1 (load_env_file_never_overrides [("PGHOST", "env-host")] "PGHOST" "env-host"
                  (Some ("PGHOST=file-host" ++ nl)))).
  reflexivity.
Defined.

(** X14: Where [main] takes the bot token from, and when it logs the missing-token error. *)
Theorem main_token_sources :
  (forall s cred, s <> EmptyString ->
     main_token (Some s) cred = (s, String.eqb s placeholder_token)) /\
  (forall benv t rest, (benv = None \/ benv = Some EmptyString) -> t <> EmptyString ->
     all_chars (fun x => negb (is_space x)) t ->
     main_token benv (Some ("bot_token=" ++ t ++ nl ++ rest)) = (t, String.eqb t placeholder_token)) /\
  (forall benv cred, (benv = None \/ benv = Some EmptyString) ->
     (get_token_from_file cred = None \/ get_token_from_file cred = Some EmptyString) ->
     main_token benv cred = (placeholder_token, true)).
Proof.
  split; [| split].
  - intros [| c s] cred H; [congruence | reflexivity].
  - intros benv t rest Hb Ht Hs. unfold main_token.
    rewrite TokenFacts.token_line by assumption.
    destruct t as [| c t']; [congruence |].
    destruct Hb as [-> | ->]; reflexivity.
  - intros benv cred Hb H. unfold main_token.
    destruct H as [H | H]; rewrite H; destruct Hb as [-> | ->]; reflexivity.
Qed.

(** X15: [_get_pool] fails exactly on a missing setting and reuses the first pool it creates. *)
Theorem get_pool_settings (connects : string -> bool) (c c' : pg_settings) (pool : option string) :
  (fst (get_pool connects c None) = inl missing_settings_msg <->
   (truthy (pghost c) && truthy (pgdatabase c) && truthy (pguser c) && truthy (pgpassword c))%bool = false) /\
  (snd (get_pool connects c None) = None \/ snd (get_pool connects c None) = Some (conn_string c)) /\
  (forall p, get_pool connects c None = (inr p, Some p) ->
     get_pool connects c' (Some p) = (inr (conn_string c), Some (conn_string c))).
Proof.
  unfold get_pool.
  destruct (truthy (pghost c) && truthy (pgdatabase c) && truthy (pguser c) && truthy (pgpassword c))%bool.
  - destruct (connects (conn_string c)); cbn [fst snd].
    + split; [split; [discriminate | discriminate] |]. split; [right; reflexivity |].
      intros p H. injection H as <-. reflexivity.
    + split; [split; [intro H; injection H; unfold missing_settings_msg; discriminate | discriminate] |].
      split; [left; reflexivity | intros p H; discriminate].
  - cbn [fst snd]. split; [tauto |]. split; [left; reflexivity | intros p H; discriminate].
Qed.

(** X16: Only the mode require reaches the connection string; every other PGSSLMODE is dropped. *)
Theorem conn_string_sslmode (h d u pw : option string) (port : Z) (m1 m2 : string) :
  m1 <> "require" -> m2 <> "require" ->
  conn_string (mkPg h port d u pw m1) = conn_string (mkPg h port d u pw m2) /\
  conn_string (mkPg h port d u pw "require")
  = (conn_string (mkPg h port d u pw m1) ++ " sslmode=require")%string.
Proof.
  intros H1 H2. unfold conn_string; cbn [pghost pgport pgdatabase pguser pgpassword pgsslmode].
  destruct (String.eqb_spec m1 "require"); [contradiction |].
  destruct (String.eqb_spec m2 "require"); [contradiction |].
  split; [reflexivity |]. rewrite String.eqb_refl.
  rewrite !DateFacts.str_app_assoc. reflexivity.
Qed.

Lemma conn_string_sslmode_witness :
  conn_string (mkPg (Some "h") 5432 (Some "d") (Some "u") (Some "p") "disable")
  = conn_string (mkPg (Some "h") 5432 (Some "d") (Some "u") (Some "p") "verify-full") /\
  conn_string (mkPg (Some "h") 5432 (Some "d") (Some "u") (Some "p") "require")
  = (conn_string (mkPg (Some "h") 5432 (Some "d") (Some "u") (Some "p") "disable") ++ " sslmode=require")%string.
Proof. apply conn_string_sslmode; discriminate. Defined.

(** X17: The defaults and the parsing of PGPORT and PGSSLMODE. *)
Theorem pg_settings_defaults (e : env) :
  (getenv e "PGPORT" = None ->
   exists c, pg_settings_of e = Some c /\ pgport c = 5432 /\
     pghost c = getenv e "PGHOST" /\ pgdatabase c = getenv e "PGDATABASE" /\
     (getenv e "PGSSLMODE" = None -> pgsslmode c = "require")) /\
  (forall p, getenv e "PGPORT" = Some p -> py_int p = None -> pg_settings_of e = None) /\
  (forall n, Z.abs n < 10 ^ 4300 -> getenv e "PGPORT" = Some (str_int n) ->
   exists c, pg_settings_of e = Some c /\ pgport c = n) /\
  (forall n, 10 ^ 4300 <= Z.abs n -> getenv e "PGPORT" = Some (str_int n) ->
   pg_settings_of e = None).
Proof.
  split; [| split; [| split]].
  - intro H. unfold pg_settings_of. rewrite H.
    eexists. split; [reflexivity |]. cbn [pgport pghost pgdatabase pgsslmode].
    repeat split. intro Hm. rewrite Hm. reflexivity.
  - intros p H Hp. unfold pg_settings_of. rewrite H, Hp. reflexivity.
  - intros n Hn H. unfold pg_settings_of. rewrite H, IntFacts.py_int_str_int by exact Hn.
    eexists. split; reflexivity.
  - intros n Hn H. unfold pg_settings_of. rewrite H, IntFacts.py_int_str_int_long by exact Hn.
    reflexivity.
Qed.

(** X18: [migrate] on rows that all pass inserts them all and its last count is the number of rows. *)
Theorem migrate_all_rows_ok (jl : string -> option json) (jd : json -> string) (pc : nrow -> bool)
    (bs : nat) (rows : list srow) (pg : list nrow) :
  forallb (row_ok pc) (map (normalize_row jl jd) rows) = true ->
  exists outs, migrate jl jd pc bs rows pg = (insert_rows pg (map (normalize_row jl jd) rows), outs, false)
    /\ last outs 0%Z = Z.of_nat (List.length rows).
Proof.
  intro Hok. unfold migrate.
  destruct (MigrateFacts.fetchmany_spec bs rows) as [Eapp Hne].
  destruct (fetchmany bs rows) as [first rest]. cbn [fst snd] in Eapp, Hne.
  destruct (MigrateFacts.loop_success jl jd pc (S (List.length rows)) bs first rest pg 0%Z)
    as [outs [E Hl]].
  - rewrite <- Eapp, length_app. lia.
  - exact Hne.
  - rewrite Eapp. exact Hok.
  - exists outs. rewrite Eapp in E, Hl. split; [exact E | exact Hl].
Qed.

(** X19: [migrate] stops at the first failing batch, keeping the batches committed before it. *)
Theorem migrate_stops_at_bad_batch (jl : string -> option json) (jd : json -> string)
    (pc : nrow -> bool) (bs k : nat) (pre post : list srow) (pg : list nrow) :
  (0 < bs)%nat -> List.length pre = (k * bs)%nat ->
  forallb (row_ok pc) (map (normalize_row jl jd) pre) = true ->
  forallb (row_ok pc) (map (normalize_row jl jd) (firstn bs post)) = false ->
  fst (fst (migrate jl jd pc bs (pre ++ post) pg)) = insert_rows pg (map (normalize_row jl jd) pre)
  /\ snd (migrate jl jd pc bs (pre ++ post) pg) = true.
Proof.
  intros Hbs Hlen Hpre Hpost. unfold migrate.
  replace (fetchmany bs (pre ++ post)) with (firstn bs (pre ++ post), skipn bs (pre ++ post))
    by (unfold fetchmany; destruct bs; [lia | reflexivity]).
  apply (MigrateFacts.loop_failure jl jd pc bs Hbs k); try assumption.
  rewrite length_app. lia.
Qed.

(** X20: [migrate] only appends to the PostgreSQL table. *)
Theorem migrate_keeps_existing_rows (jl : string -> option json) (jd : json -> string)
    (pc : nrow -> bool) (bs : nat) (rows : list srow) (pg : list nrow) :
  exists sfx, fst (fst (migrate jl jd pc bs rows pg)) = (pg ++ sfx)%list.
Proof. unfold migrate. destruct (fetchmany bs rows). apply MigrateFacts.loop_extends. Qed.

(** X21: A second [migrate] after a successful one changes nothing and prints the same counts. *)
Theorem migrate_rerun_same (jl : string -> option json) (jd : json -> string)
    (pc : nrow -> bool) (bs : nat) (rows : list srow) (pg : list nrow) :
  forallb (row_ok pc) (map (normalize_row jl jd) rows) = true ->
  migrate jl jd pc bs rows (fst (fst (migrate jl jd pc bs rows pg))) = migrate jl jd pc bs rows pg.
Proof.
  intro Hok.
  assert (Hind : forall pg1 pg2,
    snd (fst (migrate jl jd pc bs rows pg1)) = snd (fst (migrate jl jd pc bs rows pg2))).
  { intros pg1 pg2. unfold migrate. destruct (fetchmany bs rows).
    apply MigrateFacts.loop_indep. }
  destruct (MigrateFacts.fetchmany_spec bs rows) as [Eapp Hne].
  assert (Hrun : forall q, migrate jl jd pc bs rows q
     = (insert_rows q (map (normalize_row jl jd) rows), snd (fst (migrate jl jd pc bs rows q)), false)).
  { intro q. unfold migrate in *.
    destruct (fetchmany bs rows) as [first rest]. cbn [fst snd] in Eapp, Hne.
    destruct (MigrateFacts.loop_success jl jd pc (S (List.length rows)) bs first rest q 0%Z)
      as [outs [E _]].
    - rewrite <- Eapp, length_app. lia.
    - exact Hne.
    - rewrite Eapp. exact Hok.
    - rewrite Eapp in E. rewrite E. reflexivity. }
  rewrite (Hrun (fst (fst (migrate jl jd pc bs rows pg)))), (Hrun pg) at 1. cbn [fst].
  rewrite (Hind _ pg).
  assert (Hids : forall r, In r (map (normalize_row jl jd) rows) -> exists z, n_id r = Some z).
  { intros r Hr. apply (MigrateFacts.row_ok_id pc). rewrite forallb_forall in Hok. exact (Hok r Hr). }
  rewrite (MigrateFacts.insert_rows_all_taken (map (normalize_row jl jd) rows)).
  - rewrite (Hrun pg). reflexivity.
  - intros r Hr. apply MigrateFacts.insert_rows_taken; assumption.
Qed.

Lemma quick_cmd_saved_shape_witness :
  "food" <> EmptyString /\ all_chars (fun x => is_word x || is_char 45 x) "food" /\
  (0 <= 250)%Q /\
  (forall g, Some "team lunch" = Some g -> g <> EmptyString /\
     all_chars (fun x => negb (is_char 34 x)) g).
Proof.
  apply (quick_cmd_saved_shape strptime_ymd today_ex 7 ("/quick food 250 --desc " ++ dq ++ "team lunch" ++ dq)
           [] [mkTx 1 7 "food" 250 "INR" today_ex (Some "team lunch")] "food" 250 today_ex (Some "team lunch")).
  vm_compute. reflexivity.
Defined.


Lemma csv_line_description_reads_back_witness :
  exists field,
    csv_line (fun _ => "250.0") (1, "2025-11-12", "food", 250%Q, "INR", Some ("say " ++ dq ++ "hi" ++ dq))
    = (join "," [str_int 1; "2025-11-12"; "food"; "250.0"; "INR"] ++ "," ++ field)%string /\
    csv_read_quoted (field ++ EmptyString) = Some ("say " ++ dq ++ "hi" ++ dq, EmptyString).
Proof. apply csv_line_description_reads_back. left. reflexivity. Defined.

(** X22: [to_date] reads a valid date back from each of its four layouts. *)
Theorem to_date_four_layouts (d : date) (h mi sec : Z) :
  valid_date d = true -> 0 <= h <= 23 -> 0 <= mi <= 59 -> 0 <= sec <= 59 ->
  to_date (Some (isoformat d)) = DDate d /\
  to_date (Some (with_time (isoformat d) h mi sec)) = DDate d /\
  to_date (Some (strftime_dmy "-" d)) = DDate d /\
  to_date (Some (strftime_dmy "/" d)) = DDate d.
Proof. apply DateFacts.to_date_layouts_aux. Qed.

Lemma to_date_four_layouts_witness :
  to_date (Some (isoformat (mkDate 2024 2 29))) = DDate (mkDate 2024 2 29) /\
  to_date (Some (with_time (isoformat (mkDate 2024 2 29)) 23 59 59)) = DDate (mkDate 2024 2 29) /\
  to_date (Some (strftime_dmy "-" (mkDate 2024 2 29))) = DDate (mkDate 2024 2 29) /\
  to_date (Some (strftime_dmy "/" (mkDate 2024 2 29))) = DDate (mkDate 2024 2 29).
Proof. apply to_date_four_layouts; [reflexivity | lia | lia | lia]. Defined.

(** X23: [to_date] keeps the text of an impossible date such as the 30th of February. *)
Theorem to_date_keeps_impossible_date (d : date) :
  1 <= year d <= 9999 -> 1 <= month d <= 12 -> 1 <= day d <= 31 -> valid_date d = false ->
  to_date (Some (isoformat d)) = DText (isoformat d).
Proof. apply DateFacts.to_date_invalid_aux. Qed.

Lemma to_date_keeps_impossible_date_witness :
  to_date (Some (isoformat (mkDate 2025 2 30))) = DText (isoformat (mkDate 2025 2 30)).
Proof. apply to_date_keeps_impossible_date; cbn [year month day]; [lia | lia | lia | reflexivity]. Defined.



Lemma migrate_all_rows_ok_witness :
  exists outs, migrate (fun _ => None) (fun _ => EmptyString) (fun _ => true) 2
    [srow_ex 1 (Some "food"); srow_ex 2 (Some "taxi"); srow_ex 3 (Some "rent")] []
  = (insert_rows [] (map (normalize_row (fun _ => None) (fun _ => EmptyString))
       [srow_ex 1 (Some "food"); srow_ex 2 (Some "taxi"); srow_ex 3 (Some "rent")]), outs, false)
    /\ last outs 0%Z = Z.of_nat (List.length [srow_ex 1 (Some "food"); srow_ex 2 (Some "taxi"); srow_ex 3 (Some "rent")]).
Proof. apply migrate_all_rows_ok. vm_compute. reflexivity. Defined.

Lemma migrate_stops_at_bad_batch_witness :
  fst (fst (migrate (fun _ => None) (fun _ => EmptyString) (fun _ => true) 2
    ([srow_ex 1 (Some "food"); srow_ex 2 (Some "taxi")] ++ [srow_ex 3 None; srow_ex 4 (Some "rent")]) []))
  = insert_rows [] (map (normalize_row (fun _ => None) (fun _ => EmptyString))
       [srow_ex 1 (Some "food"); srow_ex 2 (Some "taxi")])
  /\ snd (migrate (fun _ => None) (fun _ => EmptyString) (fun _ => true) 2
    ([srow_ex 1 (Some "food"); srow_ex 2 (Some "taxi")] ++ [srow_ex 3 None; srow_ex 4 (Some "rent")]) []) = true.
Proof.
  apply (migrate_stops_at_bad_batch _ _ _ 2 1); [lia | reflexivity | vm_compute; reflexivity | vm_compute; reflexivity].
Defined.

Lemma migrate_rerun_same_witness :
  migrate (fun _ => None) (fun _ => EmptyString) (fun _ => true) 2
    [srow_ex 1 (Some "food"); srow_ex 2 (Some "taxi"); srow_ex 3 (Some "rent")]
    (fst (fst (migrate (fun _ => None) (fun _ => EmptyString) (fun _ => true) 2
      [srow_ex 1 (Some "food"); srow_ex 2 (Some "taxi"); srow_ex 3 (Some "rent")]
      [mkNrow (Some 2) (Some 9) (Some "old") (Some 1%Q) "INR" DNone None None None None "expense" false
         None "paid" DNone None None None])))
  = migrate (fun _ => None) (fun _ => EmptyString) (fun _ => true) 2
    [srow_ex 1 (Some "food"); srow_ex 2 (Some "taxi"); srow_ex 3 (Some "rent")]
    [mkNrow (Some 2) (Some 9) (Some "old") (Some 1%Q) "INR" DNone None None None None "expense" false
       None "paid" DNone None None None].
Proof. apply migrate_rerun_same. vm_compute. reflexivity. Defined.



(** X26: [/list N] asks for N rows for every integer N of at most 4300 digits; a longer N falls back to 10. *)
Theorem list_limit_round_trip (n : Z) :
  (Z.abs n < 10 ^ 4300 ->
   py_int (str_int n) = Some n /\ list_limit ("/list " ++ str_int n) = n /\
   list_limit ("/list " ++ str_int n ++ " extra words") = n) /\
  (10 ^ 4300 <= Z.abs n -> list_limit ("/list " ++ str_int n) = 10).
Proof.
  destruct (IntFacts.str_int_nonspace n) as [Hne Hs].
  assert (Hsplit : py_split ("/list " ++ str_int n) = ["/list"; str_int n]).
  { unfold py_split. simpl append. simpl split_words_acc.
    rewrite IntFacts.split_words_nonspace by exact Hs.
    destruct (str_int n) as [| c r]; [congruence |]. cbn [rev app].
    rewrite string_of_list_ascii_of_string. reflexivity. }
  split.
  - intro Hn. split; [apply IntFacts.py_int_str_int, Hn | split].
    + unfold list_limit. rewrite Hsplit, IntFacts.py_int_str_int by exact Hn. reflexivity.
    + unfold list_limit, py_split. simpl append.
      change (" extra words") with (String " " "extra words"). simpl split_words_acc.
      rewrite IntFacts.split_words_word_space by (exact Hs || reflexivity || (right; exact Hne)).
      cbn [rev app]. rewrite string_of_list_ascii_of_string, IntFacts.py_int_str_int by exact Hn.
      reflexivity.
  - intro Hn. unfold list_limit. rewrite Hsplit, IntFacts.py_int_str_int_long by exact Hn. reflexivity.
Qed.

Lemma list_limit_round_trip_witness :
  py_int (str_int 25) = Some 25 /\ list_limit ("/list " ++ str_int 25) = 25 /\
  list_limit ("/list " ++ str_int 25 ++ " extra words") = 25.
Proof.
  assert (H : Z.abs 25 < 10 ^ 4300).
  { apply Z.lt_le_trans with (10 ^ 2); [reflexivity |]. apply Z.pow_le_mono_r; lia. }
  exact (proj1 (list_limit_round_trip 25) H).
Defined.

(** X27: [normalize_row] fills currency, transaction type and status with their defaults. *)
Theorem normalize_row_text_defaults (jl : string -> option json) (jd : json -> string) (r : srow) :
  n_currency (normalize_row jl jd r) <> EmptyString /\
  n_transaction_type (normalize_row jl jd r) <> EmptyString /\
  n_status (normalize_row jl jd r) <> EmptyString /\
  (s_currency r = None \/ s_currency r = Some EmptyString -> n_currency (normalize_row jl jd r) = "INR") /\
  (forall v, s_currency r = Some v -> v <> EmptyString -> n_currency (normalize_row jl jd r) = v) /\
  (s_transaction_type r = None \/ s_transaction_type r = Some EmptyString ->
   n_transaction_type (normalize_row jl jd r) = "expense") /\
  (s_status r = None \/ s_status r = Some EmptyString -> n_status (normalize_row jl jd r) = "paid").
Proof.
  unfold normalize_row. cbn [n_currency n_transaction_type n_status].
  destruct (s_currency r) as [[| c0 v0] |], (s_transaction_type r) as [[| c1 v1] |],
    (s_status r) as [[| c2 v2] |]; cbn [py_or];
    (repeat split; try discriminate;
     try (intros [H | H]; discriminate H);
     try (intros v H; injection H as <-; intro; reflexivity);
     try (intros v H Hv; injection H as <-; congruence);
     try (intros v H; discriminate H)).
Qed.

(** X28: The fallback for tags that are not JSON: no tags when blank, else the stripped comma-separated pieces that are not empty. *)
Theorem tags_json_fallback (jl : string -> option json) (t : string) :
  jl (strip t) = None ->
  (strip t = EmptyString -> tags_json jl (Some t) = None) /\
  (strip t <> EmptyString ->
   tags_json jl (Some t)
   = Some (JArr (map JStr (filter (fun x => negb (String.eqb x EmptyString))
                                  (map strip (split_sep 44 (strip t))))))) /\
  (forall ps, ps <> [] -> Forall (all_chars (fun x => negb (is_char 44 x))) ps ->
     split_sep 44 (join "," ps) = ps) /\
  (forall l, tags_json jl (Some t) = Some (JArr l) ->
     Forall (fun x => exists s, x = JStr s /\ s <> EmptyString) l).
Proof.
  intro H. unfold tags_json. rewrite H. split; [| split; [| split]].
  - intro E. rewrite E. reflexivity.
  - intro E. apply String.eqb_neq in E. rewrite E. reflexivity.
  - intros ps Hne Hps. apply SplitFacts.split_sep_join; assumption.
  - destruct (String.eqb (strip t) EmptyString); [discriminate |].
    intros l E. injection E as <-. apply Forall_forall. intros x Hx.
    apply in_map_iff in Hx as (s & <- & Hs). apply filter_In in Hs as [_ Hs].
    exists s. split; [reflexivity |]. intro Es. rewrite Es in Hs. discriminate Hs.
Qed.

Lemma tags_json_fallback_witness :
  (strip "food, travel,," = EmptyString -> tags_json (fun _ => None) (Some "food, travel,,") = None) /\
  (strip "food, travel,," <> EmptyString ->
   tags_json (fun _ => None) (Some "food, travel,,")
   = Some (JArr (map JStr (filter (fun x => negb (String.eqb x EmptyString))
                                  (map strip (split_sep 44 (strip "food, travel,,"))))))) /\
  (forall ps, ps <> [] -> Forall (all_chars (fun x => negb (is_char 44 x))) ps ->
     split_sep 44 (join "," ps) = ps) /\
  (forall l, tags_json (fun _ => None) (Some "food, travel,,") = Some (JArr l) ->
     Forall (fun x => exists s, x = JStr s /\ s <> EmptyString) l).
Proof. apply tags_json_fallback. reflexivity. Defined.
